(** * API request converters (Claude, OpenAI, Gemini wire formats)

    A shallow embedding of the three request converters
    ([claude_to_gemini_converter.py], [converter_openai2gemini.py],
    [converter_claude2openai.py]) over JSON values, with the properties
    the design document states about them, and of the pure parts of
    [gemini_api_caller.py] (what [call_gemini] makes of a parsed
    response) and [compare_function_calls.py] (the extractors and
    [format_arguments]).

    The converters are dynamically typed: every [.get], subscript, [in],
    iteration and truth test is applied to whatever JSON value the
    request holds.  The embedding keeps that: values are untyped JSON
    trees, and an operation that raises in Python returns [None], which
    propagates to the caller as an uncaught exception does. *)

From Stdlib Require Import List String Ascii ZArith Bool Lia DecimalString
  Permutation.
Import ListNotations.
Open Scope string_scope.

(* ================================================================== *)
(** * JSON values *)
(* ================================================================== *)

(** A request is what [json.load] returns: a tree without sharing.
    Objects keep their entries in insertion order, as Python dicts do.
    Numbers are the integers: the converters never compute with a
    number, they only test it for truth, compare it with a string, use
    it as a dict key or print it. *)
Unset Elimination Schemes.
Inductive json : Type :=
| JNull
| JBool (b : bool)
| JInt (n : Z)
| JStr (s : string)
| JArr (l : list json)
| JObj (kv : list (string * json)).
Set Elimination Schemes.

(** Evaluation of a Python expression: [None] when an exception is
    raised and not caught. *)
Definition py (A : Type) : Type := option A.

Definition bind {A B : Type} (m : py A) (k : A -> py B) : py B :=
  match m with
  | Some a => k a
  | None => None
  end.

Notation "x <- m ;; k" := (bind m (fun x => k))
  (at level 61, m at next level, right associativity).

Fixpoint mapM {A B : Type} (f : A -> py B) (l : list A) : py (list B) :=
  match l with
  | [] => Some []
  | a :: t => b <- f a ;; bs <- mapM f t ;; Some (b :: bs)
  end.

(** A comprehension [[x for x in l if keep(x)]] whose test may raise. *)
Fixpoint filterM {A : Type} (keep : A -> py bool) (l : list A) : py (list A) :=
  match l with
  | [] => Some []
  | a :: t =>
      k <- keep a ;; r <- filterM keep t ;; Some (if k then a :: r else r)
  end.

(** A loop that updates a local variable and may raise. *)
Fixpoint foldM {A S : Type} (f : S -> A -> py S) (s : S) (l : list A) : py S :=
  match l with
  | [] => Some s
  | a :: t => s' <- f s a ;; foldM f s' t
  end.

(* ------------------------------------------------------------------ *)
(** ** Dictionaries *)

Fixpoint dict_lookup (k : string) (kv : list (string * json)) : option json :=
  match kv with
  | [] => None
  | (k', v) :: t => if String.eqb k' k then Some v else dict_lookup k t
  end.

(** [d[k] = v]: an existing key keeps its position, a new one goes last. *)
Fixpoint dict_set (k : string) (v : json) (kv : list (string * json))
  : list (string * json) :=
  match kv with
  | [] => [(k, v)]
  | (k', v') :: t =>
      if String.eqb k' k then (k, v) :: t else (k', v') :: dict_set k v t
  end.

Definition dict_has (k : string) (kv : list (string * json)) : bool :=
  match dict_lookup k kv with Some _ => true | None => false end.

(* ------------------------------------------------------------------ *)
(** ** Strings *)

(** [needle in hay] on two strings. *)
Fixpoint str_contains (needle hay : string) : bool :=
  if String.prefix needle hay then true
  else match hay with
       | EmptyString => false
       | String _ t => str_contains needle t
       end.

(** A string holds a Python [str] as the bytes of its UTF-8 encoding.
    A character is a byte that is no continuation byte, with the
    continuation bytes ([10xxxxxx]) that follow it. *)
Definition continuation (a : ascii) : bool :=
  match a with
  | Ascii _ _ _ _ _ _ false true => true
  | _ => false
  end.

(** [len(s)]: the number of characters. *)
Fixpoint str_len (s : string) : nat :=
  match s with
  | EmptyString => O
  | String a t => if continuation a then str_len t else S (str_len t)
  end.


(** [list(s)]: the characters of [s]. *)
Fixpoint str_chars (s : string) : list string :=
  match s with
  | EmptyString => []
  | String a t =>
      match t with
      | String b _ =>
          if continuation b then
            match str_chars t with
            | c :: rest => String a c :: rest
            | [] => [String a EmptyString]
            end
          else String a EmptyString :: str_chars t
      | EmptyString => [String a EmptyString]
      end
  end.

(** [sep.join(parts)] *)
Fixpoint str_join (sep : string) (parts : list string) : string :=
  match parts with
  | [] => ""
  | [s] => s
  | s :: t => s ++ sep ++ str_join sep t
  end.

(* ------------------------------------------------------------------ *)
(** ** Python's operations on a JSON value *)

(** [v == s] for a string literal [s]: only a string equals a string. *)
Definition eq_str (v : json) (s : string) : bool :=
  match v with
  | JStr t => String.eqb t s
  | _ => false
  end.

(** [bool(v)] *)
Definition truthy (v : json) : bool :=
  match v with
  | JNull => false
  | JBool b => b
  | JInt n => negb (Z.eqb n 0)
  | JStr s => negb (String.eqb s "")
  | JArr l => match l with [] => false | _ => true end
  | JObj kv => match kv with [] => false | _ => true end
  end.

(** [d.get(k, dflt)]: AttributeError unless [d] is a dict. *)
Definition py_get (d : json) (k : string) (dflt : json) : py json :=
  match d with
  | JObj kv => Some (match dict_lookup k kv with Some v => v | None => dflt end)
  | _ => None
  end.

(** [c[k]] with a string [k]: KeyError on a missing key, TypeError on a
    list or a string, and on anything else. *)
Definition py_getitem (c : json) (k : string) : py json :=
  match c with
  | JObj kv => dict_lookup k kv
  | _ => None
  end.

(** [c[k] = v] with a string [k]. *)
Definition py_setitem (c : json) (k : string) (v : json) : py json :=
  match c with
  | JObj kv => Some (JObj (dict_set k v kv))
  | _ => None
  end.

(** [k in c] with a string [k]: key of a dict, element of a list,
    substring of a string; TypeError on the rest. *)
Definition py_in (k : string) (c : json) : py bool :=
  match c with
  | JObj kv => Some (dict_has k kv)
  | JArr l => Some (existsb (fun v => eq_str v k) l)
  | JStr s => Some (str_contains k s)
  | _ => None
  end.

(** [for x in c]: the elements of a list, the keys of a dict, the
    characters of a string; TypeError on the rest. *)
Definition py_iter (c : json) : py (list json) :=
  match c with
  | JArr l => Some l
  | JObj kv => Some (map (fun p => JStr (fst p)) kv)
  | JStr s => Some (map JStr (str_chars s))
  | _ => None
  end.

(** [len(c)] *)
Definition py_len (c : json) : py nat :=
  match c with
  | JArr l => Some (List.length l)
  | JObj kv => Some (List.length kv)
  | JStr s => Some (str_len s)
  | _ => None
  end.

Definition is_str (v : json) : bool :=
  match v with JStr _ => true | _ => false end.

Definition is_list (v : json) : bool :=
  match v with JArr _ => true | _ => false end.

Definition is_dict (v : json) : bool :=
  match v with JObj _ => true | _ => false end.

(** What the converters take from the Python runtime and the [json]
    module.  [py_repr] is [repr] of a list or dict, [json_loads] is
    [json.loads] ([None] when it raises), [json_dumps] is [json.dumps]. *)
Class PyRuntime : Type := {
  py_repr : json -> string;
  json_loads : string -> option json;
  json_dumps : json -> string
}.

(** [str(v)], also what an f-string field prints. *)
Definition py_str {rt : PyRuntime} (v : json) : string :=
  match v with
  | JStr s => s
  | JInt n => NilZero.string_of_int (Z.to_int n)
  | JBool true => "True"
  | JBool false => "False"
  | JNull => "None"
  | _ => py_repr v
  end.

(* ------------------------------------------------------------------ *)
(** ** The dict from call identifier to function name *)

(** The converters key this dict by whatever JSON value a call carries
    as its identifier.  A list or a dict is not hashable (TypeError);
    [True] and [1] are one key, as are [False] and [0]. *)
Definition hashable (k : json) : bool :=
  match k with
  | JArr _ | JObj _ => false
  | _ => true
  end.

Definition key_num (k : json) : option Z :=
  match k with
  | JInt n => Some n
  | JBool b => Some (if b then 1 else 0)%Z
  | _ => None
  end.

Definition key_eqb (a b : json) : bool :=
  match a, b with
  | JNull, JNull => true
  | JStr s, JStr t => String.eqb s t
  | _, _ =>
      match key_num a, key_num b with
      | Some x, Some y => Z.eqb x y
      | _, _ => false
      end
  end.

Definition idmap : Type := list (json * json).

Fixpoint idmap_find (k : json) (m : idmap) : option json :=
  match m with
  | [] => None
  | (k', v) :: t => if key_eqb k' k then Some v else idmap_find k t
  end.

Fixpoint idmap_put (k v : json) (m : idmap) : idmap :=
  match m with
  | [] => [(k, v)]
  | (k', v') :: t =>
      if key_eqb k' k then (k', v) :: t else (k', v') :: idmap_put k v t
  end.

(** [m[k] = v] *)
Definition idmap_set (m : idmap) (k v : json) : py idmap :=
  if hashable k then Some (idmap_put k v m) else None.

(** [m.get(k, dflt)] *)
Definition idmap_get (m : idmap) (k dflt : json) : py json :=
  if hashable k
  then Some (match idmap_find k m with Some v => v | None => dflt end)
  else None.

(* ================================================================== *)
(** * The repair pass of the two Gemini-target converters *)
(* ================================================================== *)

(** [fix_request_issues] has the same text in
    [claude_to_gemini_converter.py] and [converter_openai2gemini.py].
    It works on [copy.deepcopy(request_data)]; on a tree that copy is
    the value itself, and each in-place assignment below builds the
    updated tree. *)
Module GeminiRepair.

(** The test of the [contents] comprehension:
    ['parts' in content and content['parts'] and len(content['parts']) > 0] *)
Definition has_parts (content : json) : py bool :=
  c <- py_in "parts" content ;;
  if c then
    parts <- py_getitem content "parts" ;;
    if truthy parts then n <- py_len parts ;; Some (0 <? n)%nat
    else Some false
  else Some false.

(** ['required' in func['parameters'] and name in func['parameters']['required']] *)
Definition required_mentions (func : json) (name : string) : py bool :=
  params <- py_getitem func "parameters" ;;
  c <- py_in "required" params ;;
  if c then req <- py_getitem params "required" ;; py_in name req
  else Some false.

(** [func['parameters']['required'] = [... for param in func['parameters']['required']]],
    with [f] the effect of the comprehension on the listed values. *)
Definition set_required (func : json) (f : list json -> list json) : py json :=
  params <- py_getitem func "parameters" ;;
  req <- py_getitem params "required" ;;
  items <- py_iter req ;;
  params' <- py_setitem params "required" (JArr (f items)) ;;
  py_setitem func "parameters" params'.

(** [[new if param == old else param for param in ...]] *)
Definition renamed (old new : string) (items : list json) : list json :=
  map (fun param => if eq_str param old then JStr new else param) items.

(** [[param for param in ... if param != old]] *)
Definition without (old : string) (items : list json) : list json :=
  filter (fun param => negb (eq_str param old)) items.

(** The second patch of [gemini_edit]: the type of [images] from a
    list such as [["array", "null"]] to ["array"]. *)
Definition fix_images_type (func : json) : py json :=
  params <- py_getitem func "parameters" ;;
  c1 <- py_in "properties" params ;;
  c2 <- (if c1 then props <- py_getitem params "properties" ;; py_in "images" props
         else Some false) ;;
  if c2 then
    props <- py_getitem params "properties" ;;
    images <- py_getitem props "images" ;;
    ty <- py_get images "type" JNull ;;
    if is_list ty then
      images' <- py_setitem images "type" (JStr "array") ;;
      props' <- py_setitem props "images" images' ;;
      params' <- py_setitem params "properties" props' ;;
      py_setitem func "parameters" params'
    else Some func
  else Some func.

(** The body of [for func in tool['functionDeclarations']]. *)
Definition fix_declaration (func : json) : py json :=
  name <- py_get func "name" JNull ;;
  if eq_str name "segment_anything" then
    c <- required_mentions func "object" ;;
    if c then set_required func (renamed "object" "object_english_name")
    else Some func
  else if eq_str name "Pira_image2image" then
    c <- required_mentions func "cfg" ;;
    if c then set_required func (without "cfg")
    else Some func
  else if eq_str name "gemini_edit" then
    c <- required_mentions func "image" ;;
    func <- (if c then set_required func (renamed "image" "images")
             else Some func) ;;
    fix_images_type func
  else if eq_str name "outpaint" then
    c <- required_mentions func "prompt" ;;
    if c then set_required func (renamed "prompt" "english_prompt")
    else Some func
  else Some func.

(** [if k in d and isinstance(d[k], list): d[k] = f(d[k])].  The pass
    has this shape three times: the [contents] comprehension, and the
    two loops that patch the elements of a list in place. *)
Definition on_list_field (k : string) (f : list json -> py (list json))
    (d : json) : py json :=
  c <- py_in k d ;;
  if c then
    v <- py_getitem d k ;;
    match v with
    | JArr l => l' <- f l ;; py_setitem d k (JArr l')
    | _ => Some d
    end
  else Some d.

(** The body of [for tool in fixed_data['tools']]. *)
Definition fix_tool (tool : json) : py json :=
  on_list_field "functionDeclarations" (mapM fix_declaration) tool.

Definition fix_request_issues (request_data : json) : py json :=
  let fixed_data := request_data in
  fixed_data <- on_list_field "contents" (filterM has_parts) fixed_data ;;
  on_list_field "tools" (mapM fix_tool) fixed_data.

End GeminiRepair.

(* ================================================================== *)
(** * The two regular expressions *)
(* ================================================================== *)

Definition backtick : ascii := "`"%char.
Definition newline : ascii := "010"%char.
Definition nl : string := String newline EmptyString.

(** [s] without the prefix [p], when it starts with it. *)
Fixpoint strip_prefix (p s : string) : option string :=
  match p with
  | EmptyString => Some s
  | String a p' =>
      match s with
      | String b s' => if Ascii.eqb a b then strip_prefix p' s' else None
      | EmptyString => None
      end
  end.

(** The longest prefix of [s] free of [stop], and what follows it. *)
Fixpoint span_until (stop : ascii) (s : string) : string * string :=
  match s with
  | EmptyString => (EmptyString, EmptyString)
  | String a t =>
      if Ascii.eqb a stop then (EmptyString, s)
      else let (x, r) := span_until stop t in (String a x, r)
  end.

Definition tool_marker : string := "Observation of Tool `".

(** The pattern [Observation of Tool `([^`]+)`] matched at the start of
    [s]: the marker, one or more characters other than a backtick (as
    many as there are: a shorter run is followed by no backtick), and a
    backtick.  The result is group 1. *)
Definition match_tool_at (s : string) : option string :=
  match strip_prefix tool_marker s with
  | Some rest =>
      match span_until backtick rest with
      | (String a name, String _ _) => Some (String a name)
      | _ => None
      end
  | None => None
  end.

(** [re.search(r'Observation of Tool `([^`]+)`', s)]: the match at the
    leftmost position that has one; [match.group(1)]. *)
Fixpoint search_tool_name (s : string) : option string :=
  match match_tool_at s with
  | Some name => Some name
  | None =>
      match s with
      | EmptyString => None
      | String _ t => search_tool_name t
      end
  end.

(** [re.match(r'data:([^;]+);base64,(.+)', url)]: groups 1 and 2.  A
    dot matches every character but a newline. *)
Definition match_data_url (url : string) : option (string * string) :=
  match strip_prefix "data:" url with
  | Some rest =>
      match span_until ";"%char rest with
      | (String a mime, rest1) =>
          match strip_prefix ";base64," rest1 with
          | Some tail =>
              match span_until newline tail with
              | (String b data, _) => Some (String a mime, String b data)
              | _ => None
              end
          | None => None
          end
      | _ => None
      end
  | None => None
  end.

(* ================================================================== *)
(** * Claude to Gemini *)
(* ================================================================== *)

Module ClaudeToGemini.
Section Converter.
Context {rt : PyRuntime}.

(** The body of [for item in content]: the parts it appends. *)
Definition convert_item (item : json) : py (list json) :=
  match item with
  | JStr _ => Some [JObj [("text", item)]]
  | JObj _ =>
      ty <- py_get item "type" JNull ;;
      if eq_str ty "text" then
        text <- py_get item "text" (JStr "") ;;
        Some [JObj [("text", text)]]
      else if eq_str ty "image" then
        source <- py_get item "source" (JObj []) ;;
        mime_type <- py_get source "media_type" (JStr "image/jpeg") ;;
        data <- py_get source "data" (JStr "") ;;
        Some [JObj [("inline_data",
                     JObj [("mime_type", mime_type); ("data", data)])]]
      else if eq_str ty "tool_use" then
        function_name <- py_get item "name" (JStr "unknown") ;;
        function_args <- py_get item "input" (JObj []) ;;
        Some [JObj [("functionCall",
                     JObj [("name", function_name); ("args", function_args)])]]
      else if eq_str ty "tool_result" then
        content <- py_get item "content" (JStr "") ;;
        match content with
        | JStr s =>
            let function_name :=
              match search_tool_name s with
              | Some name => name
              | None => "unknown"
              end in
            Some [JObj [("functionResponse",
                         JObj [("name", JStr function_name);
                               ("response", JObj [("result", content)])])]]
        | _ => None (* re.search: expected string or bytes-like object *)
        end
      else Some []
  | _ => Some []
  end.

(** [parts] for a message's [content]. *)
Definition content_parts (content : json) : py (list json) :=
  match content with
  | JStr _ => Some [JObj [("text", content)]]
  | JArr items => ps <- mapM convert_item items ;; Some (List.concat ps)
  | _ => Some [JObj [("text", JStr (py_str content))]]
  end.

Definition turn (role : string) (parts : list json) : json :=
  JObj [("role", JStr role); ("parts", JArr parts)].

(** The body of [for message in claude_messages]: the turns it appends
    to [gemini_messages]. *)
Definition convert_message (message : json) : py (list json) :=
  role <- py_get message "role" (JStr "") ;;
  content <- py_get message "content" (JStr "") ;;
  if eq_str role "user" then
    parts <- content_parts content ;; Some [turn "user" parts]
  else if eq_str role "assistant" then
    parts <- content_parts content ;; Some [turn "model" parts]
  else if eq_str role "tool" then
    tool_name <- py_get message "name" (JStr "tool") ;;
    let tool_content :=
      "Tool Response (" ++ py_str tool_name ++ "):" ++ nl ++ py_str content in
    Some [turn "model" [JObj [("text", JStr tool_content)]]]
  else if eq_str role "system" then Some []
  else
    parts <- content_parts content ;; Some [turn "user" parts].

Definition convert_messages (claude_messages : list json) : py (list json) :=
  turns <- mapM convert_message claude_messages ;; Some (List.concat turns).

(** The body of [for tool in claude_tools]. *)
Definition convert_tool (tool : json) : py json :=
  input_schema <- py_get tool "input_schema" (JObj []) ;;
  name <- py_get tool "name" (JStr "") ;;
  description <- py_get tool "description" (JStr "") ;;
  Some (JObj [("name", name); ("description", description);
              ("parameters", input_schema)]).

Definition convert_tools (claude_tools : json) : py (list json) :=
  if negb (truthy claude_tools) then Some []
  else tools <- py_iter claude_tools ;; mapM convert_tool tools.

Definition fix_request_issues : json -> py json :=
  GeminiRepair.fix_request_issues.

(** [msg.get("role") == "system"] *)
Definition is_system (msg : json) : py bool :=
  role <- py_get msg "role" JNull ;; Some (eq_str role "system").

(** [msg.get("content", "")] as an operand of [str.join]: TypeError
    unless it is a string. *)
Definition system_text (msg : json) : py string :=
  content <- py_get msg "content" (JStr "") ;;
  match content with
  | JStr s => Some s
  | _ => None
  end.

(** [convert_request] up to its last statement: [gemini_request] as it
    is handed to [fix_request_issues]. *)
Definition assemble_request (claude_request : json) : py json :=
  messages <- py_get claude_request "messages" (JArr []) ;;
  tools <- py_get claude_request "tools" (JArr []) ;;
  messages <- py_iter messages ;;
  system_messages <- filterM is_system messages ;;
  non_system_messages <-
    filterM (fun msg => c <- is_system msg ;; Some (negb c)) messages ;;
  gemini_contents <- convert_messages non_system_messages ;;
  let gemini_request := [("contents", JArr gemini_contents)] in
  gemini_request <-
    match system_messages with
    | [] => Some gemini_request
    | _ =>
        texts <- mapM system_text system_messages ;;
        Some (dict_set "systemInstruction"
                (JObj [("parts", JArr [JObj [("text", JStr (str_join nl texts))]])])
                gemini_request)
    end ;;
  gemini_request <-
    (if truthy tools then
       gemini_functions <- convert_tools tools ;;
       match gemini_functions with
       | [] => Some gemini_request
       | _ =>
           Some (dict_set "tools"
                   (JArr [JObj [("functionDeclarations", JArr gemini_functions)]])
                   gemini_request)
       end
     else Some gemini_request) ;;
  Some (JObj gemini_request).

Definition convert_request (claude_request : json) : py json :=
  gemini_request <- assemble_request claude_request ;;
  fix_request_issues gemini_request.

End Converter.
End ClaudeToGemini.

(* ================================================================== *)
(** * OpenAI to Gemini *)
(* ================================================================== *)

Module OpenAIToGemini.
Section Converter.
Context {rt : PyRuntime}.

(** The body of [for tool_call in message["tool_calls"]] in the first
    loop: one entry of [tool_call_id_to_name]. *)
Definition record_call (tool_call_id_to_name : idmap) (tool_call : json)
  : py idmap :=
  tool_call_id <- py_get tool_call "id" (JStr "") ;;
  function_data <- py_get tool_call "function" (JObj []) ;;
  tool_name <- py_get function_data "name" (JStr "") ;;
  if truthy tool_call_id && truthy tool_name
  then idmap_set tool_call_id_to_name tool_call_id tool_name
  else Some tool_call_id_to_name.

(** ["tool_calls" in message and message["tool_calls"]]: the calls of a
    message, or [JNull] when it has none. *)
Definition tool_calls_of (message : json) : py json :=
  c <- py_in "tool_calls" message ;;
  if c then
    tool_calls <- py_getitem message "tool_calls" ;;
    Some (if truthy tool_calls then tool_calls else JNull)
  else Some JNull.

(** The body of the first [for message in openai_messages]. *)
Definition record_message (tool_call_id_to_name : idmap) (message : json)
  : py idmap :=
  tool_calls <- tool_calls_of message ;;
  if truthy tool_calls then
    calls <- py_iter tool_calls ;;
    foldM record_call tool_call_id_to_name calls
  else Some tool_call_id_to_name.

Definition build_tool_call_map (openai_messages : list json) : py idmap :=
  foldM record_message [] openai_messages.

(** The body of [for tool_call in message["tool_calls"]] in the second
    loop: the part it appends. *)
Definition convert_tool_call (tool_call : json) : py json :=
  function_data <- py_get tool_call "function" (JObj []) ;;
  args <- py_get function_data "arguments" (JStr "{}") ;;
  let args :=
    match args with
    | JStr text =>
        match json_loads text with
        | Some value => value
        | None => JObj []
        end
    | _ => args
    end in
  name <- py_get function_data "name" (JStr "") ;;
  Some (JObj [("functionCall", JObj [("name", name); ("args", args)])]).

(** The body of [for item in content]: the parts it appends. *)
Definition convert_item (item : json) : py (list json) :=
  match item with
  | JObj _ =>
      ty <- py_get item "type" JNull ;;
      if eq_str ty "text" then
        text <- py_get item "text" (JStr "") ;;
        Some [JObj [("text", text)]]
      else if eq_str ty "image_url" then
        image_url_data <- py_get item "image_url" (JObj []) ;;
        url <- py_get image_url_data "url" (JStr "") ;;
        match url with
        | JStr u =>
            if String.prefix "data:" u then
              match match_data_url u with
              | Some (mime_type, base64_data) =>
                  Some [JObj [("inline_data",
                               JObj [("mime_type", JStr mime_type);
                                     ("data", JStr base64_data)])]]
              | None => Some []
              end
            else Some [JObj [("text", JStr ("[Image: " ++ u ++ "]"))]]
        | _ => None (* no attribute startswith *)
        end
      else Some []
  | JStr _ => Some [JObj [("text", item)]]
  | _ => Some []
  end.

Definition content_parts (content : json) : py (list json) :=
  match content with
  | JStr _ => Some [JObj [("text", content)]]
  | JArr items => ps <- mapM convert_item items ;; Some (List.concat ps)
  | _ => Some [JObj [("text", JStr (py_str content))]]
  end.

Definition turn (role : string) (parts : list json) : json :=
  JObj [("role", JStr role); ("parts", JArr parts)].

Definition gemini_role_of (role : json) : string :=
  if eq_str role "user" then "user"
  else if eq_str role "assistant" then "model"
  else if eq_str role "tool" then "user"
  else "user".

(** The body of the second [for message in openai_messages]: the turns
    it appends to [gemini_contents], and [system_instruction] after it. *)
Definition convert_message (tool_call_id_to_name : idmap) (message : json)
    (system_instruction : option json) : py (list json * option json) :=
  role <- py_get message "role" (JStr "") ;;
  content <- py_get message "content" (JStr "") ;;
  if eq_str role "system" then
    Some ([],
          if is_str content
          then Some (JObj [("parts", JArr [JObj [("text", content)]])])
          else system_instruction)
  else
    let gemini_role := gemini_role_of role in
    tool_calls <- tool_calls_of message ;;
    if truthy tool_calls then
      calls <- py_iter tool_calls ;;
      parts <- mapM convert_tool_call calls ;;
      Some ([turn gemini_role parts], system_instruction)
    else if eq_str role "tool" then
      tool_call_id <- py_get message "tool_call_id" (JStr "") ;;
      tool_name <- py_get message "name" (JStr "") ;;
      tool_name <-
        (if negb (truthy tool_name) && truthy tool_call_id
         then idmap_get tool_call_id_to_name tool_call_id (JStr "")
         else Some tool_name) ;;
      let tool_content :=
        if is_str content then content else JStr (py_str content) in
      Some ([turn gemini_role
               [JObj [("functionResponse",
                       JObj [("name", tool_name);
                             ("response", JObj [("result", tool_content)])])]]],
            system_instruction)
    else
      parts <- content_parts content ;;
      Some (match parts with
            | [] => []
            | _ => [turn gemini_role parts]
            end,
            system_instruction).

(** The second loop, from the state [(gemini_contents, system_instruction)]. *)
Fixpoint convert_loop (tool_call_id_to_name : idmap) (messages : list json)
    (gemini_contents : list json) (system_instruction : option json)
  : py (list json * option json) :=
  match messages with
  | [] => Some (gemini_contents, system_instruction)
  | message :: rest =>
      r <- convert_message tool_call_id_to_name message system_instruction ;;
      convert_loop tool_call_id_to_name rest
        (gemini_contents ++ fst r)%list (snd r)
  end.

Definition convert_messages (openai_messages : list json)
  : py (list json * option json) :=
  tool_call_id_to_name <- build_tool_call_map openai_messages ;;
  convert_loop tool_call_id_to_name openai_messages [] None.

(** The body of [convert_enum_values], with [self] for the recursive
    calls [self.convert_enum_values(...)]. *)
Definition convert_enum_values_body (self : json -> json) (schema : json) : json :=
  match schema with
  | JObj kv =>
      let schema_copy := kv in
      let schema_copy :=
        match dict_lookup "enum" schema_copy with
        | Some (JArr vals) =>
            dict_set "enum" (JArr (map (fun val => JStr (py_str val)) vals))
              schema_copy
        | _ => schema_copy
        end in
      let schema_copy :=
        match dict_lookup "properties" schema_copy with
        | Some (JObj props) =>
            dict_set "properties"
              (JObj (map (fun '(key, val) => (key, self val)) props))
              schema_copy
        | _ => schema_copy
        end in
      let schema_copy :=
        match dict_lookup "items" schema_copy with
        | Some items => dict_set "items" (self items) schema_copy
        | None => schema_copy
        end in
      let schema_copy :=
        match dict_lookup "additionalProperties" schema_copy with
        | Some (JObj extra) =>
            dict_set "additionalProperties" (self (JObj extra)) schema_copy
        | _ => schema_copy
        end in
      JObj schema_copy
  | _ => schema
  end.

(** [convert_enum_values]: the function that is its own [self] in the
    body above ([convert_enum_values_eq]).  Rocq wants each recursive
    call on a syntactic part of [schema], so the calls of one level are
    tabulated first ([converted]: the call on each value;
    [converted_values]: for a value that is a dict, the calls on its
    values) and the body looks them up. *)
Fixpoint convert_enum_values (schema : json) : json :=
  match schema with
  | JObj kv =>
      let converted :=
        map (fun '(key, val) => (key, convert_enum_values val)) kv in
      let converted_values :=
        map (fun '(key, val) =>
               (key,
                match val with
                | JObj props =>
                    JObj (map (fun '(k, v) => (k, convert_enum_values v)) props)
                | _ => val
                end)) kv in
      let schema_copy := kv in
      let schema_copy :=
        match dict_lookup "enum" schema_copy with
        | Some (JArr vals) =>
            dict_set "enum" (JArr (map (fun val => JStr (py_str val)) vals))
              schema_copy
        | _ => schema_copy
        end in
      let schema_copy :=
        match dict_lookup "properties" schema_copy,
              dict_lookup "properties" converted_values with
        | Some (JObj _), Some props => dict_set "properties" props schema_copy
        | _, _ => schema_copy
        end in
      let schema_copy :=
        match dict_lookup "items" schema_copy,
              dict_lookup "items" converted with
        | Some _, Some items => dict_set "items" items schema_copy
        | _, _ => schema_copy
        end in
      let schema_copy :=
        match dict_lookup "additionalProperties" schema_copy,
              dict_lookup "additionalProperties" converted with
        | Some (JObj _), Some extra =>
            dict_set "additionalProperties" extra schema_copy
        | _, _ => schema_copy
        end in
      JObj schema_copy
  | _ => schema
  end.

(** The body of [for tool in openai_tools]: the declarations it appends. *)
Definition convert_tool (tool : json) : py (list json) :=
  ty <- py_get tool "type" JNull ;;
  if eq_str ty "function" then
    function_data <- py_get tool "function" (JObj []) ;;
    parameters <- py_get function_data "parameters" (JObj []) ;;
    let parameters := convert_enum_values parameters in
    name <- py_get function_data "name" (JStr "") ;;
    description <- py_get function_data "description" (JStr "") ;;
    Some [JObj [("name", name); ("description", description);
                ("parameters", parameters)]]
  else Some [].

Definition convert_tools (openai_tools : json) : py (list json) :=
  if negb (truthy openai_tools) then Some []
  else
    tools <- py_iter openai_tools ;;
    ds <- mapM convert_tool tools ;;
    match List.concat ds with
    | [] => Some []
    | function_declarations =>
        Some [JObj [("functionDeclarations", JArr function_declarations)]]
    end.

Definition fix_request_issues : json -> py json :=
  GeminiRepair.fix_request_issues.

(** [convert_request] up to its last statement: [gemini_request] as it
    is handed to [fix_request_issues]. *)
Definition assemble_request (openai_request : json) : py json :=
  messages <- py_get openai_request "messages" (JArr []) ;;
  tools <- py_get openai_request "tools" (JArr []) ;;
  messages <- py_iter messages ;;
  r <- convert_messages messages ;;
  let gemini_request := [("contents", JArr (fst r))] in
  let gemini_request :=
    match snd r with
    | Some system_instruction =>
        dict_set "systemInstruction" system_instruction gemini_request
    | None => gemini_request
    end in
  gemini_request <-
    (if truthy tools then
       gemini_tools <- convert_tools tools ;;
       match gemini_tools with
       | [] => Some gemini_request
       | _ => Some (dict_set "tools" (JArr gemini_tools) gemini_request)
       end
     else Some gemini_request) ;;
  Some (JObj gemini_request).

Definition convert_request (openai_request : json) : py json :=
  gemini_request <- assemble_request openai_request ;;
  fix_request_issues gemini_request.

End Converter.
End OpenAIToGemini.

(* ================================================================== *)
(** * Claude to OpenAI *)
(* ================================================================== *)

Module ClaudeToOpenAI.
Section Converter.
Context {rt : PyRuntime}.

(** [isinstance(item, dict) and item.get("type") == ty] *)
Definition is_block (ty : string) (item : json) : bool :=
  match item with
  | JObj kv =>
      match dict_lookup "type" kv with
      | Some t => eq_str t ty
      | None => false
      end
  | _ => false
  end.

(** The body of [for item in message["content"]] in the first loop: one
    entry of [tool_use_map]. *)
Definition record_item (tool_use_map : idmap) (item : json) : py idmap :=
  if is_block "tool_use" item then
    tool_use_id <- py_get item "id" JNull ;;
    function_name <- py_get item "name" JNull ;;
    if truthy tool_use_id && truthy function_name
    then idmap_set tool_use_map tool_use_id function_name
    else Some tool_use_map
  else Some tool_use_map.

(** The body of the first [for message in claude_messages]. *)
Definition record_message (tool_use_map : idmap) (message : json) : py idmap :=
  role <- py_get message "role" JNull ;;
  content <- py_get message "content" JNull ;;
  if eq_str role "assistant" then
    match content with
    | JArr items => foldM record_item tool_use_map items
    | _ => Some tool_use_map
    end
  else Some tool_use_map.

Definition build_tool_use_map (claude_messages : list json) : py idmap :=
  foldM record_message [] claude_messages.

(** The body of [for item in content]: the parts it appends to
    [openai_content_parts]. *)
Definition convert_item (item : json) : py (list json) :=
  match item with
  | JStr _ => Some [JObj [("type", JStr "text"); ("text", item)]]
  | JObj _ =>
      ty <- py_get item "type" JNull ;;
      if eq_str ty "text" then
        text <- py_get item "text" (JStr "") ;;
        Some [JObj [("type", JStr "text"); ("text", text)]]
      else if eq_str ty "image" then
        source <- py_get item "source" (JObj []) ;;
        source_type <- py_get source "type" JNull ;;
        if eq_str source_type "base64" then
          media_type <- py_get source "media_type" (JStr "image/jpeg") ;;
          data <- py_get source "data" (JStr "") ;;
          Some [JObj [("type", JStr "image_url");
                      ("image_url",
                       JObj [("url",
                              JStr ("data:" ++ py_str media_type
                                    ++ ";base64," ++ py_str data))])]]
        else if eq_str source_type "url" then
          url <- py_get source "url" (JStr "") ;;
          Some [JObj [("type", JStr "image_url");
                      ("image_url", JObj [("url", url)])]]
        else Some []
      else Some []
  | _ => Some []
  end.

Definition openai_content_of (content : json) : py json :=
  match content with
  | JStr _ => Some content
  | JArr items =>
      ps <- mapM convert_item items ;;
      match List.concat ps with
      | [] => Some (JStr (py_str content))
      | openai_content_parts => Some (JArr openai_content_parts)
      end
  | _ => Some (JStr (py_str content))
  end.

(** [item.get("text", "")] as an operand of [str.join]. *)
Definition text_of (item : json) : py string :=
  text <- py_get item "text" (JStr "") ;;
  match text with
  | JStr s => Some s
  | _ => None
  end.

(** The message appended for one [tool_use] block. *)
Definition tool_call_message (text_content : string) (tool_use : json) : py json :=
  id <- py_get tool_use "id" (JStr "") ;;
  name <- py_get tool_use "name" (JStr "") ;;
  input <- py_get tool_use "input" (JObj []) ;;
  Some (JObj [("role", JStr "assistant");
              ("content",
               if String.eqb text_content "" then JNull else JStr text_content);
              ("tool_calls",
               JArr [JObj [("id", id); ("type", JStr "function");
                           ("function",
                            JObj [("name", name);
                                  ("arguments", JStr (json_dumps input))])]])]).

(** The message appended for one [tool_result] block. *)
Definition tool_message (tool_use_map : idmap) (tool_result : json) : py json :=
  content_str <- py_get tool_result "content" (JStr "") ;;
  tool_use_id <- py_get tool_result "tool_use_id" (JStr "") ;;
  tool_name <- idmap_get tool_use_map tool_use_id (JStr "unknown") ;;
  Some (JObj [("role", JStr "tool"); ("tool_call_id", tool_use_id);
              ("name", tool_name); ("content", content_str)]).

(** The body of the second [for message in claude_messages]: the
    messages it appends to [openai_messages]. *)
Definition convert_message (tool_use_map : idmap) (message : json)
  : py (list json) :=
  role <- py_get message "role" (JStr "") ;;
  content <- py_get message "content" (JStr "") ;;
  let openai_role := role in
  openai_content <- openai_content_of content ;;
  let plain := [JObj [("role", openai_role); ("content", openai_content)]] in
  match content with
  | JArr items =>
      let tool_uses := filter (is_block "tool_use") items in
      if match tool_uses with [] => false | _ => true end
         && eq_str role "assistant"
      then
        texts <- mapM text_of (filter (is_block "text") items) ;;
        let text_content := str_join " " texts in
        mapM (tool_call_message text_content) tool_uses
      else
        let tool_results := filter (is_block "tool_result") items in
        match tool_results with
        | [] => Some plain
        | _ => mapM (tool_message tool_use_map) tool_results
        end
  | _ => Some plain
  end.

Definition convert_messages (claude_messages : list json) : py (list json) :=
  tool_use_map <- build_tool_use_map claude_messages ;;
  out <- mapM (convert_message tool_use_map) claude_messages ;;
  Some (List.concat out).

(** The body of [for tool in claude_tools]. *)
Definition convert_tool (tool : json) : py json :=
  input_schema <- py_get tool "input_schema" (JObj []) ;;
  name <- py_get tool "name" (JStr "") ;;
  description <- py_get tool "description" (JStr "") ;;
  Some (JObj [("type", JStr "function");
              ("function",
               JObj [("name", name); ("description", description);
                     ("parameters", input_schema)])]).

Definition convert_tools (claude_tools : json) : py (list json) :=
  if negb (truthy claude_tools) then Some []
  else tools <- py_iter claude_tools ;; mapM convert_tool tools.

(** The repair pass of this converter patches [tool['function']].  Its
    patches are those of the Gemini pass, each behind one more test,
    ['parameters' in func]. *)
Definition required_mentions (func : json) (name : string) : py bool :=
  c <- py_in "parameters" func ;;
  if c then GeminiRepair.required_mentions func name else Some false.

Definition fix_images_type (func : json) : py json :=
  c <- py_in "parameters" func ;;
  if c then GeminiRepair.fix_images_type func else Some func.

(** The patches on [func = tool['function']]. *)
Definition fix_declaration (func : json) : py json :=
  name <- py_get func "name" JNull ;;
  if eq_str name "segment_anything" then
    c <- required_mentions func "object" ;;
    if c
    then GeminiRepair.set_required func
           (GeminiRepair.renamed "object" "object_english_name")
    else Some func
  else if eq_str name "Pira_image2image" then
    c <- required_mentions func "cfg" ;;
    if c then GeminiRepair.set_required func (GeminiRepair.without "cfg")
    else Some func
  else if eq_str name "gemini_edit" then
    c <- required_mentions func "image" ;;
    func <- (if c
             then GeminiRepair.set_required func
                    (GeminiRepair.renamed "image" "images")
             else Some func) ;;
    fix_images_type func
  else if eq_str name "outpaint" then
    c <- required_mentions func "prompt" ;;
    if c
    then GeminiRepair.set_required func
           (GeminiRepair.renamed "prompt" "english_prompt")
    else Some func
  else Some func.

(** The body of [for tool in fixed_data['tools']]. *)
Definition fix_tool (tool : json) : py json :=
  c <- py_in "function" tool ;;
  if c then
    func <- py_getitem tool "function" ;;
    if is_dict func then
      func <- fix_declaration func ;; py_setitem tool "function" func
    else Some tool
  else Some tool.

Definition fix_request_issues (request_data : json) : py json :=
  let fixed_data := request_data in
  GeminiRepair.on_list_field "tools" (mapM fix_tool) fixed_data.

(** [convert_request] up to its last statement. *)
Definition assemble_request (claude_request : json) : py json :=
  messages <- py_get claude_request "messages" (JArr []) ;;
  tools <- py_get claude_request "tools" (JArr []) ;;
  messages <- py_iter messages ;;
  openai_messages <- convert_messages messages ;;
  let openai_request := [("messages", JArr openai_messages)] in
  openai_request <-
    (if truthy tools then
       openai_tools <- convert_tools tools ;;
       match openai_tools with
       | [] => Some openai_request
       | _ => Some (dict_set "tools" (JArr openai_tools) openai_request)
       end
     else Some openai_request) ;;
  Some (JObj openai_request).

Definition convert_request (claude_request : json) : py json :=
  openai_request <- assemble_request claude_request ;;
  fix_request_issues openai_request.

End Converter.
End ClaudeToOpenAI.

(* ================================================================== *)
(** * Calling Gemini: what is made of a response *)
(* ================================================================== *)

(** [gemini_api_caller.py].  The class carries its own copy of the
    repair pass, with the text of the converters' pass.  [call_gemini]
    posts the request and reads the answer; the embedding starts where
    the answer has been parsed ([response_data = response.json()]) and
    takes the time stamp as a parameter.  An exception raised from
    there on is caught by [call_gemini], which then returns an error
    record; here it is [None]. *)
Module GeminiAPICaller.
Section Caller.
Context {rt : PyRuntime}.

Definition fix_request_issues : json -> py json :=
  GeminiRepair.fix_request_issues.






End Caller.
End GeminiAPICaller.

(* ================================================================== *)
(** * Comparing function calls *)
(* ================================================================== *)




(** [compare_function_calls.py]: the functions that read a stored
    answer and print the arguments of a call. *)
Module CompareFunctionCalls.
Section Compare.
Context {rt : PyRuntime}.

(** The body of [for tool_call in data['tool_calls']]: the entries it
    appends. *)
Definition claude_call (tool_call : json) : py (list json) :=
  ty <- py_get tool_call "type" JNull ;;
  if eq_str ty "function" then
    function_data <- py_getitem tool_call "function" ;;
    name <- py_getitem function_data "name" ;;
    arguments <- py_getitem function_data "arguments" ;;
    Some [JObj [("name", name); ("arguments", arguments)]]
  else Some [].

Definition extract_claude_function_calls (data : json) : py (list json) :=
  c <- py_in "tool_calls" data ;;
  if c then
    tool_calls <- py_getitem data "tool_calls" ;;
    tool_calls <- py_iter tool_calls ;;
    function_calls <- mapM claude_call tool_calls ;;
    Some (List.concat function_calls)
  else Some [].






End Compare.
End CompareFunctionCalls.

(* ================================================================== *)
(** * Facts about the Python layer *)
(* ================================================================== *)

(** Splits a hypothesis [... = Some _] along the binds, tests and
    matches of the expression it evaluates. *)
Ltac py_inv H :=
  lazymatch type of H with
  | bind ?m _ = Some _ =>
      let a := fresh "a" in
      let E := fresh "E" in
      destruct m as [a|] eqn:E;
      [cbn [bind] in H; py_inv E; py_inv H | discriminate H]
  | (if ?c then _ else _) = Some _ =>
      let E := fresh "E" in destruct c eqn:E; py_inv H
  | None = Some _ => discriminate H
  | Some _ = Some _ =>
      first [discriminate H | injection H as H; try subst | idtac]
  | _ => idtac
  end.

(** An assignment [d[k] = v] that went through was made on a dict:
    names the dict's entries and opens the equation the assignment left. *)
Ltac py_some :=
  repeat match goal with
         | H : py_setitem ?d _ _ = Some _ |- _ =>
             is_var d; destruct d; try discriminate H
         | H : py_setitem (JObj _) _ _ = Some _ |- _ =>
             cbn [py_setitem] in H
         | H : Some _ = Some _ |- _ => inversion H; subst; clear H
         end.

(** Replays recorded evaluations ([m = Some a], [c = true]) in the goal. *)
Ltac py_run :=
  repeat (cbn [bind];
          match goal with
          | H : ?m = Some _ |- context [bind ?m _] => rewrite H
          | H : ?c = true |- context [if ?c then _ else _] => rewrite H
          | H : ?c = false |- context [if ?c then _ else _] => rewrite H
          end);
  cbn [bind].

Lemma dict_lookup_set_same (k : string) (v : json) (kv : list (string * json)) :
  dict_lookup k (dict_set k v kv) = Some v.
Proof.
  induction kv as [|[k' v'] t IH]; simpl.
  - now rewrite String.eqb_refl.
  - destruct (String.eqb k' k) eqn:E; simpl.
    + now rewrite String.eqb_refl.
    + now rewrite E.
Qed.

Lemma dict_lookup_set_other (k k' : string) (v : json) (kv : list (string * json)) :
  k <> k' -> dict_lookup k' (dict_set k v kv) = dict_lookup k' kv.
Proof.
  intros Hne. induction kv as [|[k0 v0] t IH]; simpl.
  - destruct (String.eqb_spec k k'); [contradiction | reflexivity].
  - destruct (String.eqb_spec k0 k) as [->|Hk0]; simpl.
    + destruct (String.eqb_spec k k'); [contradiction | reflexivity].
    + now rewrite IH.
Qed.

Lemma dict_set_lookup_id (k : string) (v : json) (kv : list (string * json)) :
  dict_lookup k kv = Some v -> dict_set k v kv = kv.
Proof.
  induction kv as [|[k0 v0] t IH]; simpl; [discriminate|].
  destruct (String.eqb_spec k0 k) as [->|Hk0]; intros H.
  - now inversion H.
  - now rewrite IH.
Qed.

Lemma dict_has_set_same (k : string) (v : json) (kv : list (string * json)) :
  dict_has k (dict_set k v kv) = true.
Proof. unfold dict_has. now rewrite dict_lookup_set_same. Qed.

Lemma dict_has_set_other (k k' : string) (v : json) (kv : list (string * json)) :
  k <> k' -> dict_has k' (dict_set k v kv) = dict_has k' kv.
Proof. intros H. unfold dict_has. now rewrite dict_lookup_set_other. Qed.

Lemma dict_has_lookup (k : string) (v : json) (kv : list (string * json)) :
  dict_lookup k kv = Some v -> dict_has k kv = true.
Proof. unfold dict_has. now intros ->. Qed.

(** Evaluates lookups in updated dictionaries whose keys are literals. *)
Ltac dict_run :=
  repeat (cbn [bind py_in py_getitem py_get py_setitem];
          first [ rewrite dict_lookup_set_same
                | rewrite dict_has_set_same
                | rewrite dict_lookup_set_other by discriminate
                | rewrite dict_has_set_other by discriminate ]);
  cbn [bind py_in py_getitem py_get py_setitem].

Lemma filterM_kept (A : Type) (keep : A -> py bool) (l l' : list A) :
  filterM keep l = Some l' -> Forall (fun a => keep a = Some true) l'.
Proof.
  revert l'. induction l as [|a t IH]; simpl; intros l' H.
  - inversion H. constructor.
  - py_inv H. destruct a0; [constructor|]; auto.
Qed.

Lemma filterM_all_kept (A : Type) (keep : A -> py bool) (l : list A) :
  Forall (fun a => keep a = Some true) l -> filterM keep l = Some l.
Proof.
  induction 1 as [|a t Ha _ IH]; simpl; [reflexivity|].
  now rewrite Ha, IH.
Qed.

Lemma filterM_idem (A : Type) (keep : A -> py bool) (l l' : list A) :
  filterM keep l = Some l' -> filterM keep l' = Some l'.
Proof. intros H. apply filterM_all_kept. eapply filterM_kept; eauto. Qed.

Lemma mapM_Forall2 (A B : Type) (f : A -> py B) (l : list A) (l' : list B) :
  mapM f l = Some l' -> Forall2 (fun a b => f a = Some b) l l'.
Proof.
  revert l'. induction l as [|a t IH]; simpl; intros l' H.
  - inversion H. constructor.
  - py_inv H. constructor; auto.
Qed.

Lemma mapM_idem (A : Type) (f : A -> py A) (l l' : list A) :
  (forall a b, f a = Some b -> f b = Some b) ->
  mapM f l = Some l' -> mapM f l' = Some l'.
Proof.
  intros Hf H. apply mapM_Forall2 in H.
  induction H as [|a b t t' Hab _ IH]; simpl; [reflexivity|].
  now rewrite (Hf _ _ Hab), IH.
Qed.

Lemma existsb_renamed (old new : string) (items : list json) :
  old <> new ->
  existsb (fun v => eq_str v old) (GeminiRepair.renamed old new items) = false.
Proof.
  intros Hne. unfold GeminiRepair.renamed.
  induction items as [|v t IH]; simpl; [reflexivity|].
  rewrite IH, orb_false_r.
  destruct (eq_str v old) eqn:E; [|exact E].
  simpl. destruct (String.eqb_spec new old); congruence.
Qed.

Lemma existsb_without (old : string) (items : list json) :
  existsb (fun v => eq_str v old) (GeminiRepair.without old items) = false.
Proof.
  unfold GeminiRepair.without.
  induction items as [|v t IH]; simpl; [reflexivity|].
  destruct (eq_str v old) eqn:E; simpl; [exact IH|].
  now rewrite E, IH.
Qed.

(* ================================================================== *)
(** * The repair pass applied twice *)
(* ================================================================== *)

Section RepairFacts.
Import GeminiRepair.

Lemma on_list_field_idem (k : string) (f : list json -> py (list json)) (d d' : json) :
  (forall l l', f l = Some l' -> f l' = Some l') ->
  on_list_field k f d = Some d' -> on_list_field k f d' = Some d'.
Proof.
  intros Hf H. unfold on_list_field in H. py_inv H.
  - destruct a0 as [| | | |l|]; py_inv H;
      try (unfold on_list_field; py_run; reflexivity).
    destruct d as [| | | | |kv]; try discriminate. py_some.
    unfold on_list_field. dict_run.
    match goal with Hfl : f _ = Some _ |- _ => rewrite (Hf _ _ Hfl) end.
    cbn [bind].
    f_equal. f_equal. apply dict_set_lookup_id, dict_lookup_set_same.
  - unfold on_list_field. py_run. reflexivity.
Qed.

(** A list field left as it is by its own update stays so when another
    field is updated. *)
Lemma on_list_field_other (k1 k2 : string)
    (f1 f2 : list json -> py (list json)) (d d' : json) :
  k1 <> k2 ->
  on_list_field k1 f1 d = Some d ->
  on_list_field k2 f2 d = Some d' ->
  on_list_field k1 f1 d' = Some d'.
Proof.
  intros Hne H1 H2. unfold on_list_field in H2. py_inv H2; [|exact H1].
  destruct a0 as [| | | |l|]; py_inv H2; try exact H1.
  destruct d as [| | | | |kv]; try discriminate. py_some.
  assert (Hne' : k2 <> k1) by congruence.
  unfold on_list_field in *. cbn [py_in py_getitem py_setitem bind] in *.
  rewrite dict_has_set_other by exact Hne'.
  destruct (dict_has k1 kv) eqn:Hh; [|reflexivity].
  rewrite dict_lookup_set_other by exact Hne'.
  destruct (dict_lookup k1 kv) as [v|] eqn:Hl; [|discriminate].
  cbn [bind] in *.
  destruct v as [| | | |l1|]; try reflexivity.
  destruct (f1 l1) as [l1'|]; [|discriminate]. cbn [bind] in *.
  inversion H1 as [Hkv]. rewrite !Hkv.
  assert (Hl1 : dict_lookup k1 (dict_set k1 (JArr l1') kv) = Some (JArr l1'))
    by apply dict_lookup_set_same.
  rewrite Hkv, Hl in Hl1. inversion Hl1; subst l1'.
  f_equal. f_equal. apply dict_set_lookup_id.
  now rewrite dict_lookup_set_other.
Qed.

Lemma set_required_name (func func' : json) (f : list json -> list json) (d : json) :
  set_required func f = Some func' ->
  py_get func' "name" d = py_get func "name" d.
Proof.
  unfold set_required. intros H. py_inv H.
  py_some.  now dict_run.
Qed.

Lemma required_mentions_after_set (func func' : json)
    (f : list json -> list json) (name : string) :
  (forall items, existsb (fun v => eq_str v name) (f items) = false) ->
  set_required func f = Some func' ->
  required_mentions func' name = Some false.
Proof.
  unfold set_required. intros Hf H. py_inv H.
  py_some. unfold required_mentions. dict_run. now rewrite Hf.
Qed.

Lemma fix_images_type_name (func func' : json) (d : json) :
  fix_images_type func = Some func' ->
  py_get func' "name" d = py_get func "name" d.
Proof.
  unfold fix_images_type. intros H. py_inv H; try reflexivity.
  py_some.  now dict_run.
Qed.

Lemma fix_images_type_required (func func' : json) (name : string) :
  fix_images_type func = Some func' ->
  required_mentions func' name = required_mentions func name.
Proof.
  unfold fix_images_type. intros H. py_inv H; try reflexivity.
  py_some. unfold required_mentions. dict_run.
  cbn [py_getitem] in *. py_run. dict_run.
  match goal with |- (if ?c then _ else _) = _ => destruct c end;
    [|reflexivity].
  now dict_run.
Qed.

Lemma fix_images_type_idem (func func' : json) :
  fix_images_type func = Some func' -> fix_images_type func' = Some func'.
Proof.
  intros H. unfold fix_images_type in H. py_inv H;
    try (unfold fix_images_type; py_run; reflexivity).
  py_some. unfold fix_images_type. dict_run. reflexivity.
Qed.

(** One [required] patch: afterwards the stale name is gone and the
    declaration keeps its name. *)
Lemma required_patch_done (stale : string) (f : list json -> list json)
    (func func' : json) :
  (forall items, existsb (fun v => eq_str v stale) (f items) = false) ->
  (c <- required_mentions func stale ;;
   if c then set_required func f else Some func) = Some func' ->
  required_mentions func' stale = Some false /\
  forall d, py_get func' "name" d = py_get func "name" d.
Proof.
  intros Hf H. py_inv H.
  - split; [eapply required_mentions_after_set; eauto|].
    intros d. eapply set_required_name; eauto.
  - split; [assumption | reflexivity].
Qed.

Lemma fix_declaration_idem (func func' : json) :
  fix_declaration func = Some func' -> fix_declaration func' = Some func'.
Proof.
  intros H. unfold fix_declaration in H.
  destruct (py_get func "name" JNull) as [name|] eqn:Hname; [|discriminate].
  cbn [bind] in H.
  destruct (eq_str name "segment_anything") eqn:N1.
  { apply required_patch_done in H;
      [|intros; apply existsb_renamed; discriminate].
    destruct H as [Hreq Hnm]. unfold fix_declaration.
    rewrite Hnm, Hname. cbn [bind]. rewrite N1, Hreq. reflexivity. }
  destruct (eq_str name "Pira_image2image") eqn:N2.
  { apply required_patch_done in H; [|intros; apply existsb_without].
    destruct H as [Hreq Hnm]. unfold fix_declaration.
    rewrite Hnm, Hname. cbn [bind]. rewrite N1, N2, Hreq. reflexivity. }
  destruct (eq_str name "gemini_edit") eqn:N3.
  { destruct (required_mentions func "image") as [c|] eqn:Hc; [|discriminate].
    cbn [bind] in H.
    destruct (if c then set_required func (renamed "image" "images")
              else Some func) as [func1|] eqn:H1; [|discriminate].
    cbn [bind] in H.
    assert (H1' : (c <- required_mentions func "image" ;;
                   if c then set_required func (renamed "image" "images")
                   else Some func) = Some func1)
      by (rewrite Hc; exact H1).
    apply required_patch_done in H1';
      [|intros; apply existsb_renamed; discriminate].
    destruct H1' as [Hreq Hnm]. unfold fix_declaration.
    rewrite (fix_images_type_name _ _ _ H), Hnm, Hname. cbn [bind].
    rewrite N1, N2, N3, (fix_images_type_required _ _ _ H), Hreq. cbn [bind].
    eapply fix_images_type_idem; eauto. }
  destruct (eq_str name "outpaint") eqn:N4.
  { apply required_patch_done in H;
      [|intros; apply existsb_renamed; discriminate].
    destruct H as [Hreq Hnm]. unfold fix_declaration.
    rewrite Hnm, Hname. cbn [bind]. rewrite N1, N2, N3, N4, Hreq. reflexivity. }
  inversion H; subst. unfold fix_declaration.
  rewrite Hname. cbn [bind]. now rewrite N1, N2, N3, N4.
Qed.

Lemma fix_tool_idem (tool tool' : json) :
  fix_tool tool = Some tool' -> fix_tool tool' = Some tool'.
Proof.
  apply on_list_field_idem. intros l l'.
  apply mapM_idem. exact fix_declaration_idem.
Qed.

Lemma fix_request_issues_stable (r r' : json) :
  fix_request_issues r = Some r' -> fix_request_issues r' = Some r'.
Proof.
  unfold fix_request_issues. intros H.
  destruct (on_list_field "contents" (filterM has_parts) r) as [r1|] eqn:H1;
    [|discriminate].
  cbn [bind] in H.
  assert (S1 : on_list_field "contents" (filterM has_parts) r1 = Some r1).
  { eapply on_list_field_idem; [|exact H1]. intros l l'. apply filterM_idem. }
  assert (S2 : on_list_field "contents" (filterM has_parts) r' = Some r').
  { eapply on_list_field_other; [|exact S1|exact H]. discriminate. }
  rewrite S2. cbn [bind].
  eapply on_list_field_idem; [|exact H].
  intros l l'. apply mapM_idem. exact fix_tool_idem.
Qed.

(** ** The pass of the Claude to OpenAI converter *)

Lemma set_required_has_parameters (func func' : json) (f : list json -> list json) :
  set_required func f = Some func' -> py_in "parameters" func' = Some true.
Proof.
  unfold set_required. intros H. py_inv H. py_some. now dict_run.
Qed.

Lemma fix_images_type_has_parameters (func func' : json) :
  fix_images_type func = Some func' ->
  py_in "parameters" func = Some true ->
  py_in "parameters" func' = Some true.
Proof.
  unfold fix_images_type. intros H Hin. py_inv H; try assumption.
  py_some. now dict_run.
Qed.

Lemma c2o_required_patch_done (stale : string) (f : list json -> list json)
    (func func' : json) :
  (forall items, existsb (fun v => eq_str v stale) (f items) = false) ->
  (c <- ClaudeToOpenAI.required_mentions func stale ;;
   if c then set_required func f else Some func) = Some func' ->
  ClaudeToOpenAI.required_mentions func' stale = Some false /\
  forall d, py_get func' "name" d = py_get func "name" d.
Proof.
  intros Hf H. unfold ClaudeToOpenAI.required_mentions in *.
  destruct (py_in "parameters" func) as [[|]|] eqn:Hin; cbn [bind] in H;
    [| |discriminate].
  - pose proof H as H0. apply required_patch_done in H; [|exact Hf].
    destruct H as [Hreq Hnm]. split; [|exact Hnm].
    assert (Hin' : py_in "parameters" func' = Some true).
    { destruct (required_mentions func stale) as [[|]|]; cbn [bind] in H0;
        try discriminate.
      - eapply set_required_has_parameters; eauto.
      - now inversion H0; subst. }
    rewrite Hin'. cbn [bind]. exact Hreq.
  - inversion H; subst func'. rewrite Hin. split; reflexivity.
Qed.

Lemma c2o_fix_images_type_done (func func' : json) :
  ClaudeToOpenAI.fix_images_type func = Some func' ->
  (forall d, py_get func' "name" d = py_get func "name" d) /\
  (forall name, ClaudeToOpenAI.required_mentions func' name
                = ClaudeToOpenAI.required_mentions func name) /\
  ClaudeToOpenAI.fix_images_type func' = Some func'.
Proof.
  unfold ClaudeToOpenAI.fix_images_type, ClaudeToOpenAI.required_mentions.
  intros H.
  destruct (py_in "parameters" func) as [[|]|] eqn:Hin; cbn [bind] in H;
    [| |discriminate].
  - rewrite (fix_images_type_has_parameters _ _ H Hin). cbn [bind].
    repeat split.
    + intros d. eapply fix_images_type_name; eauto.
    + intros name. eapply fix_images_type_required; eauto.
    + eapply fix_images_type_idem; eauto.
  - inversion H; subst func'. rewrite Hin. repeat split; reflexivity.
Qed.

Lemma c2o_fix_declaration_idem (func func' : json) :
  ClaudeToOpenAI.fix_declaration func = Some func' ->
  ClaudeToOpenAI.fix_declaration func' = Some func'.
Proof.
  intros H. unfold ClaudeToOpenAI.fix_declaration in H.
  destruct (py_get func "name" JNull) as [name|] eqn:Hname; [|discriminate].
  cbn [bind] in H.
  destruct (eq_str name "segment_anything") eqn:N1.
  { apply c2o_required_patch_done in H;
      [|intros; apply existsb_renamed; discriminate].
    destruct H as [Hreq Hnm]. unfold ClaudeToOpenAI.fix_declaration.
    rewrite Hnm, Hname. cbn [bind]. rewrite N1, Hreq. reflexivity. }
  destruct (eq_str name "Pira_image2image") eqn:N2.
  { apply c2o_required_patch_done in H; [|intros; apply existsb_without].
    destruct H as [Hreq Hnm]. unfold ClaudeToOpenAI.fix_declaration.
    rewrite Hnm, Hname. cbn [bind]. rewrite N1, N2, Hreq. reflexivity. }
  destruct (eq_str name "gemini_edit") eqn:N3.
  { destruct (ClaudeToOpenAI.required_mentions func "image") as [c|] eqn:Hc;
      [|discriminate].
    cbn [bind] in H.
    destruct (if c then set_required func (renamed "image" "images")
              else Some func) as [func1|] eqn:H1; [|discriminate].
    cbn [bind] in H.
    assert (H1' : (c <- ClaudeToOpenAI.required_mentions func "image" ;;
                   if c then set_required func (renamed "image" "images")
                   else Some func) = Some func1)
      by (rewrite Hc; exact H1).
    apply c2o_required_patch_done in H1';
      [|intros; apply existsb_renamed; discriminate].
    destruct H1' as [Hreq Hnm].
    destruct (c2o_fix_images_type_done _ _ H) as (Hnm2 & Hreq2 & Hidem).
    unfold ClaudeToOpenAI.fix_declaration.
    rewrite Hnm2, Hnm, Hname. cbn [bind].
    rewrite N1, N2, N3, Hreq2, Hreq. cbn [bind]. exact Hidem. }
  destruct (eq_str name "outpaint") eqn:N4.
  { apply c2o_required_patch_done in H;
      [|intros; apply existsb_renamed; discriminate].
    destruct H as [Hreq Hnm]. unfold ClaudeToOpenAI.fix_declaration.
    rewrite Hnm, Hname. cbn [bind]. rewrite N1, N2, N3, N4, Hreq. reflexivity. }
  inversion H; subst. unfold ClaudeToOpenAI.fix_declaration.
  rewrite Hname. cbn [bind]. now rewrite N1, N2, N3, N4.
Qed.

Lemma c2o_fix_tool_idem (tool tool' : json) :
  ClaudeToOpenAI.fix_tool tool = Some tool' ->
  ClaudeToOpenAI.fix_tool tool' = Some tool'.
Proof.
  unfold ClaudeToOpenAI.fix_tool. intros H.
  destruct (py_in "function" tool) as [[|]|] eqn:Hin; cbn [bind] in H;
    [| |discriminate].
  - destruct (py_getitem tool "function") as [func|] eqn:Hf; [|discriminate].
    cbn [bind] in H. destruct (is_dict func) eqn:Hd.
    + destruct (ClaudeToOpenAI.fix_declaration func) as [func'|] eqn:Hfix;
        [|discriminate].
      cbn [bind] in H. destruct tool as [| | | | |kv]; try discriminate.
      cbn [py_setitem] in H. inversion H; subst tool'. dict_run.
      destruct (is_dict func'); [|reflexivity].
      rewrite (c2o_fix_declaration_idem _ _ Hfix). cbn [bind py_setitem].
      do 2 f_equal. apply dict_set_lookup_id, dict_lookup_set_same.
    + inversion H; subst tool'. rewrite Hin. cbn [bind]. rewrite Hf.
      cbn [bind]. now rewrite Hd.
  - inversion H; subst tool'. now rewrite Hin.
Qed.

Lemma c2o_fix_request_issues_stable (r r' : json) :
  ClaudeToOpenAI.fix_request_issues r = Some r' ->
  ClaudeToOpenAI.fix_request_issues r' = Some r'.
Proof.
  unfold ClaudeToOpenAI.fix_request_issues.
  apply on_list_field_idem. intros l l'.
  apply mapM_idem. exact c2o_fix_tool_idem.
Qed.

End RepairFacts.

(** C9.  The repair pass is idempotent: on every request, running
    [fix_request_issues] on its own result gives what one run gives
    (also when the one run raises), for the pass of the two
    Gemini-target converters and for the pass of the Claude to OpenAI
    converter; and a declaration that went through the named patches
    is left as it is by them. *)
Theorem fix_request_issues_idempotent (request_data : json) :
  (fixed <- GeminiRepair.fix_request_issues request_data ;;
   GeminiRepair.fix_request_issues fixed)
  = GeminiRepair.fix_request_issues request_data /\
  (fixed <- ClaudeToOpenAI.fix_request_issues request_data ;;
   ClaudeToOpenAI.fix_request_issues fixed)
  = ClaudeToOpenAI.fix_request_issues request_data /\
  (forall func func',
     GeminiRepair.fix_declaration func = Some func' ->
     GeminiRepair.fix_declaration func' = Some func') /\
  (forall func func',
     ClaudeToOpenAI.fix_declaration func = Some func' ->
     ClaudeToOpenAI.fix_declaration func' = Some func').
Proof.
  split; [|split; [|split]].
  - destruct (GeminiRepair.fix_request_issues request_data) as [fixed|] eqn:H;
      cbn [bind]; [|reflexivity].
    now apply fix_request_issues_stable with (r := request_data).
  - destruct (ClaudeToOpenAI.fix_request_issues request_data) as [fixed|] eqn:H;
      cbn [bind]; [|reflexivity].
    now apply c2o_fix_request_issues_stable with (r := request_data).
  - exact fix_declaration_idem.
  - exact c2o_fix_declaration_idem.
Qed.

(** A declaration of [gemini_edit] with both of its stale shapes, and
    the declaration the patches make of it. *)
Definition stale_gemini_edit : json :=
  JObj [("name", JStr "gemini_edit"); ("description", JStr "Edits images");
        ("parameters",
         JObj [("type", JStr "object");
               ("properties",
                JObj [("images",
                       JObj [("type", JArr [JStr "array"; JStr "null"])]);
                      ("prompt", JObj [("type", JStr "string")])]);
               ("required", JArr [JStr "image"; JStr "prompt"])])].

Definition fixed_gemini_edit : json :=
  JObj [("name", JStr "gemini_edit"); ("description", JStr "Edits images");
        ("parameters",
         JObj [("type", JStr "object");
               ("properties",
                JObj [("images", JObj [("type", JStr "array")]);
                      ("prompt", JObj [("type", JStr "string")])]);
               ("required", JArr [JStr "images"; JStr "prompt"])])].

Lemma fix_request_issues_idempotent_sample :
  let request :=
    JObj [("contents", JArr []);
          ("tools",
           JArr [JObj [("functionDeclarations", JArr [stale_gemini_edit])]])] in
  let fixed :=
    JObj [("contents", JArr []);
          ("tools",
           JArr [JObj [("functionDeclarations", JArr [fixed_gemini_edit])]])] in
  let openai_request :=
    JObj [("messages", JArr []);
          ("tools",
           JArr [JObj [("type", JStr "function");
                       ("function", stale_gemini_edit)]])] in
  let openai_fixed :=
    JObj [("messages", JArr []);
          ("tools",
           JArr [JObj [("type", JStr "function");
                       ("function", fixed_gemini_edit)]])] in
  (GeminiRepair.fix_request_issues request = Some fixed /\
   GeminiRepair.fix_request_issues fixed = Some fixed) /\
  (ClaudeToOpenAI.fix_request_issues openai_request = Some openai_fixed /\
   ClaudeToOpenAI.fix_request_issues openai_fixed = Some openai_fixed) /\
  (GeminiRepair.fix_declaration stale_gemini_edit = Some fixed_gemini_edit /\
   GeminiRepair.fix_declaration fixed_gemini_edit = Some fixed_gemini_edit) /\
  (ClaudeToOpenAI.fix_declaration stale_gemini_edit = Some fixed_gemini_edit /\
   ClaudeToOpenAI.fix_declaration fixed_gemini_edit = Some fixed_gemini_edit).
Proof.
  intros request fixed openai_request openai_fixed.
  pose proof (fix_request_issues_idempotent request) as (Htwice & _ & Hdecl & Hdecl').
  pose proof (fix_request_issues_idempotent openai_request) as (_ & Htwice' & _).
  split; [|split; [|split]]; (split; [reflexivity|]).
  - exact Htwice.
  - exact Htwice'.
  - exact (Hdecl stale_gemini_edit fixed_gemini_edit eq_refl).
  - exact (Hdecl' stale_gemini_edit fixed_gemini_edit eq_refl).
Defined.

(* ================================================================== *)
(** * The name pattern of a tool result *)
(* ================================================================== *)

Fixpoint str_mem (c : ascii) (s : string) : bool :=
  match s with
  | EmptyString => false
  | String a t => Ascii.eqb a c || str_mem c t
  end.

(** [content] holds the marker at offset [n], then [name] (not empty,
    no backtick in it), then a backtick. *)
Definition occurs_at (content : string) (n : nat) (name : string) : Prop :=
  exists pre post,
    String.length pre = n /\
    content = pre ++ tool_marker ++ name ++ String backtick post /\
    name <> "" /\ str_mem backtick name = false.

Lemma strip_prefix_app (p s : string) : strip_prefix p (p ++ s) = Some s.
Proof.
  induction p as [|a p IH]; simpl; [reflexivity|].
  now rewrite Ascii.eqb_refl.
Qed.

Lemma strip_prefix_inv (p s r : string) :
  strip_prefix p s = Some r -> s = p ++ r.
Proof.
  revert s. induction p as [|a p IH]; simpl; intros s H.
  - now inversion H.
  - destruct s as [|b s]; [discriminate|].
    destruct (Ascii.eqb_spec a b) as [->|]; [|discriminate].
    now rewrite (IH _ H).
Qed.

Lemma span_until_app (c : ascii) (x r : string) :
  str_mem c x = false ->
  span_until c (x ++ String c r) = (x, String c r).
Proof.
  induction x as [|a x IH]; simpl; intros H.
  - now rewrite Ascii.eqb_refl.
  - apply orb_false_iff in H. destruct H as [Ha Hx].
    now rewrite Ha, (IH Hx).
Qed.

Lemma span_until_inv (c : ascii) (s x r : string) :
  span_until c s = (x, r) ->
  s = x ++ r /\ str_mem c x = false /\
  (r = "" \/ exists r', r = String c r').
Proof.
  revert x r. induction s as [|a s IH]; simpl; intros x r H.
  - inversion H. auto.
  - destruct (Ascii.eqb_spec a c) as [->|Hne].
    + inversion H; subst. simpl. eauto.
    + destruct (span_until c s) as [x0 r0]. inversion H; subst.
      destruct (IH _ _ eq_refl) as (-> & Hx & Hr). simpl.
      apply Ascii.eqb_neq in Hne. rewrite Hne. auto.
Qed.

Lemma match_tool_at_iff (s name : string) :
  match_tool_at s = Some name <-> occurs_at s 0 name.
Proof.
  unfold match_tool_at, occurs_at. split.
  - destruct (strip_prefix tool_marker s) as [rest|] eqn:Hp; [|discriminate].
    apply strip_prefix_inv in Hp.
    destruct (span_until backtick rest) as [x r] eqn:Hs.
    apply span_until_inv in Hs. destruct Hs as (-> & Hx & Hr).
    destruct x as [|a x]; [discriminate|].
    destruct r as [|b r]; [discriminate|].
    intros H. inversion H; subst name.
    destruct Hr as [|[r' Hr']]; [discriminate|]. inversion Hr'; subst.
    exists "", r'. repeat split; auto. discriminate.
  - intros (pre & post & Hlen & -> & Hne & Hmem).
    destruct pre; [|discriminate]. cbn [append].
    rewrite strip_prefix_app, span_until_app by exact Hmem.
    destruct name; [contradiction | reflexivity].
Qed.

Lemma occurs_at_tail (a : ascii) (t : string) (n : nat) (name : string) :
  occurs_at (String a t) (S n) name <-> occurs_at t n name.
Proof.
  unfold occurs_at. split.
  - intros (pre & post & Hlen & Hs & H).
    destruct pre as [|b pre]; [discriminate|].
    simpl in Hlen, Hs. inversion Hs; subst.
    exists pre, post. repeat split; try tauto. lia.
  - intros (pre & post & Hlen & Hs & H).
    exists (String a pre), post. simpl. subst. tauto.
Qed.

Lemma occurs_at_functional (s : string) (n : nat) (name name' : string) :
  occurs_at s n name -> occurs_at s n name' -> name = name'.
Proof.
  revert s. induction n as [|n IH]; intros s H H'.
  - apply match_tool_at_iff in H, H'. congruence.
  - destruct s as [|a t].
    + destruct H as (pre & post & Hlen & Hs & _).
      destruct pre; discriminate.
    + apply occurs_at_tail in H, H'. eauto.
Qed.

(** [re.search] finds the leftmost occurrence. *)
Lemma search_tool_name_sound (s name : string) :
  search_tool_name s = Some name ->
  exists n, occurs_at s n name /\
            forall m name', (m < n)%nat -> ~ occurs_at s m name'.
Proof.
  induction s as [|a t IH].
  - simpl. discriminate.
  - cbn [search_tool_name].
    destruct (match_tool_at (String a t)) as [x|] eqn:Hm.
    + intros H; inversion H; subst. exists 0%nat. split.
      * now apply match_tool_at_iff.
      * intros m name' Hlt. lia.
    + intros H. destruct (IH H) as (n & Hocc & Hleft).
      exists (S n). split; [now apply occurs_at_tail|].
      intros [|m] name' Hlt Hocc'.
      * apply match_tool_at_iff in Hocc'. congruence.
      * apply occurs_at_tail in Hocc'. apply (Hleft m name'); [lia | exact Hocc'].
Qed.

Lemma search_tool_name_leftmost (s : string) (n : nat) (name : string) :
  occurs_at s n name ->
  (forall m name', (m < n)%nat -> ~ occurs_at s m name') ->
  search_tool_name s = Some name.
Proof.
  intros Hocc Hleft.
  destruct (search_tool_name s) as [x|] eqn:Hs.
  - apply search_tool_name_sound in Hs. destruct Hs as (k & Hk & Hkleft).
    assert (k = n).
    { destruct (Nat.lt_trichotomy k n) as [Hlt|[Heq|Hgt]]; [|exact Heq|].
      - exfalso. exact (Hleft _ _ Hlt Hk).
      - exfalso. exact (Hkleft _ _ Hgt Hocc). }
    subst k. f_equal. eapply occurs_at_functional; eauto.
  - exfalso. revert n Hocc Hleft. induction s as [|a t IH]; intros n Hocc Hleft.
    + destruct n.
      * apply match_tool_at_iff in Hocc. discriminate Hocc.
      * destruct Hocc as (pre & post & Hlen & Hs' & _). destruct pre; discriminate.
    + cbn [search_tool_name] in Hs.
      destruct (match_tool_at (String a t)) eqn:Hm; [discriminate|].
      destruct n.
      * apply match_tool_at_iff in Hocc. congruence.
      * apply occurs_at_tail in Hocc. apply (IH Hs n Hocc).
        intros m name' Hlt Hocc'. apply (Hleft (S m) name'); [lia|].
        now apply occurs_at_tail.
Qed.

Lemma search_tool_name_none (s : string) :
  (forall n name, ~ occurs_at s n name) -> search_tool_name s = None.
Proof.
  intros Hno. destruct (search_tool_name s) as [x|] eqn:Hs; [|reflexivity].
  apply search_tool_name_sound in Hs. destruct Hs as (n & Hocc & _).
  exfalso. exact (Hno _ _ Hocc).
Qed.

(** The part a tool result becomes in the Gemini request. *)
Definition function_response (name : string) (result : json) : json :=
  JObj [("functionResponse",
         JObj [("name", JStr name); ("response", JObj [("result", result)])])].

(* ================================================================== *)
(** * The turns of a Gemini request *)
(* ================================================================== *)

(** A turn as the two Gemini-target converters build it. *)
Definition is_turn (t : json) : Prop :=
  exists role parts, t = JObj [("role", JStr role); ("parts", JArr parts)].

(** The turn has a [parts] key that holds a list with an element. *)
Definition nonempty_parts (t : json) : bool :=
  match py_getitem t "parts" with
  | Some (JArr (_ :: _)) => true
  | _ => false
  end.

Lemma has_parts_turn (t : json) :
  is_turn t -> GeminiRepair.has_parts t = Some (nonempty_parts t).
Proof.
  intros (role & parts & ->). destruct parts; reflexivity.
Qed.

Lemma filterM_filter (A : Type) (keep : A -> py bool) (test : A -> bool)
    (l : list A) :
  Forall (fun a => keep a = Some (test a)) l ->
  filterM keep l = Some (filter test l).
Proof.
  induction 1 as [|a t Ha _ IH]; simpl; [reflexivity|].
  rewrite Ha, IH. cbn [bind]. now destruct (test a).
Qed.

Lemma mapM_concat_Forall (A B : Type) (f : A -> py (list B)) (P : B -> Prop)
    (l : list A) (ls : list (list B)) :
  (forall a bs, f a = Some bs -> Forall P bs) ->
  mapM f l = Some ls -> Forall P (List.concat ls).
Proof.
  intros Hf. revert ls. induction l as [|a t IH]; simpl; intros ls H.
  - inversion H. constructor.
  - py_inv H. simpl. apply Forall_app. split; eauto.
Qed.

(** What the repair pass leaves under [contents]. *)
Lemma fix_request_issues_contents (kv : list (string * json))
    (turns : list json) (out : json) :
  dict_lookup "contents" kv = Some (JArr turns) ->
  Forall is_turn turns ->
  GeminiRepair.fix_request_issues (JObj kv) = Some out ->
  py_getitem out "contents" = Some (JArr (filter nonempty_parts turns)).
Proof.
  intros Hl Hturns H. unfold GeminiRepair.fix_request_issues in H.
  assert (H1 : GeminiRepair.on_list_field "contents"
                 (filterM GeminiRepair.has_parts) (JObj kv)
               = Some (JObj (dict_set "contents"
                               (JArr (filter nonempty_parts turns)) kv))).
  { unfold GeminiRepair.on_list_field. cbn [py_in py_getitem bind].
    rewrite (dict_has_lookup _ _ _ Hl), Hl. cbn [bind].
    rewrite (filterM_filter _ GeminiRepair.has_parts nonempty_parts).
    - reflexivity.
    - eapply Forall_impl; [|exact Hturns]. apply has_parts_turn. }
  rewrite H1 in H. cbn [bind] in H.
  unfold GeminiRepair.on_list_field in H. py_inv H.
  - destruct a0; py_inv H; try (now dict_run).
    py_some. now dict_run.
  - now dict_run.
Qed.

Lemma filter_nonempty_parts_list (turns : list json) :
  Forall is_turn turns ->
  Forall (fun t => exists part parts,
            py_getitem t "parts" = Some (JArr (part :: parts)))
         (filter nonempty_parts turns).
Proof.
  intros H. apply Forall_forall. intros t Hin.
  apply filter_In in Hin. destruct Hin as [_ Hne].
  unfold nonempty_parts in Hne.
  destruct (py_getitem t "parts") as [[| | | |[|part parts]|]|]; try discriminate.
  eauto.
Qed.

Section TurnFacts.
Context {rt : PyRuntime}.

Lemma is_turn_c2g (role : string) (parts : list json) :
  is_turn (ClaudeToGemini.turn role parts).
Proof. now exists role, parts. Qed.

Lemma c2g_message_turns (message : json) (turns : list json) :
  ClaudeToGemini.convert_message message = Some turns -> Forall is_turn turns.
Proof.
  unfold ClaudeToGemini.convert_message. intros H. py_inv H;
    repeat constructor; apply is_turn_c2g.
Qed.

Lemma c2g_messages_turns (messages turns : list json) :
  ClaudeToGemini.convert_messages messages = Some turns -> Forall is_turn turns.
Proof.
  unfold ClaudeToGemini.convert_messages. intros H. py_inv H.
  eapply mapM_concat_Forall; [|eassumption]. apply c2g_message_turns.
Qed.

Lemma is_turn_o2g (role : string) (parts : list json) :
  is_turn (OpenAIToGemini.turn role parts).
Proof. now exists role, parts. Qed.

Lemma o2g_message_turns (m : idmap) (message : json) (sys : option json)
    (r : list json * option json) :
  OpenAIToGemini.convert_message m message sys = Some r ->
  Forall is_turn (fst r).
Proof.
  unfold OpenAIToGemini.convert_message. intros H. py_inv H; simpl;
    repeat constructor; try apply is_turn_o2g.
  destruct a2; repeat constructor; apply is_turn_o2g.
Qed.

Lemma o2g_loop_turns (m : idmap) (messages acc : list json)
    (sys : option json) (r : list json * option json) :
  Forall is_turn acc ->
  OpenAIToGemini.convert_loop m messages acc sys = Some r ->
  Forall is_turn (fst r).
Proof.
  revert acc sys. induction messages as [|message rest IH]; simpl;
    intros acc sys Hacc H.
  - now inversion H.
  - py_inv H. eapply IH; [|eassumption].
    apply Forall_app. split; [exact Hacc|].
    eapply o2g_message_turns; eassumption.
Qed.

Lemma o2g_messages_turns (messages : list json) (r : list json * option json) :
  OpenAIToGemini.convert_messages messages = Some r -> Forall is_turn (fst r).
Proof.
  unfold OpenAIToGemini.convert_messages. intros H. py_inv H.
  eapply o2g_loop_turns; [constructor | eassumption].
Qed.

(** The request a Gemini-target converter hands to the repair pass is a
    dict that holds the converted turns under [contents]. *)
Lemma c2g_assembled (claude_request gemini_request : json) :
  ClaudeToGemini.assemble_request claude_request = Some gemini_request ->
  exists kv turns,
    gemini_request = JObj kv /\
    dict_lookup "contents" kv = Some (JArr turns) /\ Forall is_turn turns.
Proof.
  unfold ClaudeToGemini.assemble_request. intros H. py_inv H.
  all: repeat match goal with
         | Hm : match ?l with [] => _ | _ :: _ => _ end = Some _ |- _ =>
             destruct l; py_inv Hm
         end.
  all: match goal with
       | Hc : ClaudeToGemini.convert_messages _ = Some ?ts |- _ =>
           eexists; exists ts; split; [reflexivity|];
           split; [|exact (c2g_messages_turns _ _ Hc)]
       end.
  all: now dict_run.
Qed.

Lemma o2g_assembled (openai_request gemini_request : json) :
  OpenAIToGemini.assemble_request openai_request = Some gemini_request ->
  exists kv turns,
    gemini_request = JObj kv /\
    dict_lookup "contents" kv = Some (JArr turns) /\ Forall is_turn turns.
Proof.
  unfold OpenAIToGemini.assemble_request. intros H. py_inv H.
  all: repeat match goal with
         | Hm : match ?l with [] => _ | _ :: _ => _ end = Some _ |- _ =>
             destruct l; py_inv Hm
         end.
  all: match goal with
       | Hc : OpenAIToGemini.convert_messages _ = Some ?r |- _ =>
           eexists; exists (fst r); split; [reflexivity|];
           split; [|exact (o2g_messages_turns _ _ Hc)]
       end.
  all: match goal with
       | |- context [match snd ?r with _ => _ end] => destruct (snd r)
       end.
  all: now dict_run.
Qed.

End TurnFacts.

(** A runtime for evaluating the converters on sample requests.  Of
    JSON text it knows the empty dict only, which is what the samples
    pass as arguments; [repr] prints a placeholder. *)
Definition sample_runtime : PyRuntime :=
  {| py_repr := fun _ => "<repr>";
     json_loads :=
       fun text => if String.eqb text "{}" then Some (JObj []) else None;
     json_dumps :=
       fun v => match v with JObj [] => "{}" | _ => "<json>" end |}.

(** Every turn of the list has a [parts] key that holds a list with an
    element. *)
Definition all_parts_nonempty (contents : list json) : Prop :=
  Forall (fun t => exists part parts,
            py_getitem t "parts" = Some (JArr (part :: parts)))
         contents.

(** C10.  In the request either Gemini-target converter returns,
    [contents] is the list of the translated turns without those whose
    [parts] is empty (the repair step removes them), so every turn in it
    has a [parts] key holding a non-empty list. *)
Theorem contents_parts_nonempty {rt : PyRuntime} :
  (forall request out,
     ClaudeToGemini.convert_request request = Some out ->
     exists kv turns,
       ClaudeToGemini.assemble_request request = Some (JObj kv) /\
       dict_lookup "contents" kv = Some (JArr turns) /\
       py_getitem out "contents" = Some (JArr (filter nonempty_parts turns)) /\
       all_parts_nonempty (filter nonempty_parts turns)) /\
  (forall request out,
     OpenAIToGemini.convert_request request = Some out ->
     exists kv turns,
       OpenAIToGemini.assemble_request request = Some (JObj kv) /\
       dict_lookup "contents" kv = Some (JArr turns) /\
       py_getitem out "contents" = Some (JArr (filter nonempty_parts turns)) /\
       all_parts_nonempty (filter nonempty_parts turns)).
Proof.
  split; intros request out H.
  - unfold ClaudeToGemini.convert_request in H. py_inv H.
    destruct (c2g_assembled _ _ E) as (kv & turns & -> & Hl & Hturns).
    exists kv, turns. repeat split; auto.
    + eapply fix_request_issues_contents; eauto.
    + now apply filter_nonempty_parts_list.
  - unfold OpenAIToGemini.convert_request in H. py_inv H.
    destruct (o2g_assembled _ _ E) as (kv & turns & -> & Hl & Hturns).
    exists kv, turns. repeat split; auto.
    + eapply fix_request_issues_contents; eauto.
    + now apply filter_nonempty_parts_list.
Qed.

(** A user turn with the empty list as content translates to a turn
    with no part, which the request does not keep. *)
Lemma contents_parts_nonempty_sample :
  let claude_request :=
    JObj [("messages",
           JArr [JObj [("role", JStr "user"); ("content", JStr "hi")];
                 JObj [("role", JStr "user"); ("content", JArr [])]])] in
  let openai_request :=
    JObj [("messages",
           JArr [JObj [("role", JStr "user"); ("content", JStr "hi")];
                 JObj [("role", JStr "assistant"); ("content", JArr [])]])] in
  let out :=
    JObj [("contents",
           JArr [JObj [("role", JStr "user");
                       ("parts", JArr [JObj [("text", JStr "hi")]])]])] in
  (ClaudeToGemini.convert_request (rt := sample_runtime) claude_request
   = Some out /\
   exists kv turns,
     ClaudeToGemini.assemble_request (rt := sample_runtime) claude_request
     = Some (JObj kv) /\
     dict_lookup "contents" kv = Some (JArr turns) /\
     py_getitem out "contents" = Some (JArr (filter nonempty_parts turns)) /\
     all_parts_nonempty (filter nonempty_parts turns)) /\
  (OpenAIToGemini.convert_request (rt := sample_runtime) openai_request
   = Some out /\
   exists kv turns,
     OpenAIToGemini.assemble_request (rt := sample_runtime) openai_request
     = Some (JObj kv) /\
     dict_lookup "contents" kv = Some (JArr turns) /\
     py_getitem out "contents" = Some (JArr (filter nonempty_parts turns)) /\
     all_parts_nonempty (filter nonempty_parts turns)).
Proof.
  intros claude_request openai_request out.
  pose proof (contents_parts_nonempty (rt := sample_runtime)) as [Hc Ho].
  split; (split; [reflexivity|]).
  - apply (Hc claude_request out). reflexivity.
  - apply (Ho openai_request out). reflexivity.
Defined.

(* ================================================================== *)
(** * Loops over the messages of a conversation *)
(* ================================================================== *)

Lemma mapM_app (A B : Type) (f : A -> py B) (l1 l2 : list A) (out : list B) :
  mapM f (l1 ++ l2)%list = Some out ->
  exists o1 o2,
    mapM f l1 = Some o1 /\ mapM f l2 = Some o2 /\ out = (o1 ++ o2)%list.
Proof.
  revert out. induction l1 as [|a t IH]; simpl; intros out H.
  - exists [], out. auto.
  - py_inv H. destruct (IH _ eq_refl) as (o1 & o2 & H1 & H2 & ->).
    exists (a0 :: o1), o2. rewrite H1. auto.
Qed.

Section LoopFacts.
Context {rt : PyRuntime}.

Lemma o2g_loop_app (m : idmap) (l1 l2 acc : list json) (sys : option json) :
  OpenAIToGemini.convert_loop m (l1 ++ l2)%list acc sys
  = (r <- OpenAIToGemini.convert_loop m l1 acc sys ;;
     OpenAIToGemini.convert_loop m l2 (fst r) (snd r)).
Proof.
  revert acc sys. induction l1 as [|a t IH]; simpl; intros acc sys;
    [reflexivity|].
  destruct (OpenAIToGemini.convert_message m a sys); simpl; auto.
Qed.

(** The loop only appends to [gemini_contents]. *)
Lemma o2g_loop_frame (m : idmap) (l acc acc0 out : list json)
    (sys sys' : option json) :
  OpenAIToGemini.convert_loop m l acc0 sys = Some (out, sys') ->
  OpenAIToGemini.convert_loop m l (acc ++ acc0)%list sys
  = Some ((acc ++ out)%list, sys').
Proof.
  revert acc0 sys. induction l as [|a t IH]; simpl; intros acc0 sys H.
  - now inversion H.
  - destruct (OpenAIToGemini.convert_message m a sys) as [r0|]; [|discriminate].
    cbn [bind] in *. rewrite <- app_assoc. now apply IH.
Qed.

Lemma o2g_loop_appends (m : idmap) (l acc : list json) (sys : option json)
    (r : list json * option json) :
  OpenAIToGemini.convert_loop m l acc sys = Some r ->
  exists new, fst r = (acc ++ new)%list /\
              OpenAIToGemini.convert_loop m l [] sys = Some (new, snd r).
Proof.
  revert acc sys r. induction l as [|a t IH]; simpl; intros acc sys r H.
  - inversion H; subst. exists []. simpl. now rewrite app_nil_r.
  - destruct (OpenAIToGemini.convert_message m a sys) as [r0|]; [|discriminate].
    cbn [bind] in *. destruct (IH _ _ _ H) as (new & Hr & Hnew).
    exists (fst r0 ++ new)%list. split.
    + now rewrite Hr, app_assoc.
    + pose proof (o2g_loop_frame m t (fst r0) [] new _ _ Hnew) as Hf.
      now rewrite app_nil_r in Hf.
Qed.

End LoopFacts.

(* ================================================================== *)
(** * The role of a tool turn *)
(* ================================================================== *)

Section ToolRole.
Context {rt : PyRuntime}.

Lemma c2g_tool_message (message : json) :
  py_get message "role" (JStr "") = Some (JStr "tool") ->
  exists parts,
    ClaudeToGemini.convert_message message
    = Some [ClaudeToGemini.turn "model" parts].
Proof.
  intros Hrole. destruct message as [| | | | |kv]; try discriminate.
  unfold ClaudeToGemini.convert_message. rewrite Hrole.
  cbn [bind py_get eq_str]. simpl String.eqb. cbn iota. eauto.
Qed.

Lemma o2g_tool_message (m : idmap) (message : json) (sys : option json)
    (r : list json * option json) :
  py_get message "role" (JStr "") = Some (JStr "tool") ->
  OpenAIToGemini.convert_message m message sys = Some r ->
  exists parts, fst r = [OpenAIToGemini.turn "user" parts].
Proof.
  intros Hrole H. unfold OpenAIToGemini.convert_message in H.
  rewrite Hrole in H. cbn [bind] in H. py_inv H; simpl; eauto; discriminate.
Qed.

End ToolRole.

(** C3, as the code has it.  A tool turn of a Claude conversation
    becomes one turn with role ["model"]; a tool turn of an OpenAI
    conversation becomes one turn with role ["user"].  In both cases
    the turn stands after the turns of the messages before it. *)
Theorem tool_turn_role {rt : PyRuntime} :
  (forall pre message post out,
     py_get message "role" (JStr "") = Some (JStr "tool") ->
     ClaudeToGemini.convert_messages (pre ++ message :: post)%list = Some out ->
     exists out1 t out2,
       ClaudeToGemini.convert_messages pre = Some out1 /\
       out = (out1 ++ t :: out2)%list /\
       py_getitem t "role" = Some (JStr "model")) /\
  (forall pre message post r,
     py_get message "role" (JStr "") = Some (JStr "tool") ->
     OpenAIToGemini.convert_messages (pre ++ message :: post)%list = Some r ->
     exists m sys out1 t out2,
       OpenAIToGemini.build_tool_call_map (pre ++ message :: post)%list = Some m /\
       OpenAIToGemini.convert_loop m pre [] None = Some (out1, sys) /\
       fst r = (out1 ++ t :: out2)%list /\
       py_getitem t "role" = Some (JStr "user")).
Proof.
  split.
  - intros pre message post out Hrole H.
    unfold ClaudeToGemini.convert_messages in H.
    destruct (mapM ClaudeToGemini.convert_message (pre ++ message :: post))
      as [turns|] eqn:E; [|discriminate].
    cbn [bind] in H. inversion H; subst out; clear H.
    apply mapM_app in E. destruct E as (o1 & o2 & H1 & H2 & ->).
    simpl in H2. destruct (c2g_tool_message message Hrole) as (parts & Hm).
    rewrite Hm in H2. cbn [bind] in H2.
    destruct (mapM ClaudeToGemini.convert_message post) as [o3|];
      [|discriminate].
    cbn [bind] in H2. inversion H2; subst o2; clear H2.
    exists (List.concat o1), (ClaudeToGemini.turn "model" parts), (List.concat o3).
    repeat split.
    + unfold ClaudeToGemini.convert_messages. now rewrite H1.
    + now rewrite concat_app.
  - intros pre message post r Hrole H.
    unfold OpenAIToGemini.convert_messages in H.
    destruct (OpenAIToGemini.build_tool_call_map (pre ++ message :: post))
      as [m|] eqn:Hmap; [|discriminate].
    cbn [bind] in H. rewrite o2g_loop_app in H.
    destruct (OpenAIToGemini.convert_loop m pre [] None) as [[out1 sys1]|]
      eqn:Hpre; [|discriminate].
    cbn [bind fst snd OpenAIToGemini.convert_loop] in H.
    destruct (OpenAIToGemini.convert_message m message sys1) as [r1|] eqn:E1;
      [|discriminate].
    cbn [bind] in H.
    destruct (o2g_tool_message _ _ _ _ Hrole E1) as (parts & Hparts).
    apply o2g_loop_appends in H. destruct H as (new & Hr & _).
    exists m, sys1, out1, (OpenAIToGemini.turn "user" parts), new.
    repeat split; auto.
    rewrite Hr, Hparts. now rewrite <- app_assoc.
Qed.

Lemma tool_turn_role_sample :
  let user := JObj [("role", JStr "user"); ("content", JStr "hi")] in
  let claude_tool :=
    JObj [("role", JStr "tool"); ("name", JStr "lookup");
          ("content", JStr "42")] in
  let openai_tool :=
    JObj [("role", JStr "tool"); ("tool_call_id", JStr "c1");
          ("name", JStr "lookup"); ("content", JStr "42")] in
  let user_turn :=
    JObj [("role", JStr "user");
          ("parts", JArr [JObj [("text", JStr "hi")]])] in
  let model_turn :=
    JObj [("role", JStr "model");
          ("parts",
           JArr [JObj [("text",
                        JStr ("Tool Response (lookup):" ++ nl ++ "42"))]])] in
  let response_turn :=
    JObj [("role", JStr "user");
          ("parts",
           JArr [JObj [("functionResponse",
                        JObj [("name", JStr "lookup");
                              ("response",
                               JObj [("result", JStr "42")])])]])] in
  (ClaudeToGemini.convert_messages (rt := sample_runtime) [user; claude_tool]
   = Some [user_turn; model_turn] /\
   exists out1 t out2,
     ClaudeToGemini.convert_messages (rt := sample_runtime) [user] = Some out1 /\
     [user_turn; model_turn] = (out1 ++ t :: out2)%list /\
     py_getitem t "role" = Some (JStr "model")) /\
  (OpenAIToGemini.convert_messages (rt := sample_runtime) [user; openai_tool]
   = Some ([user_turn; response_turn], None) /\
   exists m sys out1 t out2,
     OpenAIToGemini.build_tool_call_map [user; openai_tool] = Some m /\
     OpenAIToGemini.convert_loop (rt := sample_runtime) m [user] [] None
     = Some (out1, sys) /\
     [user_turn; response_turn] = (out1 ++ t :: out2)%list /\
     py_getitem t "role" = Some (JStr "user")).
Proof.
  intros user claude_tool openai_tool user_turn model_turn response_turn.
  pose proof (tool_turn_role (rt := sample_runtime)) as [Hc Ho].
  split; (split; [reflexivity|]).
  - exact (Hc [user] claude_tool [] [user_turn; model_turn] eq_refl eq_refl).
  - exact (Ho [user] openai_tool [] ([user_turn; response_turn], None)
             eq_refl eq_refl).
Defined.

(** The OpenAI converter gives a tool turn the role ["user"], not
    ["model"]. *)
Lemma tool_turn_role_openai_user :
  OpenAIToGemini.convert_messages (rt := sample_runtime)
    [JObj [("role", JStr "tool"); ("tool_call_id", JStr "c1");
           ("name", JStr "lookup"); ("content", JStr "42")]]
  = Some ([JObj [("role", JStr "user");
                 ("parts",
                  JArr [JObj [("functionResponse",
                               JObj [("name", JStr "lookup");
                                     ("response",
                                      JObj [("result", JStr "42")])])]])]],
          None)
  /\ JStr "user" <> JStr "model".
Proof. split; [reflexivity | discriminate]. Qed.

(* ================================================================== *)
(** * The identifier map: last write wins *)
(* ================================================================== *)

Lemma key_eqb_sym (a b : json) : key_eqb a b = key_eqb b a.
Proof.
  destruct a, b; simpl; try reflexivity;
    try apply String.eqb_sym; apply Z.eqb_sym.
Qed.

Lemma key_eqb_trans (a b c : json) :
  key_eqb a b = true -> key_eqb b c = true -> key_eqb a c = true.
Proof.
  destruct a, b, c; simpl; try discriminate; try reflexivity;
    rewrite ?String.eqb_eq, ?Z.eqb_eq; intros; subst; congruence.
Qed.

(** Keys that are equal look everything up alike. *)
Lemma key_eqb_cong (a b c : json) :
  key_eqb a b = true -> key_eqb a c = key_eqb b c.
Proof.
  intros Hab. destruct (key_eqb b c) eqn:Hbc.
  - eapply key_eqb_trans; eauto.
  - destruct (key_eqb a c) eqn:Hac; [|reflexivity].
    rewrite key_eqb_sym in Hab.
    now rewrite (key_eqb_trans _ _ _ Hab Hac) in Hbc.
Qed.

Lemma idmap_find_put (k k' v : json) (m : idmap) :
  idmap_find k (idmap_put k' v m)
  = if key_eqb k' k then Some v else idmap_find k m.
Proof.
  induction m as [|[k0 v0] t IH]; simpl; [reflexivity|].
  destruct (key_eqb k0 k') eqn:H0; simpl.
  - rewrite (key_eqb_cong _ _ k H0). now destruct (key_eqb k' k).
  - rewrite IH. destruct (key_eqb k0 k) eqn:H1; [|reflexivity].
    destruct (key_eqb k' k) eqn:H2; [|reflexivity].
    rewrite key_eqb_sym in H2.
    now rewrite (key_eqb_trans _ _ _ H1 H2) in H0.
Qed.

(** The calls of a conversation, in scan order, as pairs of identifier
    and name; [last_recorded] is the name of the last one that carries
    the identifier. *)
Definition last_recorded (id : json) (calls : list (json * json)) : option json :=
  option_map snd (find (fun call => key_eqb (fst call) id) (rev calls)).

Definition record_all (calls : list (json * json)) (m : idmap) : idmap :=
  fold_left (fun m call => idmap_put (fst call) (snd call) m) calls m.

Lemma record_all_app (l1 l2 : list (json * json)) (m : idmap) :
  record_all (l1 ++ l2)%list m = record_all l2 (record_all l1 m).
Proof. apply fold_left_app. Qed.

Lemma idmap_find_record_all (id : json) (calls : list (json * json)) :
  idmap_find id (record_all calls []) = last_recorded id calls.
Proof.
  unfold last_recorded.
  induction calls as [|call calls IH] using rev_ind; [reflexivity|].
  rewrite record_all_app, rev_app_distr. simpl.
  rewrite idmap_find_put, IH. now destruct (key_eqb (fst call) id).
Qed.

(** A scan whose every step records the pairs [pairs a] of its element
    records the pairs of all elements, in order. *)
Lemma foldM_record_all (A : Type) (step : idmap -> A -> py idmap)
    (pairs : A -> list (json * json)) (l : list A) (m m' : idmap) :
  (forall m a m', step m a = Some m' -> m' = record_all (pairs a) m) ->
  foldM step m l = Some m' ->
  m' = record_all (flat_map pairs l) m.
Proof.
  intros Hstep. revert m. induction l as [|a t IH]; simpl; intros m H.
  - now inversion H.
  - destruct (step m a) as [m1|] eqn:E; [|discriminate]. cbn [bind] in H.
    rewrite record_all_app, <- (Hstep _ _ _ E). now apply IH.
Qed.

(* ================================================================== *)
(** * Resolving a tool result to the name of its call *)
(* ================================================================== *)

(** The pair one entry of [tool_calls] records: its [id] and the [name]
    of its [function], when both are truthy. *)
Definition o2g_call_pair (tool_call : json) : list (json * json) :=
  match py_get tool_call "id" (JStr ""),
        (function_data <- py_get tool_call "function" (JObj []) ;;
         py_get function_data "name" (JStr "")) with
  | Some id, Some name => if truthy id && truthy name then [(id, name)] else []
  | _, _ => []
  end.

(** The pairs an OpenAI message records, in the order of its calls. *)
Definition o2g_calls_of (message : json) : list (json * json) :=
  match OpenAIToGemini.tool_calls_of message with
  | Some tool_calls =>
      if truthy tool_calls then
        match py_iter tool_calls with
        | Some calls => flat_map o2g_call_pair calls
        | None => []
        end
      else []
  | None => []
  end.

(** The pair one content block of a Claude message records. *)
Definition c2o_call_pair (item : json) : list (json * json) :=
  if ClaudeToOpenAI.is_block "tool_use" item then
    match py_get item "id" JNull, py_get item "name" JNull with
    | Some id, Some name => if truthy id && truthy name then [(id, name)] else []
    | _, _ => []
    end
  else [].

(** The pairs a Claude message records: those of the [tool_use] blocks
    of an assistant turn whose content is a list. *)
Definition c2o_calls_of (message : json) : list (json * json) :=
  match py_get message "role" JNull, py_get message "content" JNull with
  | Some role, Some (JArr items) =>
      if eq_str role "assistant" then flat_map c2o_call_pair items else []
  | _, _ => []
  end.

Lemma idmap_set_record (m m' : idmap) (id name : json) :
  idmap_set m id name = Some m' -> m' = record_all [(id, name)] m.
Proof.
  unfold idmap_set. destruct (hashable id); [|discriminate].
  now inversion 1.
Qed.

Lemma o2g_record_call_pairs (m : idmap) (tool_call : json) (m' : idmap) :
  OpenAIToGemini.record_call m tool_call = Some m' ->
  m' = record_all (o2g_call_pair tool_call) m.
Proof.
  unfold OpenAIToGemini.record_call, o2g_call_pair. intros H.
  destruct (py_get tool_call "id" (JStr "")) as [id|]; [|discriminate].
  cbn [bind] in *.
  destruct (py_get tool_call "function" (JObj [])) as [fd|]; [|discriminate].
  cbn [bind] in *.
  destruct (py_get fd "name" (JStr "")) as [name|]; [|discriminate].
  cbn [bind] in *.
  destruct (truthy id && truthy name).
  - now apply idmap_set_record.
  - now inversion H.
Qed.

Lemma o2g_record_message_pairs (m : idmap) (message : json) (m' : idmap) :
  OpenAIToGemini.record_message m message = Some m' ->
  m' = record_all (o2g_calls_of message) m.
Proof.
  unfold OpenAIToGemini.record_message, o2g_calls_of. intros H.
  destruct (OpenAIToGemini.tool_calls_of message) as [tcs|]; [|discriminate].
  cbn [bind] in H. destruct (truthy tcs); [|now inversion H].
  destruct (py_iter tcs) as [calls|]; [|discriminate]. cbn [bind] in H.
  eapply foldM_record_all; [|exact H]. apply o2g_record_call_pairs.
Qed.

Lemma o2g_map_last (messages : list json) (m : idmap) (id : json) :
  OpenAIToGemini.build_tool_call_map messages = Some m ->
  idmap_find id m = last_recorded id (flat_map o2g_calls_of messages).
Proof.
  unfold OpenAIToGemini.build_tool_call_map. intros H.
  apply (foldM_record_all _ _ o2g_calls_of) in H;
    [|apply o2g_record_message_pairs].
  subst m. apply idmap_find_record_all.
Qed.

Section C2OMap.
Context {rt : PyRuntime}.

Lemma c2o_record_item_pairs (m : idmap) (item : json) (m' : idmap) :
  ClaudeToOpenAI.record_item m item = Some m' ->
  m' = record_all (c2o_call_pair item) m.
Proof.
  unfold ClaudeToOpenAI.record_item, c2o_call_pair. intros H.
  destruct (ClaudeToOpenAI.is_block "tool_use" item); [|now inversion H].
  destruct (py_get item "id" JNull) as [id|]; [|discriminate].
  cbn [bind] in *.
  destruct (py_get item "name" JNull) as [name|]; [|discriminate].
  cbn [bind] in *.
  destruct (truthy id && truthy name).
  - now apply idmap_set_record.
  - now inversion H.
Qed.

Lemma c2o_record_message_pairs (m : idmap) (message : json) (m' : idmap) :
  ClaudeToOpenAI.record_message m message = Some m' ->
  m' = record_all (c2o_calls_of message) m.
Proof.
  unfold ClaudeToOpenAI.record_message, c2o_calls_of. intros H.
  destruct (py_get message "role" JNull) as [role|]; [|discriminate].
  cbn [bind] in H.
  destruct (py_get message "content" JNull) as [content|]; [|discriminate].
  cbn [bind] in H.
  destruct (eq_str role "assistant").
  - destruct content; try (now inversion H).
    eapply foldM_record_all; [|exact H]. apply c2o_record_item_pairs.
  - inversion H. now destruct content.
Qed.

Lemma c2o_map_last (messages : list json) (m : idmap) (id : json) :
  ClaudeToOpenAI.build_tool_use_map messages = Some m ->
  idmap_find id m = last_recorded id (flat_map c2o_calls_of messages).
Proof.
  unfold ClaudeToOpenAI.build_tool_use_map. intros H.
  apply (foldM_record_all _ _ c2o_calls_of) in H;
    [|apply c2o_record_message_pairs].
  subst m. apply idmap_find_record_all.
Qed.

End C2OMap.

(** [v.get(k, dflt)] on a value known to be a dict. *)
Definition get_or (v : json) (k : string) (dflt : json) : json :=
  match py_get v k dflt with
  | Some x => x
  | None => dflt
  end.

(** The name a result with identifier [id] resolves to: the name of the
    last recorded call that carries [id], else the converter's default. *)
Definition resolved_name (id : json) (calls : list (json * json))
    (dflt : string) : json :=
  match last_recorded id calls with
  | Some name => name
  | None => JStr dflt
  end.

(** The message the Claude to OpenAI converter emits for a
    [tool_result] block, given the calls of the conversation. *)
Definition c2o_tool_message (calls : list (json * json)) (block : json) : json :=
  let id := get_or block "tool_use_id" (JStr "") in
  JObj [("role", JStr "tool"); ("tool_call_id", id);
        ("name", resolved_name id calls "unknown");
        ("content", get_or block "content" (JStr ""))].

Section ResultNames.
Context {rt : PyRuntime}.

Lemma o2g_result_turn (m : idmap) (message : json) (sys : option json)
    (r : list json * option json) (id content : json) :
  py_get message "role" (JStr "") = Some (JStr "tool") ->
  OpenAIToGemini.tool_calls_of message = Some JNull ->
  truthy (get_or message "name" (JStr "")) = false ->
  py_get message "tool_call_id" (JStr "") = Some id ->
  truthy id = true ->
  py_get message "content" (JStr "") = Some content ->
  OpenAIToGemini.convert_message m message sys = Some r ->
  fst r =
  [OpenAIToGemini.turn "user"
     [JObj [("functionResponse",
             JObj [("name",
                    match idmap_find id m with
                    | Some name => name
                    | None => JStr ""
                    end);
                   ("response",
                    JObj [("result",
                           if is_str content then content
                           else JStr (py_str content))])])]]].
Proof.
  intros Hrole Hcalls Hname Hid Htid Hcontent H.
  unfold OpenAIToGemini.convert_message in H.
  rewrite Hrole, Hcontent, Hcalls in H. cbn [bind eq_str truthy] in H.
  simpl String.eqb in H. cbn iota in H.
  rewrite Hid in H. cbn [bind] in H.
  unfold get_or in Hname.
  destruct (py_get message "name" (JStr "")) as [n0|]; [|discriminate].
  cbn [bind] in H. rewrite Hname, Htid in H. cbn [negb andb] in H.
  unfold idmap_get in H. destruct (hashable id); [|discriminate].
  cbn [bind] in H. now inversion H.
Qed.

Lemma c2o_tool_message_expected (messages : list json) (m : idmap)
    (block t : json) :
  ClaudeToOpenAI.build_tool_use_map messages = Some m ->
  ClaudeToOpenAI.is_block "tool_result" block = true ->
  ClaudeToOpenAI.tool_message m block = Some t ->
  t = c2o_tool_message (flat_map c2o_calls_of messages) block.
Proof.
  intros Hm Hb H. destruct block as [| | | | |kv]; try discriminate.
  unfold ClaudeToOpenAI.tool_message in H.
  unfold c2o_tool_message, resolved_name, get_or.
  cbn [py_get bind] in *. unfold idmap_get in H.
  destruct (hashable _); [|discriminate]. cbn [bind] in H.
  rewrite <- (c2o_map_last messages m _ Hm). now inversion H.
Qed.

Lemma c2o_tool_messages_expected (messages : list json) (m : idmap)
    (blocks out : list json) :
  ClaudeToOpenAI.build_tool_use_map messages = Some m ->
  Forall (fun b => ClaudeToOpenAI.is_block "tool_result" b = true) blocks ->
  mapM (ClaudeToOpenAI.tool_message m) blocks = Some out ->
  out = map (c2o_tool_message (flat_map c2o_calls_of messages)) blocks.
Proof.
  intros Hm Hall. revert out.
  induction Hall as [|b bs Hb _ IH]; simpl; intros out H.
  - now inversion H.
  - destruct (ClaudeToOpenAI.tool_message m b) as [t|] eqn:Ht; [|discriminate].
    cbn [bind] in H.
    destruct (mapM (ClaudeToOpenAI.tool_message m) bs) as [ts|]; [|discriminate].
    cbn [bind] in H. inversion H; subst out. f_equal.
    + eapply c2o_tool_message_expected; eauto.
    + now apply IH.
Qed.

Lemma c2o_result_messages (messages : list json) (m : idmap)
    (message role : json) (items out : list json) :
  ClaudeToOpenAI.build_tool_use_map messages = Some m ->
  py_get message "role" (JStr "") = Some role ->
  py_get message "content" (JStr "") = Some (JArr items) ->
  filter (ClaudeToOpenAI.is_block "tool_use") items = []
  \/ eq_str role "assistant" = false ->
  filter (ClaudeToOpenAI.is_block "tool_result") items <> [] ->
  ClaudeToOpenAI.convert_message m message = Some out ->
  out = map (c2o_tool_message (flat_map c2o_calls_of messages))
          (filter (ClaudeToOpenAI.is_block "tool_result") items).
Proof.
  intros Hm Hrole Hcontent Hnocall Hres H.
  unfold ClaudeToOpenAI.convert_message in H.
  rewrite Hrole, Hcontent in H. cbn [bind] in H.
  destruct (ClaudeToOpenAI.openai_content_of (JArr items)) as [oc|];
    [|discriminate].
  cbn [bind] in H.
  assert (Hcond : match filter (ClaudeToOpenAI.is_block "tool_use") items with
                  | [] => false
                  | _ :: _ => true
                  end && eq_str role "assistant" = false).
  { destruct Hnocall as [-> | ->]; [reflexivity | apply andb_false_r]. }
  rewrite Hcond in H.
  assert (Hall : Forall (fun b => ClaudeToOpenAI.is_block "tool_result" b = true)
                   (filter (ClaudeToOpenAI.is_block "tool_result") items)).
  { apply Forall_forall. intros b Hin. now apply filter_In in Hin. }
  destruct (filter (ClaudeToOpenAI.is_block "tool_result") items) as [|b bs];
    [contradiction|].
  eapply c2o_tool_messages_expected; eauto.
Qed.

End ResultNames.

Lemma last_recorded_last (id name : json) (calls1 calls2 : list (json * json)) :
  key_eqb id id = true ->
  (forall call, In call calls2 -> key_eqb (fst call) id = false) ->
  last_recorded id (calls1 ++ (id, name) :: calls2)%list = Some name.
Proof.
  intros Hid Hlater. unfold last_recorded.
  rewrite rev_app_distr. simpl. rewrite <- app_assoc. simpl.
  assert (Hnone : forall l,
             find (fun call => key_eqb (fst call) id) (rev calls2 ++ l)%list
             = find (fun call => key_eqb (fst call) id) l).
  { intros l. assert (Hrev : forall call, In call (rev calls2) ->
                               key_eqb (fst call) id = false).
    { intros call Hin. apply Hlater. now apply in_rev. }
    induction (rev calls2) as [|c t IH]; simpl; [reflexivity|].
    rewrite (Hrev c (or_introl eq_refl)). apply IH.
    intros call Hin. apply Hrev. now right. }
  rewrite Hnone. simpl. now rewrite Hid.
Qed.

(** C6.  A tool result that names no function takes the name recorded
    for its call identifier.  The identifier map is built by one scan
    over all messages before any message is translated, so the name is
    that of the last call of the whole conversation that carries the
    identifier ([resolved_name], [last_recorded]); a later call with the
    same identifier replaces an earlier one. *)
Theorem result_name_resolved {rt : PyRuntime} :
  (forall pre result post r id content,
     py_get result "role" (JStr "") = Some (JStr "tool") ->
     OpenAIToGemini.tool_calls_of result = Some JNull ->
     truthy (get_or result "name" (JStr "")) = false ->
     py_get result "tool_call_id" (JStr "") = Some id ->
     truthy id = true ->
     py_get result "content" (JStr "") = Some content ->
     OpenAIToGemini.convert_messages (pre ++ result :: post)%list = Some r ->
     exists m sys out1 out2,
       OpenAIToGemini.build_tool_call_map (pre ++ result :: post)%list = Some m /\
       OpenAIToGemini.convert_loop m pre [] None = Some (out1, sys) /\
       fst r =
       (out1 ++
        OpenAIToGemini.turn "user"
          [JObj [("functionResponse",
                  JObj [("name",
                         resolved_name id
                           (flat_map o2g_calls_of (pre ++ result :: post)%list)
                           "");
                        ("response",
                         JObj [("result",
                                if is_str content then content
                                else JStr (py_str content))])])]]
        :: out2)%list) /\
  (forall pre message post out role items,
     py_get message "role" (JStr "") = Some role ->
     py_get message "content" (JStr "") = Some (JArr items) ->
     filter (ClaudeToOpenAI.is_block "tool_use") items = []
     \/ eq_str role "assistant" = false ->
     filter (ClaudeToOpenAI.is_block "tool_result") items <> [] ->
     ClaudeToOpenAI.convert_messages (pre ++ message :: post)%list = Some out ->
     exists m o1 out2,
       ClaudeToOpenAI.build_tool_use_map (pre ++ message :: post)%list = Some m /\
       mapM (ClaudeToOpenAI.convert_message m) pre = Some o1 /\
       out =
       (List.concat o1 ++
        map (c2o_tool_message
               (flat_map c2o_calls_of (pre ++ message :: post)%list))
          (filter (ClaudeToOpenAI.is_block "tool_result") items)
        ++ out2)%list) /\
  (forall id name calls1 calls2 dflt,
     key_eqb id id = true ->
     (forall call, In call calls2 -> key_eqb (fst call) id = false) ->
     resolved_name id (calls1 ++ (id, name) :: calls2)%list dflt = name).
Proof.
  split; [|split].
  - intros pre result post r id content Hrole Hcalls Hname Hid Htid Hcontent H.
    unfold OpenAIToGemini.convert_messages in H.
    destruct (OpenAIToGemini.build_tool_call_map (pre ++ result :: post))
      as [m|] eqn:Hmap; [|discriminate].
    cbn [bind] in H. rewrite o2g_loop_app in H.
    destruct (OpenAIToGemini.convert_loop m pre [] None) as [[out1 sys1]|]
      eqn:Hpre; [|discriminate].
    cbn [bind fst snd OpenAIToGemini.convert_loop] in H.
    destruct (OpenAIToGemini.convert_message m result sys1) as [r1|] eqn:E1;
      [|discriminate].
    cbn [bind] in H.
    pose proof (o2g_result_turn _ _ _ _ _ _ Hrole Hcalls Hname Hid Htid
                  Hcontent E1) as Hturn.
    apply o2g_loop_appends in H. destruct H as (new & Hr & _).
    exists m, sys1, out1, new. repeat split; auto.
    rewrite Hr, Hturn, <- app_assoc. unfold resolved_name.
    now rewrite <- (o2g_map_last _ _ id Hmap).
  - intros pre message post out role items Hrole Hcontent Hnocall Hres H.
    unfold ClaudeToOpenAI.convert_messages in H.
    destruct (ClaudeToOpenAI.build_tool_use_map (pre ++ message :: post))
      as [m|] eqn:Hmap; [|discriminate].
    cbn [bind] in H.
    destruct (mapM (ClaudeToOpenAI.convert_message m) (pre ++ message :: post))
      as [os|] eqn:Hos; [|discriminate].
    cbn [bind] in H. inversion H; subst out; clear H.
    apply mapM_app in Hos. destruct Hos as (o1 & o2 & H1 & H2 & ->).
    simpl in H2.
    destruct (ClaudeToOpenAI.convert_message m message) as [ts|] eqn:Hts;
      [|discriminate].
    cbn [bind] in H2.
    destruct (mapM (ClaudeToOpenAI.convert_message m) post) as [o3|];
      [|discriminate].
    cbn [bind] in H2. inversion H2; subst o2; clear H2.
    exists m, o1, (List.concat o3). repeat split; auto.
    rewrite concat_app. simpl. f_equal. f_equal.
    eapply c2o_result_messages; eauto.
  - intros id name calls1 calls2 dflt Hid Hlater. unfold resolved_name.
    now rewrite last_recorded_last.
Qed.

(** The call [c1] is named [lookup]; the result that follows carries
    only the identifier and is translated with the name [lookup], from
    an OpenAI conversation and from a Claude conversation. *)
Lemma result_name_resolved_lookup :
  let call :=
    JObj [("role", JStr "assistant"); ("content", JNull);
          ("tool_calls",
           JArr [JObj [("id", JStr "c1"); ("type", JStr "function");
                       ("function",
                        JObj [("name", JStr "lookup");
                              ("arguments", JStr "{}")])]])] in
  let result :=
    JObj [("role", JStr "tool"); ("tool_call_id", JStr "c1");
          ("content", JStr "42")] in
  let call_turn :=
    OpenAIToGemini.turn "model"
      [JObj [("functionCall",
              JObj [("name", JStr "lookup"); ("args", JObj [])])]] in
  let result_turn :=
    OpenAIToGemini.turn "user"
      [JObj [("functionResponse",
              JObj [("name", JStr "lookup");
                    ("response", JObj [("result", JStr "42")])])]] in
  let claude_call :=
    JObj [("role", JStr "assistant");
          ("content",
           JArr [JObj [("type", JStr "tool_use"); ("id", JStr "c1");
                       ("name", JStr "lookup"); ("input", JObj [])]])] in
  let claude_result :=
    JObj [("role", JStr "user");
          ("content",
           JArr [JObj [("type", JStr "tool_result");
                       ("tool_use_id", JStr "c1");
                       ("content", JStr "42")]])] in
  let call_message :=
    JObj [("role", JStr "assistant"); ("content", JNull);
          ("tool_calls",
           JArr [JObj [("id", JStr "c1"); ("type", JStr "function");
                       ("function",
                        JObj [("name", JStr "lookup");
                              ("arguments", JStr "{}")])]])] in
  let tool_message :=
    JObj [("role", JStr "tool"); ("tool_call_id", JStr "c1");
          ("name", JStr "lookup"); ("content", JStr "42")] in
  (OpenAIToGemini.convert_messages (rt := sample_runtime) [call; result]
   = Some ([call_turn; result_turn], None) /\
   exists m sys out1 out2,
     OpenAIToGemini.build_tool_call_map [call; result] = Some m /\
     OpenAIToGemini.convert_loop (rt := sample_runtime) m [call] [] None
     = Some (out1, sys) /\
     [call_turn; result_turn] = (out1 ++ result_turn :: out2)%list) /\
  (ClaudeToOpenAI.convert_messages (rt := sample_runtime)
     [claude_call; claude_result]
   = Some [call_message; tool_message] /\
   exists m o1 out2,
     ClaudeToOpenAI.build_tool_use_map [claude_call; claude_result] = Some m /\
     mapM (ClaudeToOpenAI.convert_message (rt := sample_runtime) m) [claude_call]
     = Some o1 /\
     [call_message; tool_message]
     = (List.concat o1 ++ [tool_message] ++ out2)%list) /\
  resolved_name (JStr "c1")
    ([(JStr "c1", JStr "lookup")] ++ (JStr "c1", JStr "fetch")
     :: [(JStr "c2", JStr "store")])%list "unknown"
  = JStr "fetch".
Proof.
  intros call result call_turn result_turn claude_call claude_result
    call_message tool_message.
  pose proof (result_name_resolved (rt := sample_runtime)) as (Ho & Hc & Hlast).
  split; [|split].
  - split; [reflexivity|].
    exact (Ho [call] result [] ([call_turn; result_turn], None)
             (JStr "c1") (JStr "42")
             eq_refl eq_refl eq_refl eq_refl eq_refl eq_refl eq_refl).
  - split; [reflexivity|].
    refine (Hc [claude_call] claude_result [] [call_message; tool_message]
              (JStr "user")
              [JObj [("type", JStr "tool_result"); ("tool_use_id", JStr "c1");
                     ("content", JStr "42")]]
              eq_refl eq_refl (or_introl eq_refl) _ eq_refl).
    discriminate.
  - apply Hlast; [reflexivity|].
    intros call0 [<-|[]]. reflexivity.
Defined.

(* ================================================================== *)
(** * One tool-call turn per tool_use block *)
(* ================================================================== *)

(** The [tool_use] blocks of a message: those of an assistant turn whose
    content is a list. *)
Definition tool_use_blocks (message : json) : list json :=
  match py_get message "role" (JStr ""), py_get message "content" (JStr "") with
  | Some role, Some (JArr items) =>
      if eq_str role "assistant"
      then filter (ClaudeToOpenAI.is_block "tool_use") items
      else []
  | _, _ => []
  end.

(** An OpenAI message that carries [tool_calls]. *)
Definition has_tool_calls (t : json) : bool :=
  match py_getitem t "tool_calls" with
  | Some _ => true
  | None => false
  end.

(** The [tool_calls] entry for a [tool_use] block. *)
Definition call_entry {rt : PyRuntime} (block : json) : json :=
  JObj [("id", get_or block "id" (JStr "")); ("type", JStr "function");
        ("function",
         JObj [("name", get_or block "name" (JStr ""));
               ("arguments",
                JStr (json_dumps (get_or block "input" (JObj []))))])].

(** The tool-call turns among [ts] are, in order, one per block of
    [blocks], each an assistant turn with that block's single entry. *)
Definition call_turns_of {rt : PyRuntime} (blocks ts : list json) : Prop :=
  map (fun t => py_getitem t "tool_calls") (filter has_tool_calls ts)
  = map (fun b => Some (JArr [call_entry b])) blocks /\
  Forall (fun t => py_getitem t "role" = Some (JStr "assistant"))
    (filter has_tool_calls ts).

Section CallTurns.
Context {rt : PyRuntime}.

Lemma call_turns_of_app (b1 b2 t1 t2 : list json) :
  call_turns_of b1 t1 -> call_turns_of b2 t2 ->
  call_turns_of (b1 ++ b2)%list (t1 ++ t2)%list.
Proof.
  intros [H1 F1] [H2 F2]. unfold call_turns_of.
  rewrite filter_app, !map_app, H1, H2. split; [reflexivity|].
  apply Forall_app. auto.
Qed.

Lemma tool_call_messages_turns (text : string) (blocks ts : list json) :
  Forall (fun b => ClaudeToOpenAI.is_block "tool_use" b = true) blocks ->
  mapM (ClaudeToOpenAI.tool_call_message text) blocks = Some ts ->
  call_turns_of blocks ts.
Proof.
  intros Hall. revert ts. induction Hall as [|b bs Hb _ IH]; simpl; intros ts H.
  - inversion H. split; constructor.
  - destruct (ClaudeToOpenAI.tool_call_message text b) as [t|] eqn:Ht;
      [|discriminate].
    cbn [bind] in H.
    destruct (mapM (ClaudeToOpenAI.tool_call_message text) bs) as [ts'|];
      [|discriminate].
    cbn [bind] in H. inversion H; subst ts; clear H.
    apply (call_turns_of_app [b] bs [t] ts'); [|now apply IH].
    destruct b as [| | | | |kv]; try discriminate.
    unfold ClaudeToOpenAI.tool_call_message in Ht. cbn [py_get bind] in Ht.
    inversion Ht; subst t. split; [reflexivity|]. repeat constructor.
Qed.

Lemma tool_messages_no_calls (m : idmap) (blocks ts : list json) :
  mapM (ClaudeToOpenAI.tool_message m) blocks = Some ts ->
  filter has_tool_calls ts = [].
Proof.
  revert ts. induction blocks as [|b bs IH]; simpl; intros ts H.
  - now inversion H.
  - destruct (ClaudeToOpenAI.tool_message m b) as [t|] eqn:Ht; [|discriminate].
    cbn [bind] in H.
    destruct (mapM (ClaudeToOpenAI.tool_message m) bs) as [ts'|];
      [|discriminate].
    cbn [bind] in H. inversion H; subst ts; clear H.
    unfold ClaudeToOpenAI.tool_message in Ht. py_inv Ht. simpl. now apply IH.
Qed.

Lemma c2o_message_call_turns (m : idmap) (message : json) (ts : list json) :
  ClaudeToOpenAI.convert_message m message = Some ts ->
  call_turns_of (tool_use_blocks message) ts.
Proof.
  unfold ClaudeToOpenAI.convert_message, tool_use_blocks. intros H.
  destruct (py_get message "role" (JStr "")) as [role|]; [|discriminate].
  cbn [bind] in H.
  destruct (py_get message "content" (JStr "")) as [content|]; [|discriminate].
  cbn [bind] in H.
  destruct (ClaudeToOpenAI.openai_content_of content) as [oc|]; [|discriminate].
  cbn [bind] in H.
  destruct content as [| | | |items|];
    try (inversion H; subst ts; split; constructor).
  destruct (eq_str role "assistant") eqn:Hrole.
  - destruct (filter (ClaudeToOpenAI.is_block "tool_use") items) as [|b bs] eqn:Hf.
    + cbn [andb] in H.
      destruct (filter (ClaudeToOpenAI.is_block "tool_result") items).
      * inversion H; subst ts. split; constructor.
      * apply tool_messages_no_calls in H. unfold call_turns_of.
        rewrite H. split; constructor.
    + cbn [andb] in H.
      destruct (mapM ClaudeToOpenAI.text_of
                  (filter (ClaudeToOpenAI.is_block "text") items)) as [texts|];
        [|discriminate].
      cbn [bind] in H. eapply tool_call_messages_turns; [|exact H].
      rewrite <- Hf. apply Forall_forall. intros x Hin.
      now apply filter_In in Hin.
  - rewrite andb_false_r in H.
    destruct (filter (ClaudeToOpenAI.is_block "tool_result") items).
    + inversion H; subst ts. split; constructor.
    + apply tool_messages_no_calls in H. unfold call_turns_of.
      rewrite H. split; constructor.
Qed.

End CallTurns.

Section RequestMessages.
Context {rt : PyRuntime}.

Lemma c2o_messages_call_turns (claude_messages out : list json) :
  ClaudeToOpenAI.convert_messages claude_messages = Some out ->
  call_turns_of (flat_map tool_use_blocks claude_messages) out.
Proof.
  intros H. unfold ClaudeToOpenAI.convert_messages in H.
  destruct (ClaudeToOpenAI.build_tool_use_map claude_messages) as [m|];
    [|discriminate].
  cbn [bind] in H.
  destruct (mapM (ClaudeToOpenAI.convert_message m) claude_messages)
    as [os|] eqn:Hos; [|discriminate].
  cbn [bind] in H. inversion H; subst out; clear H.
  revert os Hos. induction claude_messages as [|message rest IH];
    simpl; intros os Hos.
  - inversion Hos. split; constructor.
  - destruct (ClaudeToOpenAI.convert_message m message) as [ts|] eqn:Hts;
      [|discriminate].
    cbn [bind] in Hos.
    destruct (mapM (ClaudeToOpenAI.convert_message m) rest) as [os'|];
      [|discriminate].
    cbn [bind] in Hos. inversion Hos; subst os; clear Hos. simpl.
    apply call_turns_of_app; [|now apply IH].
    eapply c2o_message_call_turns; eauto.
Qed.

(** The repair pass of the Claude to OpenAI converter leaves [messages]
    as the conversion made it. *)
Lemma c2o_request_messages (claude_request out : json) :
  ClaudeToOpenAI.convert_request claude_request = Some out ->
  exists messages turns,
    (m <- py_get claude_request "messages" (JArr []) ;; py_iter m)
    = Some messages /\
    ClaudeToOpenAI.convert_messages messages = Some turns /\
    py_getitem out "messages" = Some (JArr turns).
Proof.
  unfold ClaudeToOpenAI.convert_request, ClaudeToOpenAI.assemble_request.
  intros H.
  destruct (py_get claude_request "messages" (JArr [])) as [ms|]; [|discriminate].
  cbn [bind] in *.
  destruct (py_get claude_request "tools" (JArr [])) as [tools|]; [|discriminate].
  cbn [bind] in *.
  destruct (py_iter ms) as [messages|]; [|discriminate]. cbn [bind] in *.
  destruct (ClaudeToOpenAI.convert_messages messages) as [turns|] eqn:Hturns;
    [|discriminate].
  cbn [bind] in *. exists messages, turns.
  split; [reflexivity|]. split; [exact Hturns|].
  match type of H with
  | bind (bind ?e _) _ = _ => destruct e as [kv|] eqn:Hkv; [|discriminate]
  end.
  cbn [bind] in H.
  assert (Hl : dict_lookup "messages" kv = Some (JArr turns)).
  { destruct (truthy tools); [|now inversion Hkv].
    destruct (ClaudeToOpenAI.convert_tools tools) as [[|t ts]|];
      cbn [bind] in Hkv; inversion Hkv; reflexivity. }
  clear Hkv.
  unfold ClaudeToOpenAI.fix_request_issues, GeminiRepair.on_list_field in H.
  cbn [py_in py_getitem bind] in H.
  destruct (dict_has "tools" kv); [|inversion H; subst out; exact Hl].
  destruct (dict_lookup "tools" kv) as [v|]; [|discriminate].
  cbn [bind] in H.
  destruct v as [| | | |ts|]; try (inversion H; subst out; exact Hl).
  destruct (mapM ClaudeToOpenAI.fix_tool ts) as [ts'|]; [|discriminate].
  cbn [bind py_setitem] in H. inversion H; subst out. now dict_run.
Qed.

End RequestMessages.

(** C7.  The tool-call turns of the OpenAI conversation correspond one
    to one, in order, to the [tool_use] blocks of the assistant turns of
    the Claude conversation: there are as many, and each is an assistant
    turn whose [tool_calls] holds the single entry of its block.  This
    holds of the messages [convert_messages] returns and of the
    [messages] of the request [convert_request] returns. *)
Theorem one_call_turn_per_tool_use {rt : PyRuntime} :
  (forall claude_messages out,
     ClaudeToOpenAI.convert_messages claude_messages = Some out ->
     List.length (filter has_tool_calls out)
     = List.length (flat_map tool_use_blocks claude_messages) /\
     call_turns_of (flat_map tool_use_blocks claude_messages) out) /\
  (forall claude_request out,
     ClaudeToOpenAI.convert_request claude_request = Some out ->
     exists claude_messages turns,
       (m <- py_get claude_request "messages" (JArr []) ;; py_iter m)
       = Some claude_messages /\
       py_getitem out "messages" = Some (JArr turns) /\
       List.length (filter has_tool_calls turns)
       = List.length (flat_map tool_use_blocks claude_messages) /\
       call_turns_of (flat_map tool_use_blocks claude_messages) turns).
Proof.
  assert (Hlen : forall blocks ts,
             call_turns_of blocks ts ->
             List.length (filter has_tool_calls ts) = List.length blocks).
  { intros blocks ts [Hmap _].
    apply (f_equal (@List.length _)) in Hmap. now rewrite !length_map in Hmap. }
  split.
  - intros claude_messages out H.
    pose proof (c2o_messages_call_turns _ _ H) as Hturns. auto.
  - intros claude_request out H.
    destruct (c2o_request_messages _ _ H) as (messages & turns & Hm & Hc & Hout).
    exists messages, turns.
    pose proof (c2o_messages_call_turns _ _ Hc) as Hturns. auto.
Qed.

(** Three [tool_use] blocks over two assistant turns give three
    tool-call turns. *)
Lemma one_call_turn_per_tool_use_sample :
  let use (id name : string) :=
    JObj [("type", JStr "tool_use"); ("id", JStr id); ("name", JStr name);
          ("input", JObj [])] in
  let conversation :=
    [JObj [("role", JStr "user"); ("content", JStr "go")];
     JObj [("role", JStr "assistant");
           ("content",
            JArr [JObj [("type", JStr "text"); ("text", JStr "on it")];
                  use "c1" "lookup"; use "c2" "fetch"])];
     JObj [("role", JStr "assistant"); ("content", JArr [use "c3" "store"])]] in
  (exists out,
     ClaudeToOpenAI.convert_messages (rt := sample_runtime) conversation
     = Some out /\
     List.length (filter has_tool_calls out) = 3%nat /\
     List.length (filter has_tool_calls out)
     = List.length (flat_map tool_use_blocks conversation) /\
     call_turns_of (rt := sample_runtime)
       (flat_map tool_use_blocks conversation) out) /\
  (exists out claude_messages turns,
     ClaudeToOpenAI.convert_request (rt := sample_runtime)
       (JObj [("messages", JArr conversation)]) = Some out /\
     (m <- py_get (JObj [("messages", JArr conversation)]) "messages" (JArr []) ;;
      py_iter m) = Some claude_messages /\
     py_getitem out "messages" = Some (JArr turns) /\
     List.length (filter has_tool_calls turns)
     = List.length (flat_map tool_use_blocks claude_messages) /\
     call_turns_of (rt := sample_runtime)
       (flat_map tool_use_blocks claude_messages) turns).
Proof.
  intros use conversation.
  pose proof (one_call_turn_per_tool_use (rt := sample_runtime)) as [Hm Hr].
  split.
  - destruct (ClaudeToOpenAI.convert_messages (rt := sample_runtime) conversation)
      as [out|] eqn:H; [|discriminate H].
    exists out. split; [reflexivity|]. split.
    + vm_compute in H. inversion H. reflexivity.
    + exact (Hm conversation out H).
  - destruct (ClaudeToOpenAI.convert_request (rt := sample_runtime)
                (JObj [("messages", JArr conversation)]))
      as [out|] eqn:H; [|discriminate H].
    destruct (Hr _ out H) as (claude_messages & turns & H1 & H2 & H3 & H4).
    exists out, claude_messages, turns. auto.
Defined.

(* ================================================================== *)
(** * Tool declarations and their parameter schema *)
(* ================================================================== *)

Lemma dict_lookup_map (f : json -> json) (k : string) (kv : list (string * json)) :
  dict_lookup k (map (fun '(key, val) => (key, f val)) kv)
  = option_map f (dict_lookup k kv).
Proof.
  induction kv as [|[k0 v0] t IH]; simpl; [reflexivity|].
  now destruct (String.eqb k0 k).
Qed.

(** A schema whose [enum] lists, as far as [convert_enum_values]
    reaches them, hold strings only. *)
Inductive string_enums : json -> Prop :=
| string_enums_leaf (v : json) :
    is_dict v = false -> string_enums v
| string_enums_dict (kv : list (string * json)) :
    (forall vals v,
       dict_lookup "enum" kv = Some (JArr vals) -> In v vals ->
       is_str v = true) ->
    (forall props key val,
       dict_lookup "properties" kv = Some (JObj props) -> In (key, val) props ->
       string_enums val) ->
    (forall items,
       dict_lookup "items" kv = Some items -> string_enums items) ->
    (forall extra,
       dict_lookup "additionalProperties" kv = Some (JObj extra) ->
       string_enums (JObj extra)) ->
    string_enums (JObj kv).

Section EnumValues.
Context {rt : PyRuntime}.

(** [convert_enum_values] is the function the source defines: it
    satisfies the source's recursive equation. *)
Lemma convert_enum_values_eq (schema : json) :
  OpenAIToGemini.convert_enum_values schema
  = OpenAIToGemini.convert_enum_values_body
      OpenAIToGemini.convert_enum_values schema.
Proof.
  destruct schema as [| | | | |kv]; try reflexivity.
  cbn [OpenAIToGemini.convert_enum_values].
  fold OpenAIToGemini.convert_enum_values.
  rewrite !(dict_lookup_map OpenAIToGemini.convert_enum_values).
  match goal with
  | |- context [dict_lookup "properties" (map ?g kv)] =>
      assert (Hprops : dict_lookup "properties" (map g kv)
                       = option_map
                           (fun val =>
                              match val with
                              | JObj props =>
                                  JObj (map (fun '(k, v) =>
                                    (k, OpenAIToGemini.convert_enum_values v))
                                    props)
                              | _ => val
                              end) (dict_lookup "properties" kv))
  end.
  { clear. induction kv as [|[k0 v0] t IH]; simpl; [reflexivity|].
    now destruct (String.eqb k0 "properties"). }
  rewrite Hprops. clear Hprops.
  unfold OpenAIToGemini.convert_enum_values_body. cbn zeta.
  set (s1 := match dict_lookup "enum" kv with
             | Some (JArr vals) =>
                 dict_set "enum" (JArr (map (fun val => JStr (py_str val)) vals)) kv
             | _ => kv
             end).
  assert (L1 : forall k, "enum" <> k -> dict_lookup k s1 = dict_lookup k kv).
  { intros k Hk. unfold s1.
    destruct (dict_lookup "enum" kv) as [[| | | |vals|]|]; try reflexivity.
    now apply dict_lookup_set_other. }
  rewrite (L1 "properties") by discriminate.
  set (s2 := match dict_lookup "properties" kv with
             | Some (JObj props) =>
                 dict_set "properties"
                   (JObj (map (fun '(key, val) =>
                             (key, OpenAIToGemini.convert_enum_values val)) props))
                   s1
             | _ => s1
             end).
  assert (R2 : match dict_lookup "properties" kv with
               | Some (JObj _) =>
                   match option_map
                           (fun val =>
                              match val with
                              | JObj props =>
                                  JObj (map (fun '(k, v) =>
                                    (k, OpenAIToGemini.convert_enum_values v))
                                    props)
                              | _ => val
                              end) (dict_lookup "properties" kv) with
                   | Some props => dict_set "properties" props s1
                   | None => s1
                   end
               | _ => s1
               end = s2).
  { unfold s2. now destruct (dict_lookup "properties" kv) as [[| | | | |props]|]. }
  rewrite R2. clear R2.
  assert (L2 : forall k, "enum" <> k -> "properties" <> k ->
                         dict_lookup k s2 = dict_lookup k kv).
  { intros k Hk1 Hk2. unfold s2.
    destruct (dict_lookup "properties" kv) as [[| | | | |props]|];
      try (now apply L1).
    rewrite dict_lookup_set_other by exact Hk2. now apply L1. }
  rewrite (L2 "items") by discriminate.
  set (s3 := match dict_lookup "items" kv with
             | Some items =>
                 dict_set "items" (OpenAIToGemini.convert_enum_values items) s2
             | None => s2
             end).
  assert (R3 : match dict_lookup "items" kv with
               | Some _ =>
                   match option_map OpenAIToGemini.convert_enum_values
                           (dict_lookup "items" kv) with
                   | Some items => dict_set "items" items s2
                   | None => s2
                   end
               | None => s2
               end = s3).
  { unfold s3. now destruct (dict_lookup "items" kv). }
  rewrite R3. clear R3.
  assert (L3 : dict_lookup "additionalProperties" s3
               = dict_lookup "additionalProperties" kv).
  { unfold s3. destruct (dict_lookup "items" kv).
    - rewrite dict_lookup_set_other by discriminate. now apply L2.
    - now apply L2. }
  rewrite L3.
  now destruct (dict_lookup "additionalProperties" kv) as [[| | | | |extra]|].
Qed.

Lemma convert_enum_values_string_enums (schema : json) :
  string_enums schema -> OpenAIToGemini.convert_enum_values schema = schema.
Proof.
  induction 1 as [v Hv | kv Henum _ IHprops _ IHitems _ IHextra].
  - now destruct v.
  - rewrite convert_enum_values_eq.
    unfold OpenAIToGemini.convert_enum_values_body. cbn zeta.
    assert (E1 : match dict_lookup "enum" kv with
                 | Some (JArr vals) =>
                     dict_set "enum"
                       (JArr (map (fun val => JStr (py_str val)) vals)) kv
                 | _ => kv
                 end = kv).
    { destruct (dict_lookup "enum" kv) as [[| | | |vals|]|] eqn:E; try reflexivity.
      assert (Hs : forall v, In v vals -> is_str v = true) by eauto.
      assert (Hmap : map (fun val => JStr (py_str val)) vals = vals).
      { clear - Hs. induction vals as [|v t IH]; [reflexivity|]. simpl.
        rewrite IH by (intros; apply Hs; now right).
        specialize (Hs v (or_introl eq_refl)). now destruct v. }
      rewrite Hmap. now apply dict_set_lookup_id. }
    rewrite E1.
    assert (E2 : match dict_lookup "properties" kv with
                 | Some (JObj props) =>
                     dict_set "properties"
                       (JObj (map (fun '(key, val) =>
                                (key, OpenAIToGemini.convert_enum_values val))
                                props)) kv
                 | _ => kv
                 end = kv).
    { destruct (dict_lookup "properties" kv) as [[| | | | |props]|] eqn:E;
        try reflexivity.
      assert (Hp : forall key val, In (key, val) props ->
                     OpenAIToGemini.convert_enum_values val = val) by eauto.
      assert (Hmap : map (fun '(key, val) =>
                            (key, OpenAIToGemini.convert_enum_values val)) props
                     = props).
      { clear - Hp. induction props as [|[key val] t IH]; [reflexivity|]. simpl.
        rewrite IH by (intros; eapply Hp; right; eauto).
        now rewrite (Hp key val (or_introl eq_refl)). }
      rewrite Hmap. now apply dict_set_lookup_id. }
    rewrite E2.
    assert (E3 : match dict_lookup "items" kv with
                 | Some items =>
                     dict_set "items"
                       (OpenAIToGemini.convert_enum_values items) kv
                 | None => kv
                 end = kv).
    { destruct (dict_lookup "items" kv) as [items|] eqn:E; [|reflexivity].
      rewrite (IHitems _ eq_refl). now apply dict_set_lookup_id. }
    rewrite E3.
    destruct (dict_lookup "additionalProperties" kv) as [[| | | | |extra]|] eqn:E;
      try reflexivity.
    rewrite (IHextra _ eq_refl). f_equal. now apply dict_set_lookup_id.
Qed.

End EnumValues.

Lemma mapM_map (A B C : Type) (f : A -> py B) (g : B -> C) (h : A -> C)
    (l : list A) (out : list B) :
  (forall a b, f a = Some b -> g b = h a) ->
  mapM f l = Some out -> map g out = map h l.
Proof.
  intros Hf H. apply mapM_Forall2 in H.
  induction H as [|a b t t' Hab _ IH]; simpl; [reflexivity|].
  now rewrite (Hf _ _ Hab), IH.
Qed.

Lemma py_iter_falsy (c : json) (l : list json) :
  truthy c = false -> py_iter c = Some l -> l = [].
Proof.
  destruct c as [| | |s|l0|kv]; try discriminate; simpl.
  - destruct s; [|discriminate]. now inversion 2.
  - destruct l0; [|discriminate]. now inversion 2.
  - destruct kv; [|discriminate]. now inversion 2.
Qed.

(** [tool.get("type") == "function"] *)
Definition is_function_tool (tool : json) : bool :=
  eq_str (get_or tool "type" JNull) "function".

(** The declarations inside the single wrapper the OpenAI to Gemini
    converter returns (none when it returns the empty list). *)
Definition declarations_of (gemini_tools : list json) : list json :=
  match gemini_tools with
  | [JObj [("functionDeclarations", JArr decls)]] => decls
  | _ => []
  end.


Section ToolSchemas.
Context {rt : PyRuntime}.






End ToolSchemas.






(* ================================================================== *)
(** * Where the converters part from the design document *)
(* ================================================================== *)

(** C1.  A tool result whose identifier matches no call: the OpenAI to
    Gemini converter emits the empty string as the response's name,
    where the Claude to OpenAI converter emits ["unknown"]. *)
Theorem unresolved_result_name {rt : PyRuntime} (content : string) :
  OpenAIToGemini.convert_messages
    [JObj [("role", JStr "tool"); ("tool_call_id", JStr "c9");
           ("content", JStr content)]]
  = Some ([OpenAIToGemini.turn "user"
             [JObj [("functionResponse",
                     JObj [("name", JStr "");
                           ("response",
                            JObj [("result", JStr content)])])]]],
          None)
  /\
  ClaudeToOpenAI.convert_messages
    [JObj [("role", JStr "user");
           ("content",
            JArr [JObj [("type", JStr "tool_result");
                        ("tool_use_id", JStr "c9");
                        ("content", JStr content)]])]]
  = Some [JObj [("role", JStr "tool"); ("tool_call_id", JStr "c9");
                ("name", JStr "unknown"); ("content", JStr content)]].
Proof. split; reflexivity. Qed.

(** C2.  Two system turns with texts [a] and [b]: the OpenAI to Gemini
    converter keeps the text of the last one only, where the Claude to
    Gemini converter joins the two with a newline. *)
Theorem system_turns_last_wins {rt : PyRuntime} (a b : string) :
  let conversation :=
    [JObj [("role", JStr "system"); ("content", JStr a)];
     JObj [("role", JStr "system"); ("content", JStr b)]] in
  OpenAIToGemini.convert_request (JObj [("messages", JArr conversation)])
  = Some (JObj [("contents", JArr []);
                ("systemInstruction",
                 JObj [("parts", JArr [JObj [("text", JStr b)]])])])
  /\
  ClaudeToGemini.convert_request (JObj [("messages", JArr conversation)])
  = Some (JObj [("contents", JArr []);
                ("systemInstruction",
                 JObj [("parts",
                        JArr [JObj [("text", JStr (a ++ nl ++ b))]])])]).
Proof. split; reflexivity. Qed.

(** C4.  An image block in an assistant turn that also holds a
    [tool_use] block is absent from the OpenAI conversation: the turn
    becomes the tool-call message alone.  An image block given by URL
    becomes, in the Gemini request, inline data with the default mime
    type and no data: the URL is absent. *)
Theorem image_blocks_lost {rt : PyRuntime} :
  ClaudeToOpenAI.convert_messages
    [JObj [("role", JStr "assistant");
           ("content",
            JArr [JObj [("type", JStr "image");
                        ("source",
                         JObj [("type", JStr "base64");
                               ("media_type", JStr "image/png");
                               ("data", JStr "AAAA")])];
                  JObj [("type", JStr "tool_use"); ("id", JStr "c1");
                        ("name", JStr "lookup"); ("input", JObj [])]])]]
  = Some [JObj [("role", JStr "assistant"); ("content", JNull);
                ("tool_calls",
                 JArr [JObj [("id", JStr "c1"); ("type", JStr "function");
                             ("function",
                              JObj [("name", JStr "lookup");
                                    ("arguments",
                                     JStr (json_dumps (JObj [])))])]])]]
  /\
  ClaudeToGemini.convert_messages
    [JObj [("role", JStr "user");
           ("content",
            JArr [JObj [("type", JStr "image");
                        ("source",
                         JObj [("type", JStr "url");
                               ("url", JStr "https://example.com/cat.png")])]])]]
  = Some [ClaudeToGemini.turn "user"
            [JObj [("inline_data",
                    JObj [("mime_type", JStr "image/jpeg");
                          ("data", JStr "")])]]].
Proof. split; reflexivity. Qed.

(* ================================================================== *)
(** * Tool declarations: names, descriptions and the [tools] field *)
(* ================================================================== *)

(** The declaration made from an OpenAI tool reads its name and its
    description under [function]. *)
Definition openai_function (tool : json) : json :=
  get_or tool "function" (JObj []).

Section ToolNames.
Context {rt : PyRuntime}.

Lemma c2g_tools_names (claude_tools : json) (tools out : list json) :
  py_iter claude_tools = Some tools ->
  ClaudeToGemini.convert_tools claude_tools = Some out ->
  map (fun d => (py_getitem d "name", py_getitem d "description")) out
  = map (fun tool => (Some (get_or tool "name" (JStr "")),
                      Some (get_or tool "description" (JStr "")))) tools.
Proof.
  intros Hiter H. unfold ClaudeToGemini.convert_tools in H.
  destruct (truthy claude_tools) eqn:Ht; cbn [negb] in H.
  - rewrite Hiter in H. cbn [bind] in H.
    eapply mapM_map; [|exact H].
    intros tool d Hd. unfold ClaudeToGemini.convert_tool in Hd.
    destruct tool as [| | | | |kv]; try discriminate.
    cbn [py_get bind] in Hd. inversion Hd; subst d. reflexivity.
  - inversion H; subst out. now rewrite (py_iter_falsy _ _ Ht Hiter).
Qed.

Lemma c2o_tools_names (claude_tools : json) (tools out : list json) :
  py_iter claude_tools = Some tools ->
  ClaudeToOpenAI.convert_tools claude_tools = Some out ->
  map (fun d => (py_getitem d "type",
                 f <- py_getitem d "function" ;; py_getitem f "name",
                 f <- py_getitem d "function" ;; py_getitem f "description")) out
  = map (fun tool => (Some (JStr "function"),
                      Some (get_or tool "name" (JStr "")),
                      Some (get_or tool "description" (JStr "")))) tools.
Proof.
  intros Hiter H. unfold ClaudeToOpenAI.convert_tools in H.
  destruct (truthy claude_tools) eqn:Ht; cbn [negb] in H.
  - rewrite Hiter in H. cbn [bind] in H.
    eapply mapM_map; [|exact H].
    intros tool d Hd. unfold ClaudeToOpenAI.convert_tool in Hd.
    destruct tool as [| | | | |kv]; try discriminate.
    cbn [py_get bind] in Hd. inversion Hd; subst d. reflexivity.
  - inversion H; subst out. now rewrite (py_iter_falsy _ _ Ht Hiter).
Qed.

Lemma o2g_tool_name (tool : json) (ds : list json) :
  OpenAIToGemini.convert_tool tool = Some ds ->
  map (fun d => (py_getitem d "name", py_getitem d "description")) ds
  = if is_function_tool tool
    then [(Some (get_or (openai_function tool) "name" (JStr "")),
           Some (get_or (openai_function tool) "description" (JStr "")))]
    else [].
Proof.
  intros Hd. unfold OpenAIToGemini.convert_tool in Hd.
  destruct tool as [| | | | |kv]; try discriminate.
  unfold is_function_tool, openai_function, get_or.
  cbn [py_get bind] in *.
  destruct (eq_str _ "function"); [|now inversion Hd].
  destruct (match dict_lookup "function" kv with
            | Some v => v
            | None => JObj []
            end) as [| | | | |fkv]; try discriminate.
  cbn [py_get bind] in *. now inversion Hd.
Qed.

Lemma o2g_tools_names (openai_tools : json) (tools out : list json) :
  py_iter openai_tools = Some tools ->
  OpenAIToGemini.convert_tools openai_tools = Some out ->
  map (fun d => (py_getitem d "name", py_getitem d "description"))
    (declarations_of out)
  = map (fun tool =>
           (Some (get_or (openai_function tool) "name" (JStr "")),
            Some (get_or (openai_function tool) "description" (JStr ""))))
      (filter is_function_tool tools).
Proof.
  intros Hiter H. unfold OpenAIToGemini.convert_tools in H.
  destruct (truthy openai_tools) eqn:Ht; cbn [negb] in H.
  - rewrite Hiter in H. cbn [bind] in H.
    destruct (mapM OpenAIToGemini.convert_tool tools) as [ds|] eqn:Hds;
      [|discriminate].
    cbn [bind] in H.
    assert (Hall : map (fun d => (py_getitem d "name", py_getitem d "description"))
                     (List.concat ds)
                   = map (fun tool =>
                            (Some (get_or (openai_function tool) "name" (JStr "")),
                             Some (get_or (openai_function tool) "description"
                                     (JStr ""))))
                       (filter is_function_tool tools)).
    { clear H Hiter Ht. revert ds Hds.
      induction tools as [|tool rest IH]; simpl; intros ds H.
      - now inversion H.
      - destruct (OpenAIToGemini.convert_tool tool) as [d|] eqn:Hd; [|discriminate].
        cbn [bind] in H.
        destruct (mapM OpenAIToGemini.convert_tool rest) as [ds'|]; [|discriminate].
        cbn [bind] in H. inversion H; subst ds; clear H. simpl.
        rewrite map_app, (IH _ eq_refl), (o2g_tool_name _ _ Hd).
        now destruct (is_function_tool tool). }
    rewrite <- Hall.
    destruct (List.concat ds); inversion H; reflexivity.
  - inversion H; subst out. now rewrite (py_iter_falsy _ _ Ht Hiter).
Qed.

End ToolNames.

(** X1.  Every tool declaration keeps its name and its description.  The
    two Claude-source translators make one declaration per tool, in
    order, with the tool's [name] and [description] (the empty string
    for a missing one); the Claude to OpenAI translator tags each with
    type ["function"].  The OpenAI to Gemini translator makes one
    declaration per tool of type ["function"], in order, with the name
    and description found under [function]. *)
Theorem tool_names_kept {rt : PyRuntime} :
  (forall claude_tools tools out,
     py_iter claude_tools = Some tools ->
     ClaudeToGemini.convert_tools claude_tools = Some out ->
     map (fun d => (py_getitem d "name", py_getitem d "description")) out
     = map (fun tool => (Some (get_or tool "name" (JStr "")),
                         Some (get_or tool "description" (JStr "")))) tools) /\
  (forall claude_tools tools out,
     py_iter claude_tools = Some tools ->
     ClaudeToOpenAI.convert_tools claude_tools = Some out ->
     map (fun d => (py_getitem d "type",
                    f <- py_getitem d "function" ;; py_getitem f "name",
                    f <- py_getitem d "function" ;; py_getitem f "description"))
       out
     = map (fun tool => (Some (JStr "function"),
                         Some (get_or tool "name" (JStr "")),
                         Some (get_or tool "description" (JStr "")))) tools) /\
  (forall openai_tools tools out,
     py_iter openai_tools = Some tools ->
     OpenAIToGemini.convert_tools openai_tools = Some out ->
     map (fun d => (py_getitem d "name", py_getitem d "description"))
       (declarations_of out)
     = map (fun tool =>
              (Some (get_or (openai_function tool) "name" (JStr "")),
               Some (get_or (openai_function tool) "description" (JStr ""))))
         (filter is_function_tool tools)).
Proof.
  split; [|split].
  - apply c2g_tools_names.
  - apply c2o_tools_names.
  - apply o2g_tools_names.
Qed.

Lemma tool_names_kept_sample :
  let weather :=
    JObj [("name", JStr "weather"); ("description", JStr "Weather report");
          ("input_schema", JObj [("type", JStr "object")])] in
  let nameless := JObj [("input_schema", JObj [])] in
  let openai_tool :=
    JObj [("type", JStr "function");
          ("function",
           JObj [("name", JStr "weather");
                 ("description", JStr "Weather report")])] in
  (exists out,
     ClaudeToGemini.convert_tools (JArr [weather; nameless]) = Some out /\
     map (fun d => (py_getitem d "name", py_getitem d "description")) out
     = [(Some (JStr "weather"), Some (JStr "Weather report"));
        (Some (JStr ""), Some (JStr ""))]) /\
  (exists out,
     ClaudeToOpenAI.convert_tools (JArr [weather; nameless]) = Some out /\
     map (fun d => (py_getitem d "type",
                    f <- py_getitem d "function" ;; py_getitem f "name",
                    f <- py_getitem d "function" ;; py_getitem f "description"))
       out
     = [(Some (JStr "function"), Some (JStr "weather"),
         Some (JStr "Weather report"));
        (Some (JStr "function"), Some (JStr ""), Some (JStr ""))]) /\
  (exists out,
     OpenAIToGemini.convert_tools (rt := sample_runtime)
       (JArr [JObj [("type", JStr "retrieval")]; openai_tool]) = Some out /\
     map (fun d => (py_getitem d "name", py_getitem d "description"))
       (declarations_of out)
     = [(Some (JStr "weather"), Some (JStr "Weather report"))]).
Proof.
  intros weather nameless openai_tool.
  pose proof (tool_names_kept (rt := sample_runtime)) as (Hc2g & Hc2o & Ho2g).
  split; [|split].
  - eexists. split; [reflexivity|].
    exact (Hc2g (JArr [weather; nameless]) _ _ eq_refl eq_refl).
  - eexists. split; [reflexivity|].
    exact (Hc2o (JArr [weather; nameless]) _ _ eq_refl eq_refl).
  - eexists. split; [reflexivity|].
    exact (Ho2g (JArr [JObj [("type", JStr "retrieval")]; openai_tool]) _ _
             eq_refl eq_refl).
Defined.

(* ================================================================== *)
(** * The fields of a converted request *)
(* ================================================================== *)

(** Opens the first bind of a hypothesis [x <- m ;; k = Some _]: names
    the value of [m] and the equation that gives it. *)
Tactic Notation "py_bind" hyp(H) "as" ident(x) ident(E) :=
  match type of H with
  | bind ?m _ = Some _ =>
      destruct m as [x|] eqn:E; [cbn [bind] in H | discriminate H]
  end.

Definition keys_of (v : json) : list string :=
  match v with
  | JObj kv => map fst kv
  | _ => []
  end.

(** The messages of a request, as [convert_request] iterates them. *)
Definition request_messages (request : json) : list json :=
  match py_iter (get_or request "messages" (JArr [])) with
  | Some messages => messages
  | None => []
  end.

Definition request_tools (request : json) : json :=
  get_or request "tools" (JArr []).

(** [msg.get("role") == "system"] *)
Definition system_role (msg : json) : bool :=
  eq_str (get_or msg "role" JNull) "system".

(** A system message whose content is a string: the ones the OpenAI to
    Gemini converter takes its system instruction from. *)
Definition system_string (msg : json) : bool :=
  system_role msg && is_str (get_or msg "content" (JStr "")).

Definition function_tools_of (tools : json) : list json :=
  match py_iter tools with
  | Some l => filter is_function_tool l
  | None => []
  end.

Definition nonempty {A : Type} (l : list A) : bool :=
  match l with
  | [] => false
  | _ => true
  end.

Lemma dict_set_keys (k : string) (v : json) (kv : list (string * json)) :
  dict_has k kv = true -> map fst (dict_set k v kv) = map fst kv.
Proof.
  unfold dict_has. induction kv as [|[k0 v0] t IH]; simpl; [discriminate|].
  destruct (String.eqb_spec k0 k) as [->|Hne]; simpl; [reflexivity|].
  intros H. now rewrite IH.
Qed.

Lemma on_list_field_keys (k : string) (f : list json -> py (list json))
    (d d' : json) :
  GeminiRepair.on_list_field k f d = Some d' ->
  keys_of d' = keys_of d /\ is_dict d' = is_dict d.
Proof.
  unfold GeminiRepair.on_list_field. intros H.
  destruct d as [| | |s|l|kv]; try discriminate H; cbn [py_in bind] in H.
  - destruct (str_contains k s); [discriminate H | now inversion H].
  - destruct (existsb _ l); [discriminate H | now inversion H].
  - destruct (dict_has k kv) eqn:Hk; [|now inversion H].
    cbn [py_getitem bind] in H.
    destruct (dict_lookup k kv) as [v|]; [|discriminate H].
    cbn [bind] in H.
    destruct v as [| | | |l|]; try (now inversion H).
    destruct (f l) as [l'|]; [|discriminate H].
    cbn [bind py_setitem] in H. inversion H; subst d'.
    split; [|reflexivity]. now apply dict_set_keys.
Qed.

Lemma fix_request_issues_keys (r out : json) :
  GeminiRepair.fix_request_issues r = Some out -> keys_of out = keys_of r.
Proof.
  unfold GeminiRepair.fix_request_issues. intros H.
  destruct (GeminiRepair.on_list_field "contents" _ r) as [r1|] eqn:H1;
    [|discriminate H].
  cbn [bind] in H.
  destruct (on_list_field_keys _ _ _ _ H1) as [K1 _].
  destruct (on_list_field_keys _ _ _ _ H) as [K2 _]. congruence.
Qed.

Lemma filterM_total (A : Type) (keep : A -> py bool) (l l' : list A) :
  filterM keep l = Some l' -> Forall (fun a => exists b, keep a = Some b) l.
Proof.
  revert l'. induction l as [|a t IH]; simpl; intros l' H; [constructor|].
  destruct (keep a) as [b|] eqn:Ha; [|discriminate H]. cbn [bind] in H.
  destruct (filterM keep t) as [r|]; [|discriminate H].
  constructor; eauto.
Qed.

Lemma filterM_as_filter (A : Type) (keep : A -> py bool) (test : A -> bool)
    (l l' : list A) :
  (forall a b, keep a = Some b -> b = test a) ->
  filterM keep l = Some l' -> l' = filter test l.
Proof.
  intros Hk H. pose proof (filterM_total _ _ _ _ H) as Ht.
  assert (Hf : filterM keep l = Some (filter test l)).
  { apply filterM_filter. eapply Forall_impl; [|exact Ht].
    intros a [b Hb]. now rewrite (Hk _ _ Hb) in Hb. }
  congruence.
Qed.

Lemma mapM_length (A B : Type) (f : A -> py B) (l : list A) (l' : list B) :
  mapM f l = Some l' -> List.length l' = List.length l.
Proof.
  intros H. apply mapM_Forall2 in H.
  induction H; simpl; congruence.
Qed.

Lemma str_chars_nonempty (a : ascii) (t : string) :
  str_chars (String a t) <> [].
Proof.
  destruct t as [|b t']; [discriminate|].
  change (str_chars (String a (String b t')))
    with (if continuation b
          then match str_chars (String b t') with
               | c :: rest => String a c :: rest
               | [] => [String a EmptyString]
               end
          else String a EmptyString :: str_chars (String b t')).
  destruct (continuation b); [destruct (str_chars (String b t'))|];
    discriminate.
Qed.

Lemma py_iter_truthy (c : json) (l : list json) :
  truthy c = true -> py_iter c = Some l -> l <> [].
Proof.
  destruct c as [| | |s|l0|kv]; try discriminate;
    cbn [truthy py_iter].
  - destruct s as [|a t]; [discriminate|]. intros _ H. injection H as <-.
    intros E. apply map_eq_nil in E. exact (str_chars_nonempty _ _ E).
  - destruct l0; [discriminate|]. intros _ H. inversion H. discriminate.
  - destruct kv; [discriminate|]. intros _ H. inversion H. discriminate.
Qed.

Lemma is_system_role (msg : json) (b : bool) :
  ClaudeToGemini.is_system msg = Some b -> b = system_role msg.
Proof.
  unfold ClaudeToGemini.is_system, system_role, get_or.
  destruct (py_get msg "role" JNull); [|discriminate].
  cbn [bind]. now inversion 1.
Qed.

Lemma filter_nonempty_existsb (A : Type) (test : A -> bool) (l : list A) :
  nonempty (filter test l) = existsb test l.
Proof.
  induction l as [|a t IH]; simpl; [reflexivity|].
  destruct (test a); simpl; [reflexivity | exact IH].
Qed.

Section RequestFields.
Context {rt : PyRuntime}.

Lemma c2g_tools_nonempty (tools : json) (out : list json) :
  truthy tools = true ->
  ClaudeToGemini.convert_tools tools = Some out -> out <> [].
Proof.
  intros Ht H. unfold ClaudeToGemini.convert_tools in H.
  rewrite Ht in H. cbn [negb] in H.
  destruct (py_iter tools) as [l|] eqn:Hl; [|discriminate H].
  cbn [bind] in H. pose proof (py_iter_truthy _ _ Ht Hl) as Hne.
  apply mapM_length in H. destruct out; [|discriminate].
  destruct l; [contradiction | discriminate].
Qed.

Lemma c2o_tools_nonempty (tools : json) (out : list json) :
  truthy tools = true ->
  ClaudeToOpenAI.convert_tools tools = Some out -> out <> [].
Proof.
  intros Ht H. unfold ClaudeToOpenAI.convert_tools in H.
  rewrite Ht in H. cbn [negb] in H.
  destruct (py_iter tools) as [l|] eqn:Hl; [|discriminate H].
  cbn [bind] in H. pose proof (py_iter_truthy _ _ Ht Hl) as Hne.
  apply mapM_length in H. destruct out; [|discriminate].
  destruct l; [contradiction | discriminate].
Qed.

Lemma o2g_tools_wrapper (tools : json) (out : list json) :
  OpenAIToGemini.convert_tools tools = Some out ->
  nonempty out = nonempty (function_tools_of tools).
Proof.
  intros H. unfold function_tools_of.
  destruct (py_iter tools) as [l|] eqn:Hl.
  - pose proof (o2g_tools_names _ _ _ Hl H) as Hn.
    apply (f_equal (@List.length _)) in Hn. rewrite !length_map in Hn.
    unfold OpenAIToGemini.convert_tools in H.
    destruct (truthy tools); cbn [negb] in H.
    + rewrite Hl in H. cbn [bind] in H.
      destruct (mapM OpenAIToGemini.convert_tool l) as [ds|]; [|discriminate H].
      cbn [bind] in H.
      destruct (List.concat ds) eqn:Hc; inversion H; subst out;
        simpl in Hn; destruct (filter is_function_tool l);
        try reflexivity; discriminate Hn.
    + inversion H; subst out. simpl in Hn.
      destruct (filter is_function_tool l); [reflexivity | discriminate Hn].
  - unfold OpenAIToGemini.convert_tools in H.
    destruct (truthy tools); cbn [negb] in H.
    + rewrite Hl in H. discriminate H.
    + now inversion H.
Qed.

End RequestFields.

Section AssembledFields.
Context {rt : PyRuntime}.

Lemma c2g_assembled_keys (request g : json) :
  ClaudeToGemini.assemble_request request = Some g ->
  is_dict g = true /\
  keys_of g
  = ("contents"
     :: (if existsb system_role (request_messages request)
         then ["systemInstruction"] else [])
     ++ (if truthy (request_tools request) then ["tools"] else []))%list.
Proof.
  intros H. unfold ClaudeToGemini.assemble_request in H.
  destruct request as [| | | | |kv]; try discriminate H.
  unfold request_messages, request_tools, get_or.
  cbn [py_get bind] in H |- *.
  set (messages0 := match dict_lookup "messages" kv with
                    | Some v => v
                    | None => JArr []
                    end) in *.
  set (tools := match dict_lookup "tools" kv with
                | Some v => v
                | None => JArr []
                end) in *.
  destruct (py_iter messages0) as [messages|]; [|discriminate H].
  cbn [bind] in H.
  destruct (filterM ClaudeToGemini.is_system messages) as [sm|] eqn:Hsm;
    [|discriminate H].
  cbn [bind] in H.
  pose proof (filterM_as_filter _ _ system_role _ _ is_system_role Hsm) as Esm.
  py_bind H as nsm Hnsm. py_bind H as contents Hc.
  rewrite <- filter_nonempty_existsb, <- Esm.
  destruct sm as [|s0 sm']; cbn [nonempty].
  - cbn [bind] in H.
    destruct (truthy tools) eqn:Ht.
    + destruct (ClaudeToGemini.convert_tools tools) as [fs|] eqn:Hfs;
        [|discriminate H].
      cbn [bind] in H. pose proof (c2g_tools_nonempty _ _ Ht Hfs) as Hne.
      destruct fs; [contradiction|]. cbn [bind] in H.
      inversion H; subst g. split; reflexivity.
    + cbn [bind] in H. inversion H; subst g. split; reflexivity.
  - destruct (mapM ClaudeToGemini.system_text (s0 :: sm')) as [texts|];
      [|discriminate H].
    cbn [bind] in H.
    destruct (truthy tools) eqn:Ht.
    + destruct (ClaudeToGemini.convert_tools tools) as [fs|] eqn:Hfs;
        [|discriminate H].
      cbn [bind] in H. pose proof (c2g_tools_nonempty _ _ Ht Hfs) as Hne.
      destruct fs; [contradiction|]. cbn [bind] in H.
      inversion H; subst g. split; reflexivity.
    + cbn [bind] in H. inversion H; subst g. split; reflexivity.
Qed.

Lemma c2o_assembled_keys (request g : json) :
  ClaudeToOpenAI.assemble_request request = Some g ->
  is_dict g = true /\
  keys_of g
  = ("messages"
     :: (if truthy (request_tools request) then ["tools"] else []))%list.
Proof.
  intros H. unfold ClaudeToOpenAI.assemble_request in H.
  destruct request as [| | | | |kv]; try discriminate H.
  unfold request_tools, get_or.
  cbn [py_get bind] in H |- *.
  set (messages0 := match dict_lookup "messages" kv with
                    | Some v => v
                    | None => JArr []
                    end) in *.
  set (tools := match dict_lookup "tools" kv with
                | Some v => v
                | None => JArr []
                end) in *.
  destruct (py_iter messages0) as [messages|]; [|discriminate H].
  cbn [bind] in H.
  destruct (ClaudeToOpenAI.convert_messages messages) as [out|];
    [|discriminate H].
  cbn [bind] in H.
  destruct (truthy tools) eqn:Ht.
  - destruct (ClaudeToOpenAI.convert_tools tools) as [fs|] eqn:Hfs;
      [|discriminate H].
    cbn [bind] in H. pose proof (c2o_tools_nonempty _ _ Ht Hfs) as Hne.
    destruct fs; [contradiction|]. cbn [bind] in H.
    inversion H; subst g. split; reflexivity.
  - cbn [bind] in H. inversion H; subst g. split; reflexivity.
Qed.

End AssembledFields.

(** The system instruction made from a system message. *)
Definition system_part (msg : json) : json :=
  JObj [("parts", JArr [JObj [("text", get_or msg "content" (JStr ""))]])].

(** [system_instruction] after the messages, from the value [init]. *)
Definition system_after (messages : list json) (init : option json)
  : option json :=
  fold_left
    (fun sys msg => if system_string msg then Some (system_part msg) else sys)
    messages init.

Lemma system_after_last (messages : list json) (init : option json) :
  system_after messages init
  = match find system_string (rev messages) with
    | Some msg => Some (system_part msg)
    | None => init
    end.
Proof.
  unfold system_after. revert init.
  induction messages as [|msg rest IH]; intros init; simpl; [reflexivity|].
  rewrite IH. clear IH.
  induction (rev rest) as [|x xs IHx]; simpl.
  - now destruct (system_string msg).
  - destruct (system_string x); [reflexivity | exact IHx].
Qed.

Lemma find_rev_existsb (A : Type) (test : A -> bool) (l : list A) :
  nonempty (filter test l)
  = match find test (rev l) with Some _ => true | None => false end.
Proof.
  rewrite filter_nonempty_existsb.
  assert (H : forall l', existsb test l'
                         = match find test l' with
                           | Some _ => true
                           | None => false
                           end).
  { intros l'. induction l' as [|a t IH]; simpl; [reflexivity|].
    now destruct (test a). }
  rewrite <- H. clear H.
  induction l as [|a t IH]; simpl; [reflexivity|].
  rewrite existsb_app. simpl. rewrite orb_false_r, orb_comm. now rewrite IH.
Qed.

Section SystemInstruction.
Context {rt : PyRuntime}.

Lemma o2g_message_system (m : idmap) (message : json) (sys : option json)
    (r : list json * option json) :
  OpenAIToGemini.convert_message m message sys = Some r ->
  snd r = if system_string message then Some (system_part message) else sys.
Proof.
  intros H. unfold OpenAIToGemini.convert_message in H.
  destruct message as [| | | | |kv]; try discriminate H.
  unfold system_string, system_role, system_part, get_or.
  cbn [py_get bind] in H |- *.
  destruct (dict_lookup "role" kv) as [role|] eqn:Hrole.
  - destruct (eq_str role "system") eqn:Hsys.
    + inversion H; subst r. cbn [snd andb].
      now destruct (is_str _).
    + cbn [andb].
      py_bind H as calls Hcalls.
      destruct (truthy calls).
      * py_bind H as l Hl. py_bind H as parts Hparts. now inversion H.
      * destruct (eq_str role "tool").
        -- py_bind H as name Hname. now inversion H.
        -- py_bind H as parts Hparts. now inversion H.
  - cbn [eq_str String.eqb] in H |- *. cbn [andb].
    py_bind H as calls Hcalls.
    destruct (truthy calls).
    + py_bind H as l Hl. py_bind H as parts Hparts. now inversion H.
    + cbn [eq_str String.eqb] in H.
      py_bind H as parts Hparts. now inversion H.
Qed.

Lemma o2g_loop_system (m : idmap) (messages acc : list json)
    (sys : option json) (r : list json * option json) :
  OpenAIToGemini.convert_loop m messages acc sys = Some r ->
  snd r = system_after messages sys.
Proof.
  revert acc sys. induction messages as [|message rest IH]; intros acc sys H.
  - simpl in H. now inversion H.
  - cbn [OpenAIToGemini.convert_loop] in H.
    py_bind H as r1 Hr1.
    rewrite (IH _ _ H), (o2g_message_system _ _ _ _ Hr1). reflexivity.
Qed.

Lemma o2g_messages_system (messages : list json) (r : list json * option json) :
  OpenAIToGemini.convert_messages messages = Some r ->
  snd r = option_map system_part (find system_string (rev messages)).
Proof.
  intros H. unfold OpenAIToGemini.convert_messages in H.
  py_bind H as m Hm.
  rewrite (o2g_loop_system _ _ _ _ _ H), system_after_last.
  now destruct (find system_string (rev messages)).
Qed.

Lemma o2g_assembled_keys (request g : json) :
  OpenAIToGemini.assemble_request request = Some g ->
  is_dict g = true /\
  keys_of g
  = ("contents"
     :: (if existsb system_string (request_messages request)
         then ["systemInstruction"] else [])
     ++ (if nonempty (function_tools_of (request_tools request))
         then ["tools"] else []))%list.
Proof.
  intros H. unfold OpenAIToGemini.assemble_request in H.
  destruct request as [| | | | |kv]; try discriminate H.
  unfold request_messages, request_tools, get_or.
  cbn [py_get bind] in H |- *.
  set (messages0 := match dict_lookup "messages" kv with
                    | Some v => v
                    | None => JArr []
                    end) in *.
  set (tools := match dict_lookup "tools" kv with
                | Some v => v
                | None => JArr []
                end) in *.
  destruct (py_iter messages0) as [messages|]; [|discriminate H].
  cbn [bind] in H.
  py_bind H as r Hr.
  pose proof (o2g_messages_system _ _ Hr) as Hsys.
  rewrite <- filter_nonempty_existsb, find_rev_existsb.
  assert (Htools : forall req,
             (if truthy tools
              then gemini_tools <- OpenAIToGemini.convert_tools tools ;;
                   match gemini_tools with
                   | [] => Some req
                   | _ => Some (dict_set "tools" (JArr gemini_tools) req)
                   end
              else Some req) = Some (match g with JObj kvg => kvg | _ => [] end) ->
             dict_has "tools" req = false ->
             map fst (match g with JObj kvg => kvg | _ => [] end)
             = (map fst req
                ++ (if nonempty (function_tools_of tools) then ["tools"] else []))%list).
  { intros req Hreq Hno.
    assert (Hset : forall v, map fst (dict_set "tools" v req)
                             = (map fst req ++ ["tools"])%list).
    { intros v. clear - Hno. unfold dict_has in Hno.
      induction req as [|[k0 v0] t IH]; simpl; [reflexivity|].
      simpl in Hno. destruct (String.eqb k0 "tools"); [discriminate Hno|].
      simpl. now rewrite IH. }
    destruct (truthy tools) eqn:Ht.
    - py_bind Hreq as gt Hgt.
      rewrite <- (o2g_tools_wrapper _ _ Hgt).
      destruct gt; inversion Hreq as [Hq]; cbn [nonempty].
      + now rewrite app_nil_r.
      + apply Hset.
    - inversion Hreq as [Hq].
      assert (Hf : function_tools_of tools = []).
      { unfold function_tools_of.
        destruct (py_iter tools) as [l|] eqn:Hl; [|reflexivity].
        now rewrite (py_iter_falsy _ _ Ht Hl). }
      rewrite Hf. cbn [nonempty]. now rewrite app_nil_r. }
  match type of H with
  | bind ?m _ = Some _ => destruct m as [req|] eqn:Hreq; [|discriminate H]
  end.
  cbn [bind] in H. inversion H; subst g. split; [reflexivity|].
  cbn [keys_of]. rewrite Hsys in Hreq.
  destruct (find system_string (rev messages)); cbn [option_map] in Hreq.
  - specialize (Htools _ Hreq eq_refl). exact Htools.
  - specialize (Htools _ Hreq eq_refl). exact Htools.
Qed.

End SystemInstruction.

Lemma fix_request_issues_dict (r out : json) :
  GeminiRepair.fix_request_issues r = Some out -> is_dict out = is_dict r.
Proof.
  unfold GeminiRepair.fix_request_issues. intros H.
  py_bind H as r1 H1.
  destruct (on_list_field_keys _ _ _ _ H1) as [_ K1].
  destruct (on_list_field_keys _ _ _ _ H) as [_ K2]. congruence.
Qed.

(** X2.  The fields of a converted request.  A Gemini request holds
    [contents], then [systemInstruction] when the conversation has a
    system message (for the OpenAI source: one whose content is a
    string), then [tools] when the source lists tools (for the OpenAI
    source: at least one of type ["function"]); an OpenAI request holds
    [messages], then [tools] when the source lists tools.  No other
    field of the source request ([model], [max_tokens], ...) is carried
    over, and an empty tool list gives no [tools] field. *)
Theorem request_fields {rt : PyRuntime} :
  (forall request out,
     ClaudeToGemini.convert_request request = Some out ->
     is_dict out = true /\
     keys_of out
     = ("contents"
        :: (if existsb system_role (request_messages request)
            then ["systemInstruction"] else [])
        ++ (if truthy (request_tools request) then ["tools"] else []))%list) /\
  (forall request out,
     OpenAIToGemini.convert_request request = Some out ->
     is_dict out = true /\
     keys_of out
     = ("contents"
        :: (if existsb system_string (request_messages request)
            then ["systemInstruction"] else [])
        ++ (if nonempty (function_tools_of (request_tools request))
            then ["tools"] else []))%list) /\
  (forall request out,
     ClaudeToOpenAI.convert_request request = Some out ->
     is_dict out = true /\
     keys_of out
     = ("messages"
        :: (if truthy (request_tools request) then ["tools"] else []))%list).
Proof.
  split; [|split]; intros request out H.
  - unfold ClaudeToGemini.convert_request in H. py_bind H as g Hg.
    destruct (c2g_assembled_keys _ _ Hg) as [Hd Hk].
    unfold ClaudeToGemini.fix_request_issues in H.
    now rewrite (fix_request_issues_dict _ _ H), (fix_request_issues_keys _ _ H).
  - unfold OpenAIToGemini.convert_request in H. py_bind H as g Hg.
    destruct (o2g_assembled_keys _ _ Hg) as [Hd Hk].
    unfold OpenAIToGemini.fix_request_issues in H.
    now rewrite (fix_request_issues_dict _ _ H), (fix_request_issues_keys _ _ H).
  - unfold ClaudeToOpenAI.convert_request in H. py_bind H as g Hg.
    destruct (c2o_assembled_keys _ _ Hg) as [Hd Hk].
    unfold ClaudeToOpenAI.fix_request_issues in H.
    destruct (on_list_field_keys _ _ _ _ H) as [K1 K2]. split; congruence.
Qed.

Lemma request_fields_sample :
  let tool (name : string) :=
    JObj [("name", JStr name); ("description", JStr "");
          ("input_schema", JObj [])] in
  let claude_request :=
    JObj [("model", JStr "claude-3-opus-20240229"); ("max_tokens", JInt 1024);
          ("messages",
           JArr [JObj [("role", JStr "system"); ("content", JStr "Be brief.")];
                 JObj [("role", JStr "user"); ("content", JStr "hi")]]);
          ("tools", JArr [tool "lookup"])] in
  let openai_request :=
    JObj [("model", JStr "gpt-4"); ("temperature", JInt 0);
          ("messages",
           JArr [JObj [("role", JStr "user"); ("content", JStr "hi")]]);
          ("tools", JArr [JObj [("type", JStr "retrieval")]])] in
  (exists out,
     ClaudeToGemini.convert_request (rt := sample_runtime) claude_request
     = Some out /\
     is_dict out = true /\
     keys_of out = ["contents"; "systemInstruction"; "tools"]) /\
  (exists out,
     OpenAIToGemini.convert_request (rt := sample_runtime) openai_request
     = Some out /\
     is_dict out = true /\ keys_of out = ["contents"]) /\
  (exists out,
     ClaudeToOpenAI.convert_request (rt := sample_runtime) claude_request
     = Some out /\
     is_dict out = true /\ keys_of out = ["messages"; "tools"]).
Proof.
  intros tool claude_request openai_request.
  pose proof (request_fields (rt := sample_runtime)) as (Hc2g & Ho2g & Hc2o).
  split; [|split].
  - eexists. split; [reflexivity|].
    exact (Hc2g claude_request _ eq_refl).
  - eexists. split; [reflexivity|].
    exact (Ho2g openai_request _ eq_refl).
  - eexists. split; [reflexivity|].
    exact (Hc2o claude_request _ eq_refl).
Defined.

(* ================================================================== *)
(** * The system instruction *)
(* ================================================================== *)

Lemma on_list_field_getitem_other (k k' : string)
    (f : list json -> py (list json)) (d d' : json) :
  GeminiRepair.on_list_field k f d = Some d' ->
  k <> k' -> py_getitem d' k' = py_getitem d k'.
Proof.
  unfold GeminiRepair.on_list_field. intros H Hne.
  py_bind H as c Hc. destruct c; [|now inversion H].
  py_bind H as v Hv.
  destruct v as [| | | |l|]; try (now inversion H).
  py_bind H as l' Hl'.
  destruct d as [| | | | |kv]; try discriminate H.
  cbn [py_setitem] in H. inversion H; subst d'.
  cbn [py_getitem]. now apply dict_lookup_set_other.
Qed.

Lemma fix_request_issues_getitem_other (r out : json) (k : string) :
  GeminiRepair.fix_request_issues r = Some out ->
  k <> "contents" -> k <> "tools" ->
  py_getitem out k = py_getitem r k.
Proof.
  unfold GeminiRepair.fix_request_issues. intros H Hc Ht.
  py_bind H as r1 H1.
  rewrite (on_list_field_getitem_other _ k _ _ _ H) by congruence.
  apply (on_list_field_getitem_other _ k _ _ _ H1). congruence.
Qed.

(** The texts of the system messages, as [str.join] takes them. *)
Definition system_texts (system_messages : list json) : list string :=
  flat_map (fun msg =>
              match get_or msg "content" (JStr "") with
              | JStr s => [s]
              | _ => []
              end) system_messages.

Definition joined_instruction (system_messages : list json) : json :=
  JObj [("parts",
         JArr [JObj [("text",
                      JStr (str_join nl (system_texts system_messages)))]])].

Section ClaudeSystem.
Context {rt : PyRuntime}.

Lemma c2g_system_texts (system_messages : list json) (texts : list string) :
  mapM ClaudeToGemini.system_text system_messages = Some texts ->
  texts = system_texts system_messages /\
  Forall (fun msg => is_str (get_or msg "content" (JStr "")) = true)
    system_messages.
Proof.
  revert texts. induction system_messages as [|msg rest IH]; intros texts H.
  - simpl in H. inversion H. split; [reflexivity | constructor].
  - cbn [mapM] in H. py_bind H as s Hs. py_bind H as ts Hts.
    inversion H; subst texts. destruct (IH _ eq_refl) as [-> Hall].
    unfold ClaudeToGemini.system_text in Hs. py_bind Hs as content Hcontent.
    destruct content as [| | |s'| |]; try discriminate Hs.
    inversion Hs; subst s'.
    assert (Hg : get_or msg "content" (JStr "") = JStr s)
      by (unfold get_or; now rewrite Hcontent).
    split.
    + unfold system_texts. cbn [flat_map]. now rewrite Hg.
    + constructor; [now rewrite Hg | exact Hall].
Qed.

Lemma c2g_assembled_system (request g : json) :
  ClaudeToGemini.assemble_request request = Some g ->
  let messages := request_messages request in
  exists kv turns,
    g = JObj kv /\
    ClaudeToGemini.convert_messages
      (filter (fun msg => negb (system_role msg)) messages) = Some turns /\
    dict_lookup "contents" kv = Some (JArr turns) /\
    dict_lookup "systemInstruction" kv
    = match filter system_role messages with
      | [] => None
      | sm => Some (joined_instruction sm)
      end /\
    Forall (fun msg => is_str (get_or msg "content" (JStr "")) = true)
      (filter system_role messages).
Proof.
  intros H. unfold ClaudeToGemini.assemble_request in H.
  destruct request as [| | | | |kv]; try discriminate H.
  unfold request_messages, get_or.
  cbn [py_get bind] in H |- *.
  set (messages0 := match dict_lookup "messages" kv with
                    | Some v => v
                    | None => JArr []
                    end) in *.
  set (tools := match dict_lookup "tools" kv with
                | Some v => v
                | None => JArr []
                end) in *.
  destruct (py_iter messages0) as [messages|]; [|discriminate H].
  cbn [bind] in H.
  destruct (filterM ClaudeToGemini.is_system messages) as [sm|] eqn:Hsm;
    [|discriminate H].
  cbn [bind] in H.
  pose proof (filterM_as_filter _ _ system_role _ _ is_system_role Hsm) as Esm.
  py_bind H as nsm Hnsm.
  assert (Ensm : nsm = filter (fun msg => negb (system_role msg)) messages).
  { eapply filterM_as_filter; [|exact Hnsm].
    intros a b Hb. cbv beta in Hb. py_bind Hb as c Hc. inversion Hb.
    now rewrite (is_system_role _ _ Hc). }
  py_bind H as turns Hturns.
  rewrite <- Esm, <- Ensm, Hturns.
  py_bind H as req Hreq. py_bind H as req' Hreq'.
  inversion H; subst g. exists req', turns.
  split; [reflexivity|]. split; [reflexivity|].
  assert (Hlook : forall k, k <> "tools" ->
                            dict_lookup k req' = dict_lookup k req).
  { intros k Hk. destruct (truthy tools).
    - py_bind Hreq' as fs Hfs. destruct fs; inversion Hreq'; [reflexivity|].
      apply dict_lookup_set_other. congruence.
    - now inversion Hreq'. }
  rewrite !Hlook by discriminate.
  destruct sm as [|s0 sm'].
  - inversion Hreq; subst req. repeat split; constructor.
  - py_bind Hreq as texts Htexts. inversion Hreq; subst req.
    destruct (c2g_system_texts _ _ Htexts) as [-> Hall].
    split; [reflexivity|]. split; [reflexivity | exact Hall].
Qed.

End ClaudeSystem.

(** X3.  The system instruction of the Claude to Gemini converter.  With no
    system message the request has no [systemInstruction]; otherwise it
    holds one text part, the contents of all the system messages in
    order, joined by newlines (each is a string, or the conversion
    raises).  The system messages give no turn: [contents] is made from
    the other messages alone. *)
Theorem c2g_system_instruction {rt : PyRuntime} (request out : json) :
  ClaudeToGemini.convert_request request = Some out ->
  let messages := request_messages request in
  py_getitem out "systemInstruction"
  = match filter system_role messages with
    | [] => None
    | sm => Some (joined_instruction sm)
    end /\
  Forall (fun msg => is_str (get_or msg "content" (JStr "")) = true)
    (filter system_role messages) /\
  exists turns,
    ClaudeToGemini.convert_messages
      (filter (fun msg => negb (system_role msg)) messages) = Some turns /\
    py_getitem out "contents" = Some (JArr (filter nonempty_parts turns)).
Proof.
  intros H messages. unfold ClaudeToGemini.convert_request in H.
  py_bind H as g Hg.
  destruct (c2g_assembled_system _ _ Hg)
    as (kv & turns & -> & Hturns & Hc & Hs & Hall).
  unfold ClaudeToGemini.fix_request_issues in H.
  split; [|split].
  - rewrite (fix_request_issues_getitem_other _ _ "systemInstruction" H)
      by discriminate.
    exact Hs.
  - exact Hall.
  - exists turns. split; [exact Hturns|].
    eapply fix_request_issues_contents; eauto.
    eapply c2g_messages_turns; eauto.
Qed.

Lemma c2g_system_instruction_sample :
  let request :=
    JObj [("messages",
           JArr [JObj [("role", JStr "system"); ("content", JStr "Be brief.")];
                 JObj [("role", JStr "user"); ("content", JStr "hi")];
                 JObj [("role", JStr "system"); ("content", JStr "No jokes.")];
                 JObj [("role", JStr "assistant"); ("content", JArr [])]])] in
  let user_turn :=
    JObj [("role", JStr "user"); ("parts", JArr [JObj [("text", JStr "hi")]])] in
  exists out,
    ClaudeToGemini.convert_request (rt := sample_runtime) request = Some out /\
    py_getitem out "systemInstruction"
    = Some (JObj [("parts",
                   JArr [JObj [("text",
                                JStr ("Be brief." ++ nl ++ "No jokes."))]])]) /\
    py_getitem out "contents" = Some (JArr [user_turn]).
Proof.
  intros request user_turn. eexists. split; [reflexivity|].
  destruct (c2g_system_instruction (rt := sample_runtime) request _ eq_refl)
    as (Hs & _ & turns & Ht & Hc).
  split; [exact Hs|].
  vm_compute in Ht. inversion Ht; subst turns. exact Hc.
Defined.

(** X4.  The system instruction of the OpenAI to Gemini converter.  A system
    message gives no turn.  The instruction is made from the last
    system message whose content is a string, and holds that content as
    its one text part; the earlier system messages leave no trace.
    With no such message the request has no [systemInstruction]. *)
Theorem o2g_system_instruction {rt : PyRuntime} :
  (forall m message sys r,
     system_role message = true ->
     OpenAIToGemini.convert_message m message sys = Some r -> fst r = []) /\
  (forall messages r,
     OpenAIToGemini.convert_messages messages = Some r ->
     snd r = option_map system_part (find system_string (rev messages))) /\
  (forall request out,
     OpenAIToGemini.convert_request request = Some out ->
     py_getitem out "systemInstruction"
     = option_map system_part
         (find system_string (rev (request_messages request)))).
Proof.
  split; [|split].
  - intros m message sys r Hsys H.
    unfold OpenAIToGemini.convert_message in H.
    destruct message as [| | | | |kv]; try discriminate H.
    unfold system_role, get_or in Hsys. cbn [py_get bind] in H, Hsys.
    destruct (dict_lookup "role" kv) as [role|]; [|discriminate Hsys].
    rewrite Hsys in H. now inversion H.
  - apply o2g_messages_system.
  - intros request out H. unfold OpenAIToGemini.convert_request in H.
    py_bind H as g Hg.
    unfold OpenAIToGemini.fix_request_issues in H.
    rewrite (fix_request_issues_getitem_other _ _ "systemInstruction" H)
      by discriminate.
    clear H. unfold OpenAIToGemini.assemble_request in Hg.
    destruct request as [| | | | |kv]; try discriminate Hg.
    unfold request_messages, get_or. cbn [py_get bind] in Hg |- *.
    destruct (py_iter _) as [messages|]; [|discriminate Hg].
    cbn [bind] in Hg. py_bind Hg as r Hr.
    rewrite <- (o2g_messages_system _ _ Hr).
    py_bind Hg as req Hreq. inversion Hg; subst g. cbn [py_getitem].
    assert (Hlook : forall req0,
               (if truthy
                     match dict_lookup "tools" kv with
                     | Some v => v
                     | None => JArr []
                     end
                then gemini_tools <- OpenAIToGemini.convert_tools
                                       match dict_lookup "tools" kv with
                                       | Some v => v
                                       | None => JArr []
                                       end ;;
                     match gemini_tools with
                     | [] => Some req0
                     | _ => Some (dict_set "tools" (JArr gemini_tools) req0)
                     end
                else Some req0) = Some req ->
               dict_lookup "systemInstruction" req
               = dict_lookup "systemInstruction" req0).
    { intros req0 Hreq0. destruct (truthy _).
      - py_bind Hreq0 as gt Hgt. destruct gt; inversion Hreq0; [reflexivity|].
        apply dict_lookup_set_other. discriminate.
      - now inversion Hreq0. }
    rewrite (Hlook _ Hreq). now destruct (snd r).
Qed.

Lemma o2g_system_instruction_sample :
  let first := JObj [("role", JStr "system"); ("content", JStr "Be brief.")] in
  let second := JObj [("role", JStr "system"); ("content", JStr "No jokes.")] in
  let third := JObj [("role", JStr "system"); ("content", JArr [])] in
  let user := JObj [("role", JStr "user"); ("content", JStr "hi")] in
  let instruction :=
    JObj [("parts", JArr [JObj [("text", JStr "No jokes.")]])] in
  (OpenAIToGemini.convert_message (rt := sample_runtime) [] first None
   = Some ([], Some (system_part first)) /\
   fst ([] : list json, Some (system_part first)) = []) /\
  (exists r,
     OpenAIToGemini.convert_messages (rt := sample_runtime)
       [first; user; second; third] = Some r /\
     snd r = Some instruction) /\
  (exists out,
     OpenAIToGemini.convert_request (rt := sample_runtime)
       (JObj [("messages", JArr [first; user; second; third])]) = Some out /\
     py_getitem out "systemInstruction" = Some instruction).
Proof.
  intros first second third user instruction.
  pose proof (o2g_system_instruction (rt := sample_runtime)) as (Hm & Hl & Hr).
  split; [|split].
  - split; [reflexivity|].
    exact (Hm [] first None _ eq_refl eq_refl).
  - eexists. split; [reflexivity|].
    exact (Hl [first; user; second; third] _ eq_refl).
  - eexists. split; [reflexivity|].
    exact (Hr (JObj [("messages", JArr [first; user; second; third])]) _ eq_refl).
Defined.

(* ================================================================== *)
(** * Turns and their roles *)
(* ================================================================== *)

(** The Gemini role the Claude to Gemini converter gives a message. *)
Definition c2g_role (message : json) : string :=
  let role := get_or message "role" (JStr "") in
  if eq_str role "assistant" then "model"
  else if eq_str role "tool" then "model"
  else "user".

(** The Gemini role the OpenAI to Gemini converter gives a message:
    ["model"] for an assistant message, ["user"] for every other. *)
Definition o2g_role (message : json) : string :=
  if eq_str (get_or message "role" (JStr "")) "assistant" then "model"
  else "user".

(** An item of a content list that stands for something in a Gemini
    turn: a string, a text block, or an image block whose URL is either
    no [data:] URL or a [data:] URL of the form [data:<mime>;base64,<data>]
    ([match_data_url] is the regular expression of that form). *)
Definition gives_part (item : json) : bool :=
  match item with
  | JStr _ => true
  | JObj _ =>
      let ty := get_or item "type" JNull in
      eq_str ty "text"
      || (eq_str ty "image_url"
          && match get_or (get_or item "image_url" (JObj [])) "url" (JStr "") with
             | JStr url =>
                 negb (String.prefix "data:" url)
                 || match match_data_url url with
                    | Some _ => true
                    | None => false
                    end
             | _ => false
             end)
  | _ => false
  end.

(** A message that leaves no turn in the OpenAI to Gemini conversion
    although it is no system message: its [tool_calls] are absent or
    falsy, its role is not ["tool"], and its content is a list none of
    whose items gives a part. *)
Definition o2g_silent (message : json) : bool :=
  negb (truthy (get_or message "tool_calls" JNull))
  && negb (eq_str (get_or message "role" (JStr "")) "tool")
  && match get_or message "content" (JStr "") with
     | JArr items => negb (existsb gives_part items)
     | _ => false
     end.

Definition gemini_role (t : json) : Prop :=
  py_getitem t "role" = Some (JStr "user") \/
  py_getitem t "role" = Some (JStr "model").

Lemma system_role_default (kv : list (string * json)) :
  eq_str (match dict_lookup "role" kv with
          | Some v => v
          | None => JStr ""
          end) "system"
  = system_role (JObj kv).
Proof.
  unfold system_role, get_or. cbn [py_get].
  now destruct (dict_lookup "role" kv).
Qed.

Lemma eq_str_eq (v : json) (s : string) : eq_str v s = true -> v = JStr s.
Proof.
  destruct v; try discriminate. simpl. intros H.
  apply String.eqb_eq in H. now subst.
Qed.

Section TurnRoles.
Context {rt : PyRuntime}.

Lemma o2g_role_of (message : json) :
  OpenAIToGemini.gemini_role_of (get_or message "role" (JStr ""))
  = o2g_role message.
Proof.
  unfold o2g_role, OpenAIToGemini.gemini_role_of.
  destruct (eq_str _ "user") eqn:Hu.
  - apply eq_str_eq in Hu. now rewrite Hu.
  - destruct (eq_str _ "assistant"); [reflexivity|].
    now destruct (eq_str _ "tool").
Qed.

Lemma o2g_item_gives_part (item : json) (ps : list json) :
  OpenAIToGemini.convert_item item = Some ps ->
  gives_part item = match ps with [] => false | _ => true end.
Proof.
  destruct item as [| | |s| |kv]; cbn [OpenAIToGemini.convert_item gives_part];
    try (intros H; injection H as <-; reflexivity).
  unfold get_or. cbn [py_get bind].
  destruct (eq_str _ "text").
  - intros H. injection H as <-. reflexivity.
  - cbn [orb]. destruct (eq_str _ "image_url"); cbn [andb];
      [|intros H; injection H as <-; reflexivity].
    intros H. py_bind H as url Hurl.
    destruct url as [| | |u| |]; try discriminate H.
    destruct (String.prefix "data:" u); cbn [negb orb].
    + destruct (match_data_url u) as [[mime data]|];
        injection H as <-; reflexivity.
    + injection H as <-. reflexivity.
Qed.

Lemma o2g_items_give_part (items : list json) (pss : list (list json)) :
  mapM OpenAIToGemini.convert_item items = Some pss ->
  existsb gives_part items
  = match List.concat pss with [] => false | _ => true end.
Proof.
  revert pss. induction items as [|item rest IH]; intros pss H.
  - injection H as <-. reflexivity.
  - cbn [mapM] in H. py_bind H as ps Hps. py_bind H as pss' Hpss.
    injection H as <-. cbn [existsb List.concat].
    rewrite (o2g_item_gives_part _ _ Hps), (IH _ eq_refl).
    destruct ps; [reflexivity|]. reflexivity.
Qed.

Lemma o2g_calls_truthy (kv : list (string * json)) (calls : json) :
  OpenAIToGemini.tool_calls_of (JObj kv) = Some calls ->
  truthy calls = truthy (get_or (JObj kv) "tool_calls" JNull).
Proof.
  unfold OpenAIToGemini.tool_calls_of, get_or.
  cbn [py_in py_getitem py_get bind]. unfold dict_has.
  destruct (dict_lookup "tool_calls" kv) as [v|]; cbn [bind].
  - intros H. injection H as <-. now destruct (truthy v) eqn:Hv.
  - intros H. injection H as <-. reflexivity.
Qed.

Lemma c2g_message_roles (message : json) (ts : list json) :
  ClaudeToGemini.convert_message message = Some ts ->
  map (fun t => py_getitem t "role") ts
  = if system_role message then [] else [Some (JStr (c2g_role message))].
Proof.
  intros H. unfold ClaudeToGemini.convert_message in H.
  destruct message as [| | | | |kv]; try discriminate H.
  cbn [py_get bind] in H.
  rewrite <- system_role_default. unfold c2g_role, get_or. cbn [py_get].
  set (role := match dict_lookup "role" kv with
               | Some v => v
               | None => JStr ""
               end) in *.
  clearbody role.
  destruct (eq_str role "user") eqn:Hu.
  - apply eq_str_eq in Hu. subst role.
    py_bind H as parts Hparts. now inversion H.
  - destruct (eq_str role "assistant") eqn:Ha.
    + apply eq_str_eq in Ha. subst role.
      py_bind H as parts Hparts. now inversion H.
    + destruct (eq_str role "tool") eqn:Ht.
      * apply eq_str_eq in Ht. subst role. now inversion H.
      * destruct (eq_str role "system").
        -- now inversion H.
        -- py_bind H as parts Hparts. now inversion H.
Qed.

Lemma c2g_messages_roles (messages out : list json) :
  ClaudeToGemini.convert_messages messages = Some out ->
  map (fun t => py_getitem t "role") out
  = map (fun m => Some (JStr (c2g_role m)))
      (filter (fun m => negb (system_role m)) messages).
Proof.
  intros H. unfold ClaudeToGemini.convert_messages in H.
  py_bind H as turns Hturns. inversion H; subst out. clear H.
  revert turns Hturns.
  induction messages as [|message rest IH]; intros turns H.
  - simpl in H. now inversion H.
  - cbn [mapM] in H. py_bind H as ts Hts. py_bind H as tss Htss.
    inversion H; subst turns. cbn [List.concat filter].
    rewrite map_app, (IH _ eq_refl), (c2g_message_roles _ _ Hts).
    now destruct (system_role message).
Qed.

Lemma o2g_message_roles (m : idmap) (message : json) (sys : option json)
    (r : list json * option json) :
  OpenAIToGemini.convert_message m message sys = Some r ->
  map (fun t => py_getitem t "role") (fst r)
  = if negb (system_role message) && negb (o2g_silent message)
    then [Some (JStr (o2g_role message))] else [].
Proof.
  intros H. unfold OpenAIToGemini.convert_message in H.
  destruct message as [| | | | |kv]; try discriminate H.
  cbn [py_get bind] in H.
  rewrite <- system_role_default, <- o2g_role_of.
  unfold o2g_silent.
  assert (Hrole : get_or (JObj kv) "role" (JStr "")
                  = match dict_lookup "role" kv with
                    | Some v => v
                    | None => JStr ""
                    end) by reflexivity.
  assert (Hcontent : get_or (JObj kv) "content" (JStr "")
                     = match dict_lookup "content" kv with
                       | Some v => v
                       | None => JStr ""
                       end) by reflexivity.
  rewrite Hrole, Hcontent. clear Hrole Hcontent.
  set (role := match dict_lookup "role" kv with
               | Some v => v
               | None => JStr ""
               end) in *.
  set (content := match dict_lookup "content" kv with
                  | Some v => v
                  | None => JStr ""
                  end) in *.
  destruct (eq_str role "system"); [now inversion H|].
  cbn [negb andb].
  py_bind H as calls Hcalls.
  rewrite <- (o2g_calls_truthy _ _ Hcalls).
  destruct (truthy calls) eqn:Hc.
  - py_bind H as l Hl. py_bind H as parts Hparts. inversion H.
    reflexivity.
  - destruct (eq_str role "tool") eqn:Ht.
    + py_bind H as name Hname. inversion H. reflexivity.
    + py_bind H as parts Hparts. inversion H. cbn [negb andb fst].
      destruct content as [| | |c|items|ckv]; cbn in Hparts;
        try (injection Hparts as <-; reflexivity).
      py_bind Hparts as pss Hpss. injection Hparts as <-.
      rewrite (o2g_items_give_part _ _ Hpss).
      now destruct (List.concat pss).
Qed.

Lemma o2g_loop_roles (m : idmap) (messages acc : list json)
    (sys : option json) (r : list json * option json) :
  OpenAIToGemini.convert_loop m messages acc sys = Some r ->
  map (fun t => py_getitem t "role") (fst r)
  = (map (fun t => py_getitem t "role") acc
     ++ map (fun msg => Some (JStr (o2g_role msg)))
          (filter (fun msg => negb (system_role msg) && negb (o2g_silent msg))
             messages))%list.
Proof.
  revert acc sys. induction messages as [|message rest IH]; intros acc sys H.
  - simpl in H. inversion H. simpl. now rewrite app_nil_r.
  - cbn [OpenAIToGemini.convert_loop] in H. py_bind H as r1 Hr1.
    rewrite (IH _ _ H), map_app, <- app_assoc. f_equal.
    rewrite (o2g_message_roles _ _ _ _ Hr1). cbn [filter].
    now destruct (negb (system_role message) && negb (o2g_silent message)).
Qed.

Lemma o2g_messages_roles (messages : list json) (r : list json * option json) :
  OpenAIToGemini.convert_messages messages = Some r ->
  map (fun t => py_getitem t "role") (fst r)
  = map (fun msg => Some (JStr (o2g_role msg)))
      (filter (fun msg => negb (system_role msg) && negb (o2g_silent msg))
         messages).
Proof.
  intros H. unfold OpenAIToGemini.convert_messages in H.
  py_bind H as m Hm. now rewrite (o2g_loop_roles _ _ _ _ _ H).
Qed.

End TurnRoles.

(** X5.  Turn-count conservation, Claude to Gemini.  [convert_messages]
    gives exactly one turn per message that is not a system message, in
    order; the turn of an assistant or tool message has role ["model"],
    that of any other message role ["user"]. *)
Theorem c2g_turn_per_message {rt : PyRuntime} (messages out : list json) :
  ClaudeToGemini.convert_messages messages = Some out ->
  map (fun t => py_getitem t "role") out
  = map (fun m => Some (JStr (c2g_role m)))
      (filter (fun m => negb (system_role m)) messages) /\
  List.length out
  = List.length (filter (fun m => negb (system_role m)) messages).
Proof.
  intros H. pose proof (c2g_messages_roles _ _ H) as Hr.
  split; [exact Hr|].
  apply (f_equal (@List.length _)) in Hr. now rewrite !length_map in Hr.
Qed.

Lemma c2g_turn_per_message_sample :
  let conversation :=
    [JObj [("role", JStr "system"); ("content", JStr "Be brief.")];
     JObj [("role", JStr "user"); ("content", JStr "hi")];
     JObj [("role", JStr "assistant"); ("content", JArr [])];
     JObj [("role", JStr "tool"); ("name", JStr "lookup");
           ("content", JStr "42")];
     JObj [("role", JStr "developer"); ("content", JInt 7)]] in
  exists out,
    ClaudeToGemini.convert_messages (rt := sample_runtime) conversation
    = Some out /\
    map (fun t => py_getitem t "role") out
    = [Some (JStr "user"); Some (JStr "model"); Some (JStr "model");
       Some (JStr "user")] /\
    List.length out = 4%nat.
Proof.
  intros conversation. eexists. split; [reflexivity|].
  exact (c2g_turn_per_message (rt := sample_runtime) conversation _ eq_refl).
Defined.

(** X6.  Turns of the OpenAI to Gemini converter.  [convert_messages] gives
    at most one turn per message, in order: none for a system message,
    none for a message whose [tool_calls] are absent or falsy, whose
    role is not ["tool"] and whose content is a list without an item
    that gives a part (a string, a text block, or an image block whose
    URL is no [data:] URL or a well-formed one), and one for every
    other message.  The turn of an assistant message has role
    ["model"], that of any other message role ["user"]. *)
Theorem o2g_turn_per_message {rt : PyRuntime} (messages : list json)
    (r : list json * option json) :
  OpenAIToGemini.convert_messages messages = Some r ->
  map (fun t => py_getitem t "role") (fst r)
  = map (fun msg => Some (JStr (o2g_role msg)))
      (filter (fun msg => negb (system_role msg) && negb (o2g_silent msg))
         messages) /\
  (List.length (fst r)
   <= List.length (filter (fun msg => negb (system_role msg)) messages))%nat.
Proof.
  intros H. pose proof (o2g_messages_roles _ _ H) as Hr.
  split; [exact Hr|].
  apply (f_equal (@List.length _)) in Hr. rewrite !length_map in Hr.
  rewrite Hr. clear.
  induction messages as [|msg rest IH]; simpl; [lia|].
  destruct (system_role msg); cbn [negb andb]; [exact IH|].
  destruct (o2g_silent msg); simpl; lia.
Qed.

Lemma o2g_turn_per_message_sample :
  let conversation :=
    [JObj [("role", JStr "system"); ("content", JStr "Be brief.")];
     JObj [("role", JStr "user"); ("content", JStr "hi")];
     JObj [("role", JStr "assistant"); ("content", JArr [])];
     JObj [("role", JStr "user");
           ("content",
            JArr [JObj [("type", JStr "image_url");
                        ("image_url", JObj [("url", JStr "data:broken")])];
                  JObj [("type", JStr "audio")]])];
     JObj [("role", JStr "assistant"); ("content", JStr "hello")];
     JObj [("role", JStr "tool"); ("tool_call_id", JStr "c1");
           ("content", JStr "42")]] in
  exists r,
    OpenAIToGemini.convert_messages (rt := sample_runtime) conversation
    = Some r /\
    map (fun t => py_getitem t "role") (fst r)
    = [Some (JStr "user"); Some (JStr "model"); Some (JStr "user")] /\
    (List.length (fst r) <= 5)%nat.
Proof.
  intros conversation. eexists. split; [reflexivity|].
  exact (o2g_turn_per_message (rt := sample_runtime) conversation _ eq_refl).
Defined.

Lemma roles_gemini (A : Type) (f : A -> string) (l : list A) (out : list json) :
  (forall a, f a = "user" \/ f a = "model") ->
  map (fun t => py_getitem t "role") out = map (fun a => Some (JStr (f a))) l ->
  Forall gemini_role out.
Proof.
  intros Hf. revert l. induction out as [|t out IH]; intros l H; [constructor|].
  destruct l as [|a l]; [discriminate H|]. simpl in H.
  inversion H as [[Ht Hrest]]. constructor; [|eauto].
  unfold gemini_role. rewrite Ht. destruct (Hf a) as [-> | ->]; auto.
Qed.

Lemma c2g_role_gemini (message : json) :
  c2g_role message = "user" \/ c2g_role message = "model".
Proof.
  unfold c2g_role. cbv zeta.
  destruct (eq_str _ "assistant"); [auto|]. destruct (eq_str _ "tool"); auto.
Qed.

Lemma o2g_role_gemini (message : json) :
  o2g_role message = "user" \/ o2g_role message = "model".
Proof.
  unfold o2g_role. destruct (eq_str _ "assistant"); auto.
Qed.

Lemma Forall_kept (A : Type) (P : A -> Prop) (test : A -> bool) (l : list A) :
  Forall P l -> Forall P (filter test l).
Proof.
  induction 1 as [|a t Ha _ IH]; simpl; [constructor|].
  destruct (test a); [constructor|]; auto.
Qed.

Section RequestContents.
Context {rt : PyRuntime}.

Lemma o2g_assembled_contents (request g : json) :
  OpenAIToGemini.assemble_request request = Some g ->
  exists kv r,
    g = JObj kv /\
    OpenAIToGemini.convert_messages (request_messages request) = Some r /\
    dict_lookup "contents" kv = Some (JArr (fst r)).
Proof.
  intros H. unfold OpenAIToGemini.assemble_request in H.
  destruct request as [| | | | |kv]; try discriminate H.
  unfold request_messages, get_or. cbn [py_get bind] in H |- *.
  destruct (py_iter _) as [messages|]; [|discriminate H].
  cbn [bind] in H. py_bind H as r Hr. py_bind H as req Hreq.
  inversion H; subst g. exists req, r.
  split; [reflexivity|]. split; [reflexivity|].
  destruct (truthy _).
  - py_bind Hreq as gt Hgt. destruct gt; injection Hreq as <-.
    + now destruct (snd r).
    + rewrite dict_lookup_set_other by discriminate. now destruct (snd r).
  - injection Hreq as <-. now destruct (snd r).
Qed.

End RequestContents.

(** X7.  Every turn of a converted Gemini request has role ["user"] or
    ["model"]: no other role of the source conversation (["assistant"],
    ["tool"], ["system"], or an unknown one) reaches [contents]. *)
Theorem gemini_roles_only {rt : PyRuntime} :
  (forall request out,
     ClaudeToGemini.convert_request request = Some out ->
     exists turns,
       py_getitem out "contents" = Some (JArr turns) /\
       Forall gemini_role turns) /\
  (forall request out,
     OpenAIToGemini.convert_request request = Some out ->
     exists turns,
       py_getitem out "contents" = Some (JArr turns) /\
       Forall gemini_role turns).
Proof.
  split; intros request out H.
  - unfold ClaudeToGemini.convert_request in H. py_bind H as g Hg.
    destruct (c2g_assembled_system _ _ Hg)
      as (kv & turns & -> & Hturns & Hc & _ & _).
    exists (filter nonempty_parts turns). split.
    + eapply fix_request_issues_contents; eauto.
      eapply c2g_messages_turns; eauto.
    + apply Forall_kept.
      eapply roles_gemini; [apply c2g_role_gemini|].
      apply (c2g_messages_roles _ _ Hturns).
  - unfold OpenAIToGemini.convert_request in H. py_bind H as g Hg.
    destruct (o2g_assembled_contents _ _ Hg) as (kv & r & -> & Hr & Hc).
    exists (filter nonempty_parts (fst r)). split.
    + eapply fix_request_issues_contents; eauto.
      eapply o2g_messages_turns; eauto.
    + apply Forall_kept.
      eapply roles_gemini; [apply o2g_role_gemini|].
      apply (o2g_messages_roles _ _ Hr).
Qed.

Lemma gemini_roles_only_sample :
  let conversation :=
    JArr [JObj [("role", JStr "system"); ("content", JStr "Be brief.")];
          JObj [("role", JStr "developer"); ("content", JStr "hi")];
          JObj [("role", JStr "assistant"); ("content", JStr "hello")];
          JObj [("role", JStr "tool"); ("name", JStr "lookup");
                ("content", JStr "42")]] in
  (exists out turns,
     ClaudeToGemini.convert_request (rt := sample_runtime)
       (JObj [("messages", conversation)]) = Some out /\
     py_getitem out "contents" = Some (JArr turns) /\
     Forall gemini_role turns) /\
  (exists out turns,
     OpenAIToGemini.convert_request (rt := sample_runtime)
       (JObj [("messages", conversation)]) = Some out /\
     py_getitem out "contents" = Some (JArr turns) /\
     Forall gemini_role turns).
Proof.
  intros conversation.
  pose proof (gemini_roles_only (rt := sample_runtime)) as [Hc2g Ho2g].
  split.
  - destruct (Hc2g (JObj [("messages", conversation)]) _ eq_refl)
      as (turns & Hc & Hall).
    eexists. exists turns. split; [reflexivity|]. split; assumption.
  - destruct (Ho2g (JObj [("messages", conversation)]) _ eq_refl)
      as (turns & Hc & Hall).
    eexists. exists turns. split; [reflexivity|]. split; assumption.
Defined.

(* ================================================================== *)
(** * Text conversations through the three converters *)
(* ================================================================== *)

Definition text_message (role content : string) : json :=
  JObj [("role", JStr role); ("content", JStr content)].

Definition text_turn (role content : string) : json :=
  JObj [("role", JStr (if String.eqb role "assistant" then "model" else "user"));
        ("parts", JArr [JObj [("text", JStr content)]])].

Section TextConversation.
Context {rt : PyRuntime}.

Lemma c2o_text_map (lines : list (string * string)) (m : idmap) :
  foldM ClaudeToOpenAI.record_message m
    (map (fun line => text_message (fst line) (snd line)) lines) = Some m.
Proof.
  induction lines as [|[role content] rest IH]; [reflexivity|].
  cbn [map foldM fst snd].
  assert (Hm : ClaudeToOpenAI.record_message m (text_message role content)
               = Some m).
  { unfold ClaudeToOpenAI.record_message, text_message. simpl.
    now destruct (String.eqb role "assistant"). }
  rewrite Hm. exact IH.
Qed.

Lemma c2o_text_messages (lines : list (string * string)) (m : idmap) :
  mapM (ClaudeToOpenAI.convert_message m)
    (map (fun line => text_message (fst line) (snd line)) lines)
  = Some (map (fun line => [text_message (fst line) (snd line)]) lines).
Proof.
  induction lines as [|[role content] rest IH]; [reflexivity|].
  cbn [map mapM fst snd]. rewrite IH. reflexivity.
Qed.

Lemma c2g_text_messages (lines : list (string * string)) :
  Forall (fun line => fst line <> "tool" /\ fst line <> "system") lines ->
  mapM ClaudeToGemini.convert_message
    (map (fun line => text_message (fst line) (snd line)) lines)
  = Some (map (fun line => [text_turn (fst line) (snd line)]) lines).
Proof.
  induction 1 as [|[role content] rest [Htool Hsys] _ IH]; [reflexivity|].
  cbn [map mapM fst snd] in *. rewrite IH.
  unfold ClaudeToGemini.convert_message, text_message, text_turn.
  cbn [py_get dict_lookup String.eqb Ascii.eqb Bool.eqb bind eq_str].
  destruct (String.eqb_spec role "user") as [->|Hu]; [reflexivity|].
  destruct (String.eqb_spec role "assistant") as [->|Ha]; [reflexivity|].
  destruct (String.eqb_spec role "tool") as [->|Ht]; [contradiction|].
  destruct (String.eqb_spec role "system") as [->|Hs]; [contradiction|].
  reflexivity.
Qed.

Lemma o2g_text_map (lines : list (string * string)) (m : idmap) :
  foldM OpenAIToGemini.record_message m
    (map (fun line => text_message (fst line) (snd line)) lines) = Some m.
Proof.
  induction lines as [|[role content] rest IH]; [reflexivity|].
  cbn [map foldM fst snd].
  assert (Hm : OpenAIToGemini.record_message m (text_message role content)
               = Some m) by reflexivity.
  rewrite Hm. exact IH.
Qed.

Lemma o2g_text_loop (lines : list (string * string)) (m : idmap)
    (acc : list json) :
  Forall (fun line => fst line <> "tool" /\ fst line <> "system") lines ->
  OpenAIToGemini.convert_loop m
    (map (fun line => text_message (fst line) (snd line)) lines) acc None
  = Some ((acc ++ map (fun line => text_turn (fst line) (snd line)) lines)%list,
          None).
Proof.
  intros H. revert acc.
  induction H as [|[role content] rest [Htool Hsys] _ IH]; intros acc.
  - simpl. now rewrite app_nil_r.
  - cbn [map OpenAIToGemini.convert_loop fst snd] in *.
    assert (Hm : OpenAIToGemini.convert_message m (text_message role content) None
                 = Some ([text_turn role content], None)).
    { unfold OpenAIToGemini.convert_message, text_message, text_turn,
        OpenAIToGemini.gemini_role_of, OpenAIToGemini.tool_calls_of.
      cbn [py_get py_in dict_has dict_lookup String.eqb Ascii.eqb Bool.eqb bind
           eq_str truthy].
      destruct (String.eqb_spec role "system") as [->|Hs]; [contradiction|].
      destruct (String.eqb_spec role "tool") as [->|Ht]; [contradiction|].
      cbn [OpenAIToGemini.content_parts bind].
      destruct (String.eqb_spec role "user") as [->|Hu]; [reflexivity|].
      destruct (String.eqb_spec role "assistant") as [->|Ha]; reflexivity. }
    rewrite Hm. cbn [bind fst snd]. rewrite IH, <- app_assoc. reflexivity.
Qed.

End TextConversation.

Lemma concat_singletons (A : Type) (l : list A) :
  List.concat (map (fun a => [a]) l) = l.
Proof. induction l as [|a t IH]; simpl; congruence. Qed.

(** X8.  A text conversation: every message holds a role and a string
    content, and nothing else.  The Claude to OpenAI converter returns
    the conversation itself, whatever the roles are.  When no message
    has role ["tool"] or ["system"], the two Gemini converters return
    the same turns, one per message: the text as the one part, role
    ["model"] for an assistant and ["user"] for anyone else.  So
    converting Claude to OpenAI and then OpenAI to Gemini gives what
    converting Claude to Gemini gives. *)
Theorem text_conversation {rt : PyRuntime} (lines : list (string * string)) :
  let conversation := map (fun line => text_message (fst line) (snd line)) lines in
  let turns := map (fun line => text_turn (fst line) (snd line)) lines in
  ClaudeToOpenAI.convert_messages conversation = Some conversation /\
  (Forall (fun line => fst line <> "tool" /\ fst line <> "system") lines ->
   ClaudeToGemini.convert_messages conversation = Some turns /\
   (openai <- ClaudeToOpenAI.convert_messages conversation ;;
    OpenAIToGemini.convert_messages openai) = Some (turns, None)).
Proof.
  intros conversation turns.
  assert (Hc2o : ClaudeToOpenAI.convert_messages conversation = Some conversation).
  { unfold ClaudeToOpenAI.convert_messages, ClaudeToOpenAI.build_tool_use_map,
      conversation.
    rewrite c2o_text_map. cbn [bind]. rewrite c2o_text_messages. cbn [bind].
    rewrite <- (map_map (fun line => text_message (fst line) (snd line))
                  (fun a => [a])).
    now rewrite concat_singletons. }
  split; [exact Hc2o|]. intros H. split.
  - unfold ClaudeToGemini.convert_messages, conversation, turns.
    rewrite (c2g_text_messages _ H). cbn [bind].
    rewrite <- (map_map (fun line => text_turn (fst line) (snd line))
                  (fun a => [a])).
    now rewrite concat_singletons.
  - rewrite Hc2o. cbn [bind].
    unfold OpenAIToGemini.convert_messages, OpenAIToGemini.build_tool_call_map,
      conversation, turns.
    rewrite o2g_text_map. cbn [bind].
    now rewrite (o2g_text_loop _ _ _ H).
Qed.

Lemma text_conversation_sample :
  let conversation :=
    [text_message "user" "hi"; text_message "assistant" "hello";
     text_message "developer" "be brief"] in
  let turns :=
    [text_turn "user" "hi"; text_turn "assistant" "hello";
     text_turn "developer" "be brief"] in
  let with_tool :=
    [text_message "system" "Be brief."; text_message "user" "hi";
     text_message "tool" "42"] in
  ClaudeToOpenAI.convert_messages (rt := sample_runtime) with_tool
  = Some with_tool /\
  ClaudeToOpenAI.convert_messages (rt := sample_runtime) conversation
  = Some conversation /\
  ClaudeToGemini.convert_messages (rt := sample_runtime) conversation
  = Some turns /\
  (openai <- ClaudeToOpenAI.convert_messages (rt := sample_runtime) conversation ;;
   OpenAIToGemini.convert_messages (rt := sample_runtime) openai)
  = Some (turns, None).
Proof.
  intros conversation turns with_tool.
  split.
  - exact (proj1 (text_conversation (rt := sample_runtime)
                    [("system", "Be brief."); ("user", "hi"); ("tool", "42")])).
  - destruct (text_conversation (rt := sample_runtime)
                [("user", "hi"); ("assistant", "hello");
                 ("developer", "be brief")]) as [Hid Hgemini].
    split; [exact Hid|]. apply Hgemini.
    repeat constructor; discriminate.
Defined.

(* ================================================================== *)
(** * Images given as data URLs *)
(* ================================================================== *)

(** [url] reads [data:<mime>;base64,<data>], possibly followed by a
    newline and more: the mime type is non-empty and free of
    semicolons, the data is non-empty and runs to the end of the line. *)
Definition data_url (url mime data : string) : Prop :=
  exists rest,
    url = "data:" ++ mime ++ ";base64," ++ data ++ rest /\
    mime <> "" /\ str_mem ";"%char mime = false /\
    data <> "" /\ str_mem newline data = false /\
    (rest = "" \/ exists rest', rest = String newline rest').

Definition inline_data (mime data : string) : json :=
  JObj [("inline_data", JObj [("mime_type", JStr mime); ("data", JStr data)])].

Lemma span_until_all (c : ascii) (x : string) :
  str_mem c x = false -> span_until c x = (x, "").
Proof.
  induction x as [|a t IH]; simpl; [reflexivity|].
  rewrite Bool.orb_false_iff. intros [Ha Ht].
  rewrite Ha, (IH Ht). reflexivity.
Qed.

Lemma append_nil_r (s : string) : s ++ "" = s.
Proof. induction s as [|a t IH]; simpl; congruence. Qed.

Lemma match_data_url_iff (url mime data : string) :
  match_data_url url = Some (mime, data) <-> data_url url mime data.
Proof.
  unfold match_data_url, data_url. split.
  - intros H.
    destruct (strip_prefix "data:" url) as [rest0|] eqn:H0; [|discriminate H].
    apply strip_prefix_inv in H0.
    destruct (span_until ";"%char rest0) as [m rest1] eqn:H1.
    destruct m as [|a m']; [discriminate H|].
    destruct (strip_prefix ";base64," rest1) as [tail|] eqn:H2; [|discriminate H].
    apply strip_prefix_inv in H2.
    destruct (span_until newline tail) as [d rest] eqn:H3.
    destruct d as [|b d']; [discriminate H|].
    inversion H; subst mime data. clear H.
    apply span_until_inv in H1. destruct H1 as (E1 & M1 & _).
    apply span_until_inv in H3. destruct H3 as (E3 & M3 & R3).
    exists rest. subst. repeat split; try discriminate; assumption.
  - intros (rest & -> & Hm & Mm & Hd & Md & Hrest).
    rewrite strip_prefix_app.
    change (";base64," ++ data ++ rest)
      with (String ";"%char ("base64," ++ data ++ rest)).
    rewrite (span_until_app _ _ _ Mm).
    destruct mime as [|a m']; [contradiction|].
    change (String ";"%char ("base64," ++ data ++ rest))
      with (";base64," ++ data ++ rest).
    rewrite strip_prefix_app.
    destruct data as [|b d']; [contradiction|].
    destruct Hrest as [-> | [rest' ->]].
    + rewrite append_nil_r, (span_until_all _ _ Md). reflexivity.
    + rewrite (span_until_app _ _ _ Md). reflexivity.
Qed.

Lemma data_url_prefix (url mime data : string) :
  data_url url mime data -> String.prefix "data:" url = true.
Proof. intros (rest & -> & _). simpl. now destruct (mime ++ _). Qed.

Lemma o2g_image_url_item (item image_url : list (string * json)) (url : string) :
  dict_lookup "type" item = Some (JStr "image_url") ->
  dict_lookup "image_url" item = Some (JObj image_url) ->
  dict_lookup "url" image_url = Some (JStr url) ->
  (String.prefix "data:" url = false ->
   OpenAIToGemini.convert_item (JObj item)
   = Some [JObj [("text", JStr ("[Image: " ++ url ++ "]"))]]) /\
  (forall mime data,
     data_url url mime data ->
     OpenAIToGemini.convert_item (JObj item) = Some [inline_data mime data]) /\
  (String.prefix "data:" url = true ->
   (forall mime data, ~ data_url url mime data) ->
   OpenAIToGemini.convert_item (JObj item) = Some []).
Proof.
  intros Ht Hi Hu. unfold OpenAIToGemini.convert_item.
  cbn [py_get bind]. rewrite Ht, Hi. cbn [eq_str String.eqb Ascii.eqb Bool.eqb].
  cbn [py_get bind]. rewrite Hu.
  split; [|split].
  - now intros ->.
  - intros mime data Hd. rewrite (data_url_prefix _ _ _ Hd).
    apply match_data_url_iff in Hd. now rewrite Hd.
  - intros -> Hno.
    destruct (match_data_url url) as [[mime data]|] eqn:Hm; [|reflexivity].
    apply match_data_url_iff in Hm. now apply Hno in Hm.
Qed.

(** X9.  An [image_url] item of an OpenAI message, by its URL.  A URL that
    does not start with [data:] becomes the text [[Image: <url>]].  A
    URL of the form [data:<mime>;base64,<data>] becomes inline data with
    that mime type and that data.  Any other URL starting with [data:]
    gives no part at all. *)
Theorem image_url_part (item image_url : list (string * json)) (url : string) :
  dict_lookup "type" item = Some (JStr "image_url") ->
  dict_lookup "image_url" item = Some (JObj image_url) ->
  dict_lookup "url" image_url = Some (JStr url) ->
  (String.prefix "data:" url = false ->
   OpenAIToGemini.convert_item (JObj item)
   = Some [JObj [("text", JStr ("[Image: " ++ url ++ "]"))]]) /\
  (forall mime data,
     data_url url mime data ->
     OpenAIToGemini.convert_item (JObj item) = Some [inline_data mime data]) /\
  (String.prefix "data:" url = true ->
   (forall mime data, ~ data_url url mime data) ->
   OpenAIToGemini.convert_item (JObj item) = Some []).
Proof. apply o2g_image_url_item. Qed.

Lemma image_url_part_sample :
  let item (url : string) :=
    [("type", JStr "image_url"); ("image_url", JObj [("url", JStr url)])] in
  OpenAIToGemini.convert_item (JObj (item "https://example.com/cat.png"))
  = Some [JObj [("text", JStr "[Image: https://example.com/cat.png]")]] /\
  OpenAIToGemini.convert_item (JObj (item "data:image/png;base64,AAAA"))
  = Some [inline_data "image/png" "AAAA"] /\
  OpenAIToGemini.convert_item (JObj (item "data:image/png,AAAA")) = Some [].
Proof.
  intros item. split; [|split].
  - apply (image_url_part (item "https://example.com/cat.png")
             [("url", JStr "https://example.com/cat.png")] _
             eq_refl eq_refl eq_refl).
    reflexivity.
  - apply (image_url_part (item "data:image/png;base64,AAAA")
             [("url", JStr "data:image/png;base64,AAAA")] _
             eq_refl eq_refl eq_refl).
    exists "". repeat split; try discriminate. now left.
  - apply (image_url_part (item "data:image/png,AAAA")
             [("url", JStr "data:image/png,AAAA")] _
             eq_refl eq_refl eq_refl); [reflexivity|].
    intros mime data Hd. apply match_data_url_iff in Hd. discriminate Hd.
Defined.

(** X10.  A base64 image block of a Claude message reaches Gemini unchanged
    by way of OpenAI.  When its media type is a non-empty string free
    of semicolons and its data a non-empty string free of newlines, the
    part the Claude to OpenAI converter makes of the block is turned by
    the OpenAI to Gemini converter into the very inline data the
    Claude to Gemini converter makes of the block. *)
Theorem image_block_round_trip {rt : PyRuntime}
    (block source : list (string * json)) (media_type data : string) :
  dict_lookup "type" block = Some (JStr "image") ->
  dict_lookup "source" block = Some (JObj source) ->
  dict_lookup "type" source = Some (JStr "base64") ->
  dict_lookup "media_type" source = Some (JStr media_type) ->
  dict_lookup "data" source = Some (JStr data) ->
  media_type <> "" -> str_mem ";"%char media_type = false ->
  data <> "" -> str_mem newline data = false ->
  exists part,
    ClaudeToOpenAI.convert_item (JObj block) = Some [part] /\
    OpenAIToGemini.convert_item part = Some [inline_data media_type data] /\
    ClaudeToGemini.convert_item (JObj block)
    = Some [inline_data media_type data].
Proof.
  intros Ht Hs Hst Hm Hd Hm0 Hm1 Hd0 Hd1.
  eexists. split; [|split].
  - unfold ClaudeToOpenAI.convert_item. cbn [py_get bind]. rewrite Ht, Hs.
    cbn [eq_str String.eqb Ascii.eqb Bool.eqb py_get bind].
    rewrite Hst, Hm, Hd.
    cbn [eq_str String.eqb Ascii.eqb Bool.eqb py_get bind py_str].
    reflexivity.
  - assert (Hurl : data_url ("data:" ++ media_type ++ ";base64," ++ data)
                     media_type data).
    { exists "". rewrite append_nil_r. repeat split; auto. }
    apply (o2g_image_url_item
             [("type", JStr "image_url");
              ("image_url",
               JObj [("url",
                      JStr ("data:" ++ media_type ++ ";base64," ++ data))])]
             [("url", JStr ("data:" ++ media_type ++ ";base64," ++ data))]
             ("data:" ++ media_type ++ ";base64," ++ data)
             eq_refl eq_refl eq_refl).
    exact Hurl.
  - unfold ClaudeToGemini.convert_item. cbn [py_get bind]. rewrite Ht, Hs.
    cbn [eq_str String.eqb Ascii.eqb Bool.eqb py_get bind].
    now rewrite Hm, Hd.
Qed.

Lemma image_block_round_trip_sample :
  let block :=
    [("type", JStr "image");
     ("source",
      JObj [("type", JStr "base64"); ("media_type", JStr "image/png");
            ("data", JStr "iVBORw0KGgo=")])] in
  exists part,
    ClaudeToOpenAI.convert_item (rt := sample_runtime) (JObj block)
    = Some [part] /\
    part = JObj [("type", JStr "image_url");
                 ("image_url",
                  JObj [("url",
                         JStr "data:image/png;base64,iVBORw0KGgo=")])] /\
    OpenAIToGemini.convert_item part
    = Some [inline_data "image/png" "iVBORw0KGgo="] /\
    ClaudeToGemini.convert_item (JObj block)
    = Some [inline_data "image/png" "iVBORw0KGgo="].
Proof.
  intros block.
  destruct (image_block_round_trip (rt := sample_runtime) block
              [("type", JStr "base64"); ("media_type", JStr "image/png");
               ("data", JStr "iVBORw0KGgo=")] "image/png" "iVBORw0KGgo="
              eq_refl eq_refl eq_refl eq_refl eq_refl)
    as (part & Hp & Ho & Hg); try discriminate; try reflexivity.
  exists part. split; [exact Hp|]. split; [|split; assumption].
  vm_compute in Hp. now inversion Hp.
Defined.

(* ================================================================== *)
(** * What the repair pass leaves behind *)
(* ================================================================== *)

(** The declarations the repair pass knows by name, each with the
    parameter name it takes out of [required]. *)
Definition stale_names : list (string * string) :=
  [("segment_anything", "object"); ("Pira_image2image", "cfg");
   ("gemini_edit", "image"); ("outpaint", "prompt")].

(** [func['parameters']['properties']['images'].get('type')] *)
Definition images_type (func : json) : py json :=
  params <- py_getitem func "parameters" ;;
  props <- py_getitem params "properties" ;;
  images <- py_getitem props "images" ;;
  py_get images "type" JNull.

(** [func['parameters'][k]] *)
Definition parameter_field (func : json) (k : string) : py json :=
  params <- py_getitem func "parameters" ;; py_getitem params k.

Lemma fix_declaration_stale (name stale : string) (func func' : json) :
  In (name, stale) stale_names ->
  py_get func "name" JNull = Some (JStr name) ->
  GeminiRepair.fix_declaration func = Some func' ->
  GeminiRepair.required_mentions func' stale = Some false.
Proof.
  intros Hin Hname H. unfold GeminiRepair.fix_declaration in H.
  rewrite Hname in H. cbn [bind] in H.
  destruct Hin as [E|[E|[E|[E|[]]]]]; inversion E; subst name stale; clear E;
    cbn [eq_str String.eqb Ascii.eqb Bool.eqb] in H.
  - apply required_patch_done in H; [tauto|].
    intros. apply existsb_renamed. discriminate.
  - apply required_patch_done in H; [tauto|].
    intros. apply existsb_without.
  - py_bind H as c Hc. py_bind H as func1 H1.
    assert (H1' : (c <- GeminiRepair.required_mentions func "image" ;;
                   if c
                   then GeminiRepair.set_required func
                          (GeminiRepair.renamed "image" "images")
                   else Some func) = Some func1)
      by (rewrite Hc; exact H1).
    apply required_patch_done in H1';
      [|intros; apply existsb_renamed; discriminate].
    rewrite (fix_images_type_required _ _ _ H). tauto.
  - apply required_patch_done in H; [tauto|].
    intros. apply existsb_renamed. discriminate.
Qed.

Lemma c2o_fix_declaration_stale (name stale : string) (func func' : json) :
  In (name, stale) stale_names ->
  py_get func "name" JNull = Some (JStr name) ->
  ClaudeToOpenAI.fix_declaration func = Some func' ->
  ClaudeToOpenAI.required_mentions func' stale = Some false.
Proof.
  intros Hin Hname H. unfold ClaudeToOpenAI.fix_declaration in H.
  rewrite Hname in H. cbn [bind] in H.
  destruct Hin as [E|[E|[E|[E|[]]]]]; inversion E; subst name stale; clear E;
    cbn [eq_str String.eqb Ascii.eqb Bool.eqb] in H.
  - apply c2o_required_patch_done in H; [tauto|].
    intros. apply existsb_renamed. discriminate.
  - apply c2o_required_patch_done in H; [tauto|].
    intros. apply existsb_without.
  - py_bind H as c Hc. py_bind H as func1 H1.
    assert (H1' : (c <- ClaudeToOpenAI.required_mentions func "image" ;;
                   if c
                   then GeminiRepair.set_required func
                          (GeminiRepair.renamed "image" "images")
                   else Some func) = Some func1)
      by (rewrite Hc; exact H1).
    apply c2o_required_patch_done in H1';
      [|intros; apply existsb_renamed; discriminate].
    destruct (c2o_fix_images_type_done _ _ H) as (_ & Hreq & _).
    rewrite Hreq. tauto.
  - apply c2o_required_patch_done in H; [tauto|].
    intros. apply existsb_renamed. discriminate.
Qed.

(** X11.  After the repair pass no declaration it knows by name still lists
    the stale parameter name as required: [object] for
    [segment_anything], [cfg] for [Pira_image2image], [image] for
    [gemini_edit], [prompt] for [outpaint].  This holds of the pass of
    the Gemini converters and of that of the Claude to OpenAI
    converter. *)
Theorem stale_required_removed (name stale : string) (func func' : json) :
  In (name, stale) stale_names ->
  py_get func "name" JNull = Some (JStr name) ->
  (GeminiRepair.fix_declaration func = Some func' ->
   GeminiRepair.required_mentions func' stale = Some false) /\
  (ClaudeToOpenAI.fix_declaration func = Some func' ->
   ClaudeToOpenAI.required_mentions func' stale = Some false).
Proof.
  intros Hin Hname. split.
  - now apply fix_declaration_stale with (name := name).
  - now apply c2o_fix_declaration_stale with (name := name).
Qed.

Definition stale_outpaint : json :=
  JObj [("name", JStr "outpaint");
        ("parameters",
         JObj [("type", JStr "object");
               ("required", JArr [JStr "image"; JStr "prompt"])])].

Definition fixed_outpaint : json :=
  JObj [("name", JStr "outpaint");
        ("parameters",
         JObj [("type", JStr "object");
               ("required", JArr [JStr "image"; JStr "english_prompt"])])].

Lemma stale_required_removed_sample :
  (GeminiRepair.fix_declaration stale_outpaint = Some fixed_outpaint /\
   GeminiRepair.required_mentions stale_outpaint "prompt" = Some true /\
   GeminiRepair.required_mentions fixed_outpaint "prompt" = Some false) /\
  (ClaudeToOpenAI.fix_declaration stale_outpaint = Some fixed_outpaint /\
   ClaudeToOpenAI.required_mentions fixed_outpaint "prompt" = Some false).
Proof.
  assert (Hin : In ("outpaint", "prompt") stale_names)
    by (right; right; right; left; reflexivity).
  destruct (stale_required_removed "outpaint" "prompt" stale_outpaint
              fixed_outpaint Hin eq_refl) as [Hg Ho].
  split.
  - split; [reflexivity|]. split; [reflexivity|]. exact (Hg eq_refl).
  - split; [reflexivity|]. exact (Ho eq_refl).
Defined.

Lemma images_type_field (func : json) :
  images_type func
  = (props <- parameter_field func "properties" ;;
     images <- py_getitem props "images" ;;
     py_get images "type" JNull).
Proof.
  unfold images_type, parameter_field.
  now destruct (py_getitem func "parameters").
Qed.

Lemma set_required_images_type (func func' : json) (f : list json -> list json) :
  GeminiRepair.set_required func f = Some func' ->
  images_type func' = images_type func.
Proof.
  unfold GeminiRepair.set_required. intros H.
  py_bind H as params Hp. py_bind H as req Hreq. py_bind H as items Hitems.
  py_bind H as params' Hp'.
  rewrite !images_type_field. unfold parameter_field. rewrite Hp. cbn [bind].
  py_some. dict_run. reflexivity.
Qed.

Lemma fix_images_type_value (func func' : json) :
  GeminiRepair.fix_images_type func = Some func' ->
  images_type func'
  = (ty <- images_type func ;; Some (if is_list ty then JStr "array" else ty)).
Proof.
  unfold GeminiRepair.fix_images_type. intros H.
  py_bind H as params Hp. py_bind H as c1 Hc1. py_bind H as c2 Hc2.
  destruct c2.
  - py_bind H as props Hprops. py_bind H as images Himages.
    py_bind H as ty0 Hty0.
    assert (Hold : images_type func = Some ty0).
    { unfold images_type. rewrite Hp. cbn [bind]. rewrite Hprops. cbn [bind].
      rewrite Himages. cbn [bind]. exact Hty0. }
    rewrite Hold. cbn [bind].
    destruct (is_list ty0) eqn:Hl.
    + py_bind H as images' Hi'. py_bind H as props' Hp'.
      py_bind H as params' Hpa'.
      py_some. unfold images_type. dict_run. reflexivity.
    + injection H as <-. exact Hold.
  - injection H as <-.
    assert (Hnone : images_type func = None).
    { unfold images_type. rewrite Hp. cbn [bind].
      destruct c1.
      - py_bind Hc2 as props Hprops. cbn [bind].
        destruct props as [| | | | |pkv]; try reflexivity.
        cbn [py_in py_getitem bind] in *. injection Hc2 as Hhas.
        unfold dict_has in Hhas.
        destruct (dict_lookup "images" pkv); [discriminate | reflexivity].
      - destruct params as [| | | | |pkv]; try reflexivity.
        cbn [py_in py_getitem bind] in *. injection Hc1 as Hhas.
        unfold dict_has in Hhas.
        destruct (dict_lookup "properties" pkv); [discriminate | reflexivity]. }
    rewrite Hnone. reflexivity.
Qed.

Lemma c2o_fix_images_type_value (func func' : json) :
  ClaudeToOpenAI.fix_images_type func = Some func' ->
  images_type func'
  = (ty <- images_type func ;; Some (if is_list ty then JStr "array" else ty)).
Proof.
  unfold ClaudeToOpenAI.fix_images_type. intros H. py_bind H as c Hc.
  destruct c; [now apply fix_images_type_value|].
  injection H as <-.
  assert (Hnone : images_type func = None).
  { unfold images_type.
    destruct func as [| | | | |fkv]; try reflexivity.
    cbn [py_in py_getitem] in *. injection Hc as Hhas.
    unfold dict_has in Hhas.
    destruct (dict_lookup "parameters" fkv); [discriminate | reflexivity]. }
  rewrite Hnone. reflexivity.
Qed.

(** X12.  The [type] of the [images] property of a [gemini_edit]
    declaration through the repair pass, in the Gemini converters and
    in the Claude to OpenAI converter: a list such as
    [["array", "null"]] has become the string ["array"], any other
    type is left as it was, and a declaration without such a type is
    given none.  So after the pass the type is never a list. *)
Theorem images_type_not_list (func func' : json) :
  py_get func "name" JNull = Some (JStr "gemini_edit") ->
  GeminiRepair.fix_declaration func = Some func' \/
  ClaudeToOpenAI.fix_declaration func = Some func' ->
  images_type func'
  = (ty <- images_type func ;; Some (if is_list ty then JStr "array" else ty)) /\
  (forall ty, images_type func' = Some ty -> is_list ty = false).
Proof.
  intros Hname Hfix.
  assert (Hvalue : images_type func'
                   = (ty <- images_type func ;;
                      Some (if is_list ty then JStr "array" else ty))).
  { destruct Hfix as [H|H].
    - unfold GeminiRepair.fix_declaration in H. rewrite Hname in H.
      cbn [bind eq_str String.eqb Ascii.eqb Bool.eqb] in H.
      py_bind H as c Hc. py_bind H as func1 H1.
      rewrite (fix_images_type_value _ _ H).
      destruct c; [|now injection H1 as <-].
      now rewrite (set_required_images_type _ _ _ H1).
    - unfold ClaudeToOpenAI.fix_declaration in H. rewrite Hname in H.
      cbn [bind eq_str String.eqb Ascii.eqb Bool.eqb] in H.
      py_bind H as c Hc. py_bind H as func1 H1.
      rewrite (c2o_fix_images_type_value _ _ H).
      destruct c; [|now injection H1 as <-].
      now rewrite (set_required_images_type _ _ _ H1). }
  split; [exact Hvalue|].
  intros ty Hty. rewrite Hvalue in Hty.
  destruct (images_type func) as [ty0|]; [|discriminate Hty].
  cbn [bind] in Hty. injection Hty as <-.
  now destruct (is_list ty0) eqn:Hl.
Qed.

Lemma images_type_not_list_sample :
  let plain :=
    JObj [("name", JStr "gemini_edit");
          ("parameters",
           JObj [("properties",
                  JObj [("images", JObj [("type", JStr "string")])])])] in
  images_type stale_gemini_edit = Some (JArr [JStr "array"; JStr "null"]) /\
  GeminiRepair.fix_declaration stale_gemini_edit = Some fixed_gemini_edit /\
  images_type fixed_gemini_edit = Some (JStr "array") /\
  is_list (JStr "array") = false /\
  ClaudeToOpenAI.fix_declaration plain = Some plain /\
  images_type plain = Some (JStr "string").
Proof.
  intros plain.
  destruct (images_type_not_list stale_gemini_edit fixed_gemini_edit
              eq_refl (or_introl eq_refl)) as [Hvalue Hnot].
  split; [reflexivity|]. split; [reflexivity|]. split; [exact Hvalue|].
  split; [exact (Hnot _ Hvalue)|]. split; [reflexivity|].
  exact (proj1 (images_type_not_list plain plain eq_refl (or_intror eq_refl))).
Defined.

Lemma set_required_frame (func func' : json) (f : list json -> list json) :
  GeminiRepair.set_required func f = Some func' ->
  (forall k d, k <> "parameters" -> py_get func' k d = py_get func k d) /\
  (forall k, k <> "required" -> parameter_field func' k = parameter_field func k).
Proof.
  unfold GeminiRepair.set_required. intros H.
  py_bind H as params Hp. py_bind H as req Hreq. py_bind H as items Hitems.
  py_bind H as params' Hp'. py_some.
  split.
  - intros k d Hk. cbn [py_get].
    rewrite dict_lookup_set_other by congruence. reflexivity.
  - intros k Hk. unfold parameter_field. cbn [py_getitem] in *.
    rewrite dict_lookup_set_same, Hp. cbn [bind py_getitem].
    apply dict_lookup_set_other. congruence.
Qed.

Lemma fix_images_type_frame (func func' : json) :
  GeminiRepair.fix_images_type func = Some func' ->
  (forall k d, k <> "parameters" -> py_get func' k d = py_get func k d) /\
  (forall k, k <> "properties" ->
             parameter_field func' k = parameter_field func k).
Proof.
  unfold GeminiRepair.fix_images_type. intros H.
  py_bind H as params Hp. py_bind H as c1 Hc1. py_bind H as c2 Hc2.
  destruct c2; [|inversion H; subst; split; reflexivity].
  py_bind H as props Hprops. py_bind H as images Himages.
  py_bind H as ty0 Hty0.
  destruct (is_list ty0); [|inversion H; subst; split; reflexivity].
  py_bind H as images' Hi'. py_bind H as props' Hp'.
  py_bind H as params' Hpa'. py_some.
  split.
  - intros k d Hk. cbn [py_get].
    rewrite dict_lookup_set_other by congruence. reflexivity.
  - intros k Hk. unfold parameter_field. cbn [py_getitem] in *.
    rewrite dict_lookup_set_same, Hp. cbn [bind py_getitem].
    apply dict_lookup_set_other. congruence.
Qed.

Lemma required_patch_frame (func func' : json) (c : bool)
    (f : list json -> list json) :
  (if c then GeminiRepair.set_required func f else Some func) = Some func' ->
  (forall k d, k <> "parameters" -> py_get func' k d = py_get func k d) /\
  (forall k, k <> "required" -> parameter_field func' k = parameter_field func k).
Proof.
  destruct c; [apply set_required_frame|].
  intros H. inversion H. split; reflexivity.
Qed.

Lemma fix_declaration_frame (func func' : json) :
  GeminiRepair.fix_declaration func = Some func' ->
  (forall k d, k <> "parameters" -> py_get func' k d = py_get func k d) /\
  (forall k, k <> "required" -> k <> "properties" ->
             parameter_field func' k = parameter_field func k).
Proof.
  unfold GeminiRepair.fix_declaration. intros H.
  py_bind H as name Hname.
  destruct (eq_str name "segment_anything").
  { py_bind H as c Hc. destruct (required_patch_frame _ _ _ _ H). auto. }
  destruct (eq_str name "Pira_image2image").
  { py_bind H as c Hc. destruct (required_patch_frame _ _ _ _ H). auto. }
  destruct (eq_str name "gemini_edit").
  { py_bind H as c Hc. py_bind H as func1 H1.
    destruct (required_patch_frame _ _ _ _ H1) as [A1 B1].
    destruct (fix_images_type_frame _ _ H) as [A2 B2].
    split.
    - intros k d Hk. now rewrite A2, A1.
    - intros k Hr Hp. now rewrite B2, B1. }
  destruct (eq_str name "outpaint").
  { py_bind H as c Hc. destruct (required_patch_frame _ _ _ _ H). auto. }
  inversion H. split; reflexivity.
Qed.

Lemma c2o_fix_declaration_frame (func func' : json) :
  ClaudeToOpenAI.fix_declaration func = Some func' ->
  (forall k d, k <> "parameters" -> py_get func' k d = py_get func k d) /\
  (forall k, k <> "required" -> k <> "properties" ->
             parameter_field func' k = parameter_field func k).
Proof.
  unfold ClaudeToOpenAI.fix_declaration. intros H.
  py_bind H as name Hname.
  destruct (eq_str name "segment_anything").
  { py_bind H as c Hc. destruct (required_patch_frame _ _ _ _ H). auto. }
  destruct (eq_str name "Pira_image2image").
  { py_bind H as c Hc. destruct (required_patch_frame _ _ _ _ H). auto. }
  destruct (eq_str name "gemini_edit").
  { py_bind H as c Hc. py_bind H as func1 H1.
    destruct (required_patch_frame _ _ _ _ H1) as [A1 B1].
    unfold ClaudeToOpenAI.fix_images_type in H. py_bind H as c0 Hc0.
    destruct c0.
    - destruct (fix_images_type_frame _ _ H) as [A2 B2].
      split.
      + intros k d Hk. now rewrite A2, A1.
      + intros k Hr Hp. now rewrite B2, B1.
    - inversion H; subst func1. auto. }
  destruct (eq_str name "outpaint").
  { py_bind H as c Hc. destruct (required_patch_frame _ _ _ _ H). auto. }
  inversion H. split; reflexivity.
Qed.

(** X13.  What the repair pass never touches.  In a request, every field
    other than [contents] and [tools] (for the Claude to OpenAI pass:
    other than [tools]) keeps its value.  In a declaration, every field
    other than [parameters] keeps its value (the name and the
    description among them), and inside [parameters] every field other
    than [required] and [properties]. *)
Theorem repair_frame :
  (forall r out k,
     GeminiRepair.fix_request_issues r = Some out ->
     k <> "contents" -> k <> "tools" -> py_getitem out k = py_getitem r k) /\
  (forall r out k,
     ClaudeToOpenAI.fix_request_issues r = Some out ->
     k <> "tools" -> py_getitem out k = py_getitem r k) /\
  (forall func func',
     GeminiRepair.fix_declaration func = Some func' \/
     ClaudeToOpenAI.fix_declaration func = Some func' ->
     (forall k d, k <> "parameters" -> py_get func' k d = py_get func k d) /\
     (forall k, k <> "required" -> k <> "properties" ->
                parameter_field func' k = parameter_field func k)).
Proof.
  split; [|split].
  - intros r out k H Hc Ht. now apply fix_request_issues_getitem_other.
  - intros r out k H Ht. unfold ClaudeToOpenAI.fix_request_issues in H.
    apply (on_list_field_getitem_other _ k _ _ _ H). congruence.
  - intros func func' [H|H].
    + now apply fix_declaration_frame.
    + now apply c2o_fix_declaration_frame.
Qed.

Lemma repair_frame_sample :
  let request :=
    JObj [("contents", JArr [JObj [("role", JStr "user"); ("parts", JArr [])]]);
          ("systemInstruction", JStr "kept");
          ("tools",
           JArr [JObj [("functionDeclarations", JArr [stale_gemini_edit])]])] in
  let openai_request :=
    JObj [("messages", JArr [JStr "kept"]);
          ("tools",
           JArr [JObj [("type", JStr "function");
                       ("function", stale_gemini_edit)]])] in
  (exists out,
     GeminiRepair.fix_request_issues request = Some out /\
     py_getitem out "contents" = Some (JArr []) /\
     py_getitem out "systemInstruction" = Some (JStr "kept")) /\
  (exists out,
     ClaudeToOpenAI.fix_request_issues openai_request = Some out /\
     py_getitem out "messages" = Some (JArr [JStr "kept"])) /\
  (GeminiRepair.fix_declaration stale_gemini_edit = Some fixed_gemini_edit /\
   py_get fixed_gemini_edit "description" JNull = Some (JStr "Edits images") /\
   parameter_field fixed_gemini_edit "type" = Some (JStr "object")).
Proof.
  intros request openai_request.
  destruct repair_frame as (Hg & Ho & Hd).
  split; [|split].
  - eexists. split; [reflexivity|]. split; [reflexivity|].
    rewrite (Hg request _ "systemInstruction" eq_refl) by discriminate.
    reflexivity.
  - eexists. split; [reflexivity|].
    rewrite (Ho openai_request _ "messages" eq_refl) by discriminate.
    reflexivity.
  - split; [reflexivity|].
    destruct (Hd stale_gemini_edit fixed_gemini_edit (or_introl eq_refl))
      as [Hk Hp].
    split.
    + rewrite Hk by discriminate. reflexivity.
    + rewrite Hp by discriminate. reflexivity.
Defined.

(* ================================================================== *)
(** * Enum values of a parameter schema *)
(* ================================================================== *)

(** Induction on a JSON value, with the property at hand for the
    elements of a list and for the values of a dict. *)
Section JsonInduction.
Variable P : json -> Prop.
Hypothesis Hnull : P JNull.
Hypothesis Hbool : forall b, P (JBool b).
Hypothesis Hint : forall n, P (JInt n).
Hypothesis Hstr : forall s, P (JStr s).
Hypothesis Harr : forall l, Forall P l -> P (JArr l).
Hypothesis Hobj : forall kv, Forall (fun p => P (snd p)) kv -> P (JObj kv).

Fixpoint json_induction (v : json) : P v :=
  match v with
  | JNull => Hnull
  | JBool b => Hbool b
  | JInt n => Hint n
  | JStr s => Hstr s
  | JArr l =>
      Harr l ((fix elements (l : list json) : Forall P l :=
                 match l with
                 | [] => Forall_nil P
                 | x :: t => Forall_cons x (json_induction x) (elements t)
                 end) l)
  | JObj kv =>
      Hobj kv ((fix values (kv : list (string * json))
                  : Forall (fun p => P (snd p)) kv :=
                  match kv with
                  | [] => Forall_nil _
                  | p :: t => Forall_cons p (json_induction (snd p)) (values t)
                  end) kv)
  end.

End JsonInduction.

(** One step of [convert_enum_values]: [if k in d and ...: d[k] = ...],
    with [g] the new value, if the test on the old one passes. *)
Definition updated (k : string) (g : json -> option json)
    (d : list (string * json)) : list (string * json) :=
  match dict_lookup k d with
  | Some v =>
      match g v with
      | Some v' => dict_set k v' d
      | None => d
      end
  | None => d
  end.

Lemma updated_same (k : string) (g : json -> option json)
    (d : list (string * json)) :
  dict_lookup k (updated k g d)
  = match dict_lookup k d with
    | Some v => match g v with Some v' => Some v' | None => Some v end
    | None => None
    end.
Proof.
  unfold updated. destruct (dict_lookup k d) as [v|] eqn:E; [|exact E].
  destruct (g v); [apply dict_lookup_set_same | exact E].
Qed.

Lemma updated_other (k k' : string) (g : json -> option json)
    (d : list (string * json)) :
  k <> k' -> dict_lookup k' (updated k g d) = dict_lookup k' d.
Proof.
  intros Hne. unfold updated. destruct (dict_lookup k d) as [v|]; [|reflexivity].
  destruct (g v); [now apply dict_lookup_set_other | reflexivity].
Qed.

Lemma updated_keys (k : string) (g : json -> option json)
    (d : list (string * json)) :
  map fst (updated k g d) = map fst d.
Proof.
  unfold updated. destruct (dict_lookup k d) as [v|] eqn:E; [|reflexivity].
  destruct (g v); [|reflexivity].
  apply dict_set_keys. eapply dict_has_lookup; eauto.
Qed.

Section EnumSteps.
Context {rt : PyRuntime}.

Definition enum_strings (v : json) : option json :=
  match v with
  | JArr vals => Some (JArr (map (fun val => JStr (py_str val)) vals))
  | _ => None
  end.

Definition converted_properties (self : json -> json) (v : json) : option json :=
  match v with
  | JObj props => Some (JObj (map (fun '(key, val) => (key, self val)) props))
  | _ => None
  end.

Definition converted_extra (self : json -> json) (v : json) : option json :=
  match v with
  | JObj _ => Some (self v)
  | _ => None
  end.

Lemma convert_enum_values_steps (kv : list (string * json)) :
  OpenAIToGemini.convert_enum_values (JObj kv)
  = JObj (updated "additionalProperties"
            (converted_extra OpenAIToGemini.convert_enum_values)
            (updated "items"
               (fun v => Some (OpenAIToGemini.convert_enum_values v))
               (updated "properties"
                  (converted_properties OpenAIToGemini.convert_enum_values)
                  (updated "enum" enum_strings kv)))).
Proof.
  rewrite convert_enum_values_eq.
  unfold OpenAIToGemini.convert_enum_values_body. cbv zeta. f_equal.
  set (s1 := match dict_lookup "enum" kv with
             | Some (JArr vals) =>
                 dict_set "enum" (JArr (map (fun val => JStr (py_str val)) vals)) kv
             | _ => kv
             end).
  assert (E1 : s1 = updated "enum" enum_strings kv).
  { unfold s1, updated, enum_strings.
    now destruct (dict_lookup "enum" kv) as [[| | | | |]|]. }
  rewrite <- E1. clearbody s1.
  set (s2 := match dict_lookup "properties" s1 with
             | Some (JObj props) =>
                 dict_set "properties"
                   (JObj (map (fun '(key, val) =>
                             (key, OpenAIToGemini.convert_enum_values val)) props))
                   s1
             | _ => s1
             end).
  assert (E2 : s2 = updated "properties"
                      (converted_properties OpenAIToGemini.convert_enum_values)
                      s1).
  { unfold s2, updated, converted_properties.
    now destruct (dict_lookup "properties" s1) as [[| | | | |]|]. }
  rewrite <- E2. clearbody s2.
  set (s3 := match dict_lookup "items" s2 with
             | Some items =>
                 dict_set "items" (OpenAIToGemini.convert_enum_values items) s2
             | None => s2
             end).
  assert (E3 : s3 = updated "items"
                      (fun v => Some (OpenAIToGemini.convert_enum_values v)) s2)
    by reflexivity.
  rewrite <- E3. clearbody s3.
  unfold updated, converted_extra.
  now destruct (dict_lookup "additionalProperties" s3) as [[| | | | |]|].
Qed.

(** The fields of a converted schema: the four that
    [convert_enum_values] rewrites, and the rest. *)
Lemma convert_enum_values_fields (kv : list (string * json)) :
  exists kv',
    OpenAIToGemini.convert_enum_values (JObj kv) = JObj kv' /\
    map fst kv' = map fst kv /\
    dict_lookup "enum" kv'
    = match dict_lookup "enum" kv with
      | Some (JArr vals) =>
          Some (JArr (map (fun val => JStr (py_str val)) vals))
      | other => other
      end /\
    dict_lookup "properties" kv'
    = match dict_lookup "properties" kv with
      | Some (JObj props) =>
          Some (JObj (map (fun '(key, val) =>
                             (key, OpenAIToGemini.convert_enum_values val))
                        props))
      | other => other
      end /\
    dict_lookup "items" kv'
    = option_map OpenAIToGemini.convert_enum_values (dict_lookup "items" kv) /\
    dict_lookup "additionalProperties" kv'
    = match dict_lookup "additionalProperties" kv with
      | Some (JObj extra) =>
          Some (OpenAIToGemini.convert_enum_values (JObj extra))
      | other => other
      end /\
    (forall k, k <> "enum" -> k <> "properties" -> k <> "items" ->
               k <> "additionalProperties" ->
               dict_lookup k kv' = dict_lookup k kv).
Proof.
  eexists. split; [apply convert_enum_values_steps|].
  split; [now rewrite !updated_keys|].
  split; [|split; [|split; [|split]]].
  - rewrite !updated_other by discriminate. rewrite updated_same.
    unfold enum_strings.
    now destruct (dict_lookup "enum" kv) as [[| | | | |]|].
  - rewrite !updated_other by discriminate. rewrite updated_same.
    rewrite updated_other by discriminate. unfold converted_properties.
    now destruct (dict_lookup "properties" kv) as [[| | | | |]|].
  - rewrite updated_other by discriminate. rewrite updated_same.
    rewrite !updated_other by discriminate.
    now destruct (dict_lookup "items" kv).
  - rewrite updated_same. rewrite !updated_other by discriminate.
    unfold converted_extra.
    now destruct (dict_lookup "additionalProperties" kv) as [[| | | | |]|].
  - intros k H1 H2 H3 H4. rewrite !updated_other by congruence. reflexivity.
Qed.

Lemma dict_lookup_In (k : string) (v : json) (kv : list (string * json)) :
  dict_lookup k kv = Some v -> In (k, v) kv.
Proof.
  induction kv as [|[k0 v0] t IH]; simpl; [discriminate|].
  destruct (String.eqb_spec k0 k) as [->|Hne].
  - intros H. inversion H. now left.
  - intros H. right. auto.
Qed.

Lemma convert_enum_values_strings (schema : json) :
  string_enums (OpenAIToGemini.convert_enum_values schema).
Proof.
  assert (H : string_enums (OpenAIToGemini.convert_enum_values schema) /\
              match schema with
              | JObj kv =>
                  Forall (fun p => string_enums
                                     (OpenAIToGemini.convert_enum_values (snd p)))
                    kv
              | _ => True
              end); [|tauto].
  induction schema as [| | | |l _|kv IH] using json_induction;
    try (split; [now apply string_enums_leaf | exact I]).
  assert (Hvals : Forall (fun p => string_enums
                                     (OpenAIToGemini.convert_enum_values (snd p)))
                    kv).
  { eapply Forall_impl; [|exact IH]. intros p Hp. exact (proj1 Hp). }
  split; [|exact Hvals].
  destruct (convert_enum_values_fields kv)
    as (kv' & -> & _ & Henum & Hprops & Hitems & Hextra & _).
  rewrite Forall_forall in Hvals, IH.
  apply string_enums_dict.
  - intros vals v Hl Hin. rewrite Henum in Hl.
    destruct (dict_lookup "enum" kv) as [[| | | |vals0|]|];
      try discriminate Hl.
    inversion Hl; subst vals. apply in_map_iff in Hin.
    destruct Hin as (v0 & <- & _). reflexivity.
  - intros props key val Hl Hin. rewrite Hprops in Hl.
    destruct (dict_lookup "properties" kv) as [[| | | | |props0]|] eqn:Hp;
      try discriminate Hl.
    inversion Hl; subst props. apply in_map_iff in Hin.
    destruct Hin as ([key0 val0] & Heq & Hin0). inversion Heq; subst key val.
    apply dict_lookup_In in Hp. destruct (IH _ Hp) as [_ Hgrand].
    cbn [snd] in Hgrand. rewrite Forall_forall in Hgrand.
    exact (Hgrand _ Hin0).
  - intros items Hl. rewrite Hitems in Hl.
    destruct (dict_lookup "items" kv) as [items0|] eqn:Hi; [|discriminate Hl].
    inversion Hl. apply dict_lookup_In in Hi. exact (Hvals _ Hi).
  - intros extra Hl. rewrite Hextra in Hl.
    destruct (dict_lookup "additionalProperties" kv) as [[| | | | |extra0]|] eqn:He;
      try discriminate Hl.
    assert (Hx : OpenAIToGemini.convert_enum_values (JObj extra0) = JObj extra)
      by congruence.
    apply dict_lookup_In in He. rewrite <- Hx. exact (Hvals _ He).
Qed.

End EnumSteps.

(** X14.  [convert_enum_values] does what it is for, and no more.  In the
    schema it returns, every [enum] list it reaches (at the root, under
    the values of [properties], under [items] and under
    [additionalProperties]) holds strings only; converting a second
    time changes nothing; and a schema keeps its fields, in order, and
    the values of all fields other than the four named. *)
Theorem convert_enum_values_result {rt : PyRuntime} :
  (forall schema, string_enums (OpenAIToGemini.convert_enum_values schema)) /\
  (forall schema,
     OpenAIToGemini.convert_enum_values
       (OpenAIToGemini.convert_enum_values schema)
     = OpenAIToGemini.convert_enum_values schema) /\
  (forall schema,
     keys_of (OpenAIToGemini.convert_enum_values schema) = keys_of schema /\
     is_dict (OpenAIToGemini.convert_enum_values schema) = is_dict schema) /\
  (forall schema k,
     k <> "enum" -> k <> "properties" -> k <> "items" ->
     k <> "additionalProperties" ->
     py_getitem (OpenAIToGemini.convert_enum_values schema) k
     = py_getitem schema k) /\
  (forall schema,
     is_dict schema = false ->
     OpenAIToGemini.convert_enum_values schema = schema).
Proof.
  split; [|split; [|split; [|split]]].
  - apply convert_enum_values_strings.
  - intros schema. apply convert_enum_values_string_enums.
    apply convert_enum_values_strings.
  - intros schema. destruct schema as [| | | | |kv]; try (split; reflexivity).
    destruct (convert_enum_values_fields kv) as (kv' & -> & Hk & _).
    split; [exact Hk | reflexivity].
  - intros schema k H1 H2 H3 H4.
    destruct schema as [| | | | |kv]; try reflexivity.
    destruct (convert_enum_values_fields kv)
      as (kv' & -> & _ & _ & _ & _ & _ & Hother).
    now apply Hother.
  - intros schema Hd. destruct schema; try reflexivity. discriminate Hd.
Qed.

Lemma convert_enum_values_result_sample :
  let schema :=
    JObj [("type", JStr "object");
          ("properties",
           JObj [("level",
                  JObj [("type", JStr "integer");
                        ("enum", JArr [JInt 1; JInt 2])])]);
          ("items", JObj [("enum", JArr [JBool true; JNull])])] in
  let converted :=
    JObj [("type", JStr "object");
          ("properties",
           JObj [("level",
                  JObj [("type", JStr "integer");
                        ("enum", JArr [JStr "1"; JStr "2"])])]);
          ("items", JObj [("enum", JArr [JStr "True"; JStr "None"])])] in
  OpenAIToGemini.convert_enum_values (rt := sample_runtime) schema = converted /\
  OpenAIToGemini.convert_enum_values (rt := sample_runtime) converted = converted /\
  keys_of converted = keys_of schema /\
  py_getitem converted "type" = py_getitem schema "type" /\
  OpenAIToGemini.convert_enum_values (rt := sample_runtime)
    (JArr [JObj [("enum", JArr [JInt 1])]])
  = JArr [JObj [("enum", JArr [JInt 1])]].
Proof.
  intros schema converted.
  destruct (convert_enum_values_result (rt := sample_runtime))
    as (_ & Hidem & Hkeys & Hother & Hplain).
  split; [reflexivity|]. split; [exact (Hidem schema)|].
  split; [exact (proj1 (Hkeys schema))|].
  split; [apply (Hother schema "type"); discriminate|].
  apply Hplain. reflexivity.
Defined.

(* ================================================================== *)
(** * Tool calls *)
(* ================================================================== *)

Definition function_call (name args : json) : json :=
  JObj [("functionCall", JObj [("name", name); ("args", args)])].

Section ToolCalls.
Context {rt : PyRuntime}.

(** The arguments of a call as the OpenAI to Gemini converter reads
    them: a string is parsed as JSON, and taken for the empty object
    when it does not parse; anything else is passed on as it is. *)
Definition parsed_arguments (arguments : json) : json :=
  match arguments with
  | JStr text =>
      match json_loads text with
      | Some value => value
      | None => JObj []
      end
  | _ => arguments
  end.

(** The part made of one entry of [tool_calls]. *)
Definition call_part (tool_call : json) : json :=
  let function_data := get_or tool_call "function" (JObj []) in
  function_call (get_or function_data "name" (JStr ""))
    (parsed_arguments (get_or function_data "arguments" (JStr "{}"))).

(** An entry of [tool_calls] the converter can read: a dict whose
    [function], when it has one, is a dict. *)
Definition readable_call (tool_call : json) : bool :=
  is_dict tool_call && is_dict (get_or tool_call "function" (JObj [])).

Lemma o2g_call_part (tool_call : json) :
  readable_call tool_call = true ->
  OpenAIToGemini.convert_tool_call tool_call = Some (call_part tool_call).
Proof.
  unfold readable_call, call_part, OpenAIToGemini.convert_tool_call, get_or.
  destruct tool_call as [| | | | |kv]; try discriminate.
  cbn [is_dict andb py_get bind].
  destruct (match dict_lookup "function" kv with
            | Some v => v
            | None => JObj []
            end) as [| | | | |fkv]; try discriminate.
  intros _. cbn [py_get bind]. reflexivity.
Qed.

Lemma o2g_call_parts (calls : list json) :
  forallb readable_call calls = true ->
  mapM OpenAIToGemini.convert_tool_call calls = Some (map call_part calls).
Proof.
  induction calls as [|c rest IH]; [reflexivity|].
  cbn [forallb mapM map]. rewrite Bool.andb_true_iff. intros [Hc Hrest].
  now rewrite (o2g_call_part _ Hc), (IH Hrest).
Qed.

Lemma o2g_tool_calls_message (m : idmap) (kv : list (string * json))
    (calls : list json) (sys : option json) :
  system_role (JObj kv) = false ->
  dict_lookup "tool_calls" kv = Some (JArr calls) ->
  calls <> [] ->
  forallb readable_call calls = true ->
  OpenAIToGemini.convert_message m (JObj kv) sys
  = Some ([OpenAIToGemini.turn (o2g_role (JObj kv)) (map call_part calls)], sys).
Proof.
  intros Hsys Hcalls Hne Hread.
  unfold OpenAIToGemini.convert_message. cbn [py_get bind].
  rewrite system_role_default, Hsys.
  unfold OpenAIToGemini.tool_calls_of. cbn [py_in py_getitem bind].
  rewrite (dict_has_lookup _ _ _ Hcalls), Hcalls. cbn [bind].
  destruct calls as [|c rest]; [contradiction|].
  cbn [truthy py_iter bind].
  rewrite (o2g_call_parts _ Hread).
  rewrite <- o2g_role_of. reflexivity.
Qed.

End ToolCalls.

(** X15.  A message with tool calls, in the OpenAI to Gemini converter.
    When every entry of [tool_calls] is a dict whose [function] is a
    dict, the message becomes one turn with one [functionCall] part per
    entry, in order, whatever the arguments are: an arguments string
    that is not JSON gives the empty object, it does not stop the
    conversion.  The content of the message gives no part. *)
Theorem tool_calls_turn {rt : PyRuntime} (m : idmap)
    (kv : list (string * json)) (calls : list json) (sys : option json) :
  system_role (JObj kv) = false ->
  dict_lookup "tool_calls" kv = Some (JArr calls) ->
  calls <> [] ->
  forallb readable_call calls = true ->
  OpenAIToGemini.convert_message m (JObj kv) sys
  = Some ([OpenAIToGemini.turn (o2g_role (JObj kv)) (map call_part calls)], sys)
  /\
  (forall tool_call function_data text,
     py_get tool_call "function" (JObj []) = Some function_data ->
     py_get function_data "arguments" (JStr "{}") = Some (JStr text) ->
     json_loads text = None ->
     call_part tool_call
     = function_call (get_or function_data "name" (JStr "")) (JObj [])).
Proof.
  intros Hsys Hcalls Hne Hread. split.
  - now apply o2g_tool_calls_message.
  - intros tool_call function_data text Hf Ha Hl.
    unfold call_part, get_or. rewrite Hf, Ha. cbn [parsed_arguments].
    now rewrite Hl.
Qed.

Lemma tool_calls_turn_sample :
  let call (arguments : json) :=
    JObj [("id", JStr "c1"); ("type", JStr "function");
          ("function",
           JObj [("name", JStr "lookup"); ("arguments", arguments)])] in
  let message :=
    [("role", JStr "assistant"); ("content", JStr "Let me look.");
     ("tool_calls", JArr [call (JStr "{}"); call (JStr "{not json");
                          call (JObj [("q", JStr "x")])])] in
  OpenAIToGemini.convert_message (rt := sample_runtime) [] (JObj message) None
  = Some ([OpenAIToGemini.turn "model"
             [function_call (JStr "lookup") (JObj []);
              function_call (JStr "lookup") (JObj []);
              function_call (JStr "lookup") (JObj [("q", JStr "x")])]],
          None).
Proof.
  intros call message.
  destruct (tool_calls_turn (rt := sample_runtime) [] message
              [call (JStr "{}"); call (JStr "{not json");
               call (JObj [("q", JStr "x")])] None eq_refl eq_refl)
    as [H _]; [discriminate | reflexivity | exact H].
Defined.

(** A [tool_use] block with a string identifier and a string name. *)
Definition tool_use_block (call : string * string * json) : json :=
  let '(id, name, input) := call in
  JObj [("type", JStr "tool_use"); ("id", JStr id); ("name", JStr name);
        ("input", input)].

Definition tool_use_part (call : string * string * json) : json :=
  let '(_, name, input) := call in function_call (JStr name) input.

Section ToolUseRoundTrip.
Context {rt : PyRuntime}.

(** The OpenAI message the Claude to OpenAI converter makes of a
    [tool_use] block that stands in a message without text. *)
Definition tool_use_message (call : string * string * json) : json :=
  let '(id, name, input) := call in
  JObj [("role", JStr "assistant"); ("content", JNull);
        ("tool_calls",
         JArr [JObj [("id", JStr id); ("type", JStr "function");
                     ("function",
                      JObj [("name", JStr name);
                            ("arguments", JStr (json_dumps input))])]])].

Lemma c2g_tool_use_parts (calls : list (string * string * json)) :
  mapM ClaudeToGemini.convert_item (map tool_use_block calls)
  = Some (map (fun call => [tool_use_part call]) calls).
Proof.
  induction calls as [|[[id name] input] rest IH]; [reflexivity|].
  cbn [map mapM]. rewrite IH. reflexivity.
Qed.

Lemma c2o_tool_use_recorded (calls : list (string * string * json)) (m : idmap) :
  exists m',
    foldM ClaudeToOpenAI.record_item m (map tool_use_block calls) = Some m'.
Proof.
  revert m. induction calls as [|[[id name] input] rest IH]; intros m.
  - exists m. reflexivity.
  - cbn [map foldM].
    assert (Hr : exists m1,
               ClaudeToOpenAI.record_item m (tool_use_block (id, name, input))
               = Some m1).
    { unfold ClaudeToOpenAI.record_item, tool_use_block.
      cbn [ClaudeToOpenAI.is_block dict_lookup String.eqb Ascii.eqb Bool.eqb
           eq_str py_get bind].
      destruct (truthy (JStr id) && truthy (JStr name)); eexists; reflexivity. }
    destruct Hr as [m1 Hr]. rewrite Hr. cbn [bind]. apply IH.
Qed.

Lemma c2o_tool_use_items (calls : list (string * string * json)) :
  mapM ClaudeToOpenAI.convert_item (map tool_use_block calls)
  = Some (map (fun _ => []) calls).
Proof.
  induction calls as [|[[id name] input] rest IH]; [reflexivity|].
  cbn [map mapM]. rewrite IH. reflexivity.
Qed.

Lemma concat_nils (A B : Type) (l : list A) :
  List.concat (map (fun _ => @nil B) l) = [].
Proof. induction l; simpl; auto. Qed.

Lemma c2o_tool_use_filter (calls : list (string * string * json)) :
  filter (ClaudeToOpenAI.is_block "tool_use") (map tool_use_block calls)
  = map tool_use_block calls /\
  filter (ClaudeToOpenAI.is_block "text") (map tool_use_block calls) = [].
Proof.
  induction calls as [|[[id name] input] rest [IH1 IH2]]; [split; reflexivity|].
  cbn [map filter tool_use_block ClaudeToOpenAI.is_block dict_lookup String.eqb
       Ascii.eqb Bool.eqb eq_str].
  now rewrite IH1, IH2.
Qed.

Lemma c2o_tool_use_messages (calls : list (string * string * json)) :
  mapM (ClaudeToOpenAI.tool_call_message "") (map tool_use_block calls)
  = Some (map tool_use_message calls).
Proof.
  induction calls as [|[[id name] input] rest IH]; [reflexivity|].
  cbn [map mapM]. rewrite IH. reflexivity.
Qed.

Lemma o2g_tool_use_recorded (calls : list (string * string * json)) (m : idmap) :
  exists m',
    foldM OpenAIToGemini.record_message m (map tool_use_message calls) = Some m'.
Proof.
  revert m. induction calls as [|[[id name] input] rest IH]; intros m.
  - exists m. reflexivity.
  - cbn [map foldM].
    assert (Hr : exists m1,
               OpenAIToGemini.record_message m (tool_use_message (id, name, input))
               = Some m1).
    { unfold OpenAIToGemini.record_message, OpenAIToGemini.tool_calls_of,
        tool_use_message.
      cbn [py_in py_getitem dict_has dict_lookup String.eqb Ascii.eqb Bool.eqb
           bind truthy py_iter foldM].
      unfold OpenAIToGemini.record_call.
      cbn [py_get dict_lookup String.eqb Ascii.eqb Bool.eqb bind].
      destruct (truthy (JStr id) && truthy (JStr name)); eexists; reflexivity. }
    destruct Hr as [m1 Hr]. rewrite Hr. cbn [bind]. apply IH.
Qed.

Lemma o2g_tool_use_loop (calls : list (string * string * json)) (m : idmap)
    (acc : list json) :
  Forall (fun call => json_loads (json_dumps (snd call)) = Some (snd call))
    calls ->
  OpenAIToGemini.convert_loop m (map tool_use_message calls) acc None
  = Some ((acc ++ map (fun call =>
                         OpenAIToGemini.turn "model" [tool_use_part call])
                    calls)%list, None).
Proof.
  intros H. revert acc.
  induction H as [|[[id name] input] rest Hcall _ IH]; intros acc.
  - simpl. now rewrite app_nil_r.
  - cbn [map OpenAIToGemini.convert_loop snd] in *.
    assert (Hm : OpenAIToGemini.convert_message m
                   (tool_use_message (id, name, input)) None
                 = Some ([OpenAIToGemini.turn "model"
                            [tool_use_part (id, name, input)]], None)).
    { unfold OpenAIToGemini.convert_message, OpenAIToGemini.tool_calls_of,
        tool_use_message, tool_use_part.
      cbn [py_get py_in py_getitem dict_has dict_lookup String.eqb Ascii.eqb
           Bool.eqb bind eq_str truthy py_iter mapM
           OpenAIToGemini.gemini_role_of].
      unfold OpenAIToGemini.convert_tool_call.
      cbn [py_get dict_lookup String.eqb Ascii.eqb Bool.eqb bind].
      rewrite Hcall. reflexivity. }
    rewrite Hm. cbn [bind fst snd]. rewrite IH, <- app_assoc. reflexivity.
Qed.

End ToolUseRoundTrip.

(** X16.  Tool calls reach Gemini by way of OpenAI.  Take an assistant
    message whose content is a non-empty list of [tool_use] blocks,
    each with a string identifier, a string name and an input that
    [json.loads] reads back from what [json.dumps] writes of it.  The
    Claude to Gemini converter makes one model turn of it, with one
    [functionCall] part per block.  Converting Claude to OpenAI and
    then OpenAI to Gemini gives the same parts, with the same names and
    arguments in the same order, as one model turn each. *)
Theorem tool_use_round_trip {rt : PyRuntime}
    (calls : list (string * string * json)) :
  calls <> [] ->
  Forall (fun call => json_loads (json_dumps (snd call)) = Some (snd call))
    calls ->
  let message :=
    JObj [("role", JStr "assistant");
          ("content", JArr (map tool_use_block calls))] in
  ClaudeToGemini.convert_messages [message]
  = Some [ClaudeToGemini.turn "model" (map tool_use_part calls)] /\
  (openai <- ClaudeToOpenAI.convert_messages [message] ;;
   OpenAIToGemini.convert_messages openai)
  = Some (map (fun call => OpenAIToGemini.turn "model" [tool_use_part call])
            calls, None).
Proof.
  intros Hne Hrt message. split.
  - unfold ClaudeToGemini.convert_messages, message.
    cbn [mapM]. unfold ClaudeToGemini.convert_message.
    cbn [py_get dict_lookup String.eqb Ascii.eqb Bool.eqb bind eq_str
         ClaudeToGemini.content_parts].
    rewrite c2g_tool_use_parts. cbn [bind List.concat].
    rewrite <- (map_map tool_use_part (fun a => [a])), concat_singletons.
    now rewrite app_nil_r.
  - assert (Hc2o : ClaudeToOpenAI.convert_messages [message]
                   = Some (map tool_use_message calls)).
    { unfold ClaudeToOpenAI.convert_messages, ClaudeToOpenAI.build_tool_use_map,
        message.
      cbn [foldM]. unfold ClaudeToOpenAI.record_message.
      cbn [py_get dict_lookup String.eqb Ascii.eqb Bool.eqb bind eq_str].
      destruct (c2o_tool_use_recorded calls []) as [m Hm]. rewrite Hm.
      cbn [bind mapM]. unfold ClaudeToOpenAI.convert_message.
      cbn [py_get dict_lookup String.eqb Ascii.eqb Bool.eqb bind eq_str
           ClaudeToOpenAI.openai_content_of].
      rewrite c2o_tool_use_items. cbn [bind]. rewrite concat_nils. cbn [bind].
      destruct (c2o_tool_use_filter calls) as [-> ->].
      assert (Hb : match map tool_use_block calls with
                   | [] => false
                   | _ => true
                   end = true)
        by (destruct calls; [contradiction | reflexivity]).
      rewrite Hb. cbn [andb mapM bind str_join].
      rewrite c2o_tool_use_messages. cbn [bind List.concat].
      now rewrite app_nil_r. }
    rewrite Hc2o. cbn [bind].
    unfold OpenAIToGemini.convert_messages, OpenAIToGemini.build_tool_call_map.
    destruct (o2g_tool_use_recorded calls []) as [m Hm]. rewrite Hm.
    cbn [bind]. now rewrite (o2g_tool_use_loop _ _ _ Hrt).
Qed.

Lemma tool_use_round_trip_sample :
  let calls := [("c1", "lookup", JObj []); ("c2", "fetch", JObj [])] in
  let message :=
    JObj [("role", JStr "assistant");
          ("content", JArr (map tool_use_block calls))] in
  ClaudeToGemini.convert_messages (rt := sample_runtime) [message]
  = Some [ClaudeToGemini.turn "model"
            [function_call (JStr "lookup") (JObj []);
             function_call (JStr "fetch") (JObj [])]] /\
  (openai <- ClaudeToOpenAI.convert_messages (rt := sample_runtime) [message] ;;
   OpenAIToGemini.convert_messages (rt := sample_runtime) openai)
  = Some ([OpenAIToGemini.turn "model" [function_call (JStr "lookup") (JObj [])];
           OpenAIToGemini.turn "model" [function_call (JStr "fetch") (JObj [])]],
          None).
Proof.
  intros calls message.
  apply (tool_use_round_trip (rt := sample_runtime) calls).
  - discriminate.
  - repeat constructor.
Defined.

(* ================================================================== *)
(** * Printing the arguments of a call *)
(* ================================================================== *)














(* ================================================================== *)
(** * Reading the calls of a stored answer *)
(* ================================================================== *)

(** An entry of the lists the two extractors return. *)
Definition call_record (name arguments : json) : json :=
  JObj [("name", name); ("arguments", arguments)].



Section Extractors.
Context {rt : PyRuntime}.



End Extractors.

Section Answers.
Context {rt : PyRuntime}.





End Answers.



(** [tool_call['function'][k]], or [JNull] when the subscripts raise. *)
Definition function_field (tool_call : json) (k : string) : json :=
  match (function_data <- py_getitem tool_call "function" ;;
         py_getitem function_data k) with
  | Some v => v
  | None => JNull
  end.

Definition claude_record (tool_call : json) : json :=
  call_record (function_field tool_call "name")
    (function_field tool_call "arguments").

Section ClaudeCalls.
Context {rt : PyRuntime}.

Lemma claude_call_record (tool_call : json) (entries : list json) :
  CompareFunctionCalls.claude_call tool_call = Some entries ->
  entries = if is_function_tool tool_call then [claude_record tool_call] else [].
Proof.
  unfold CompareFunctionCalls.claude_call, is_function_tool, get_or. intros H.
  py_bind H as ty Hty. destruct (eq_str ty "function"); [|now inversion H].
  py_bind H as function_data Hf. py_bind H as name Hname.
  py_bind H as arguments Hargs. inversion H.
  unfold claude_record, function_field. rewrite Hf. cbn [bind].
  now rewrite Hname, Hargs.
Qed.

Lemma claude_call_records (tool_calls : list json) (entries : list (list json)) :
  mapM CompareFunctionCalls.claude_call tool_calls = Some entries ->
  List.concat entries = map claude_record (filter is_function_tool tool_calls).
Proof.
  revert entries. induction tool_calls as [|tc rest IH]; intros entries H.
  - inversion H. reflexivity.
  - cbn [mapM] in H. py_bind H as es Hes. py_bind H as ess Hess.
    inversion H. cbn [List.concat filter].
    rewrite (IH _ eq_refl), (claude_call_record _ _ Hes).
    now destruct (is_function_tool tc).
Qed.

Lemma mapM_In (A B : Type) (f : A -> py B) (l : list A) (l' : list B) (a : A) :
  mapM f l = Some l' -> In a l -> exists b, f a = Some b.
Proof.
  intros H. apply mapM_Forall2 in H.
  induction H as [|x y l l' Hxy _ IH]; intros Hin; [contradiction|].
  destruct Hin as [<-|Hin]; [now exists y | now apply IH].
Qed.

Lemma claude_call_fields (tool_call : json) (entries : list json) :
  CompareFunctionCalls.claude_call tool_call = Some entries ->
  is_function_tool tool_call = true ->
  exists function_data name arguments,
    py_getitem tool_call "function" = Some function_data /\
    py_getitem function_data "name" = Some name /\
    py_getitem function_data "arguments" = Some arguments /\
    claude_record tool_call = call_record name arguments.
Proof.
  unfold CompareFunctionCalls.claude_call, is_function_tool, get_or.
  intros H Hf. py_bind H as ty Hty. rewrite Hf in H.
  py_bind H as function_data Hfd. py_bind H as name Hname.
  py_bind H as arguments Hargs.
  exists function_data, name, arguments.
  unfold claude_record, function_field. rewrite Hfd. cbn [bind].
  now rewrite Hname, Hargs.
Qed.

End ClaudeCalls.

(** X19.  What the comparison reads from an answer with tool calls.
    [extract_claude_function_calls] returns one entry per tool call of
    type ["function"], in order, with the name and the arguments found
    under [function] (it raises when one of the two is missing), and
    no entry for an answer without [tool_calls].  It reads back the
    tool-call messages the Claude to OpenAI converter writes: one
    entry, with the name of the block and its input as JSON text. *)
Theorem claude_calls_read {rt : PyRuntime} :
  (forall data tool_calls calls,
     (tool_calls <- py_getitem data "tool_calls" ;; py_iter tool_calls)
     = Some tool_calls ->
     CompareFunctionCalls.extract_claude_function_calls data = Some calls ->
     calls = map claude_record (filter is_function_tool tool_calls)) /\
  (forall data,
     py_in "tool_calls" data = Some false ->
     CompareFunctionCalls.extract_claude_function_calls data = Some []) /\
  (forall text_content block message,
     ClaudeToOpenAI.tool_call_message text_content block = Some message ->
     CompareFunctionCalls.extract_claude_function_calls message
     = Some [call_record (get_or block "name" (JStr ""))
               (JStr (json_dumps (get_or block "input" (JObj []))))]) /\
  (forall data tool_calls calls tool_call,
     (tool_calls <- py_getitem data "tool_calls" ;; py_iter tool_calls)
     = Some tool_calls ->
     CompareFunctionCalls.extract_claude_function_calls data = Some calls ->
     In tool_call tool_calls ->
     is_function_tool tool_call = true ->
     exists function_data name arguments,
       py_getitem tool_call "function" = Some function_data /\
       py_getitem function_data "name" = Some name /\
       py_getitem function_data "arguments" = Some arguments /\
       claude_record tool_call = call_record name arguments).
Proof.
  split; [|split; [|split]].
  - intros data tool_calls calls Htc H.
    unfold CompareFunctionCalls.extract_claude_function_calls in H.
    py_bind H as c Hc. py_bind Htc as tcs Htcs.
    destruct c.
    + cbn [bind] in H. rewrite Htc in H. cbn [bind] in H.
      py_bind H as entries Hentries.
      inversion H. now apply claude_call_records.
    + destruct data as [| | |s|l|kv]; try discriminate Htcs.
      cbn [py_in py_getitem] in Hc, Htcs. unfold dict_has in Hc.
      rewrite Htcs in Hc. discriminate Hc.
  - intros data Hc. unfold CompareFunctionCalls.extract_claude_function_calls.
    now rewrite Hc.
  - intros text_content block message H.
    unfold ClaudeToOpenAI.tool_call_message in H.
    destruct block as [| | | | |kv]; try discriminate H.
    cbn [py_get bind] in H. inversion H. reflexivity.
  - intros data tool_calls calls tool_call Htc H Hin Hfun.
    unfold CompareFunctionCalls.extract_claude_function_calls in H.
    py_bind H as c Hc. py_bind Htc as tcs Htcs.
    destruct c.
    + cbn [bind] in H. rewrite Htc in H. cbn [bind] in H.
      py_bind H as entries Hentries.
      destruct (mapM_In _ _ _ _ _ _ Hentries Hin) as [es Hes].
      exact (claude_call_fields _ _ Hes Hfun).
    + destruct data as [| | |s|l|kv]; try discriminate Htcs.
      cbn [py_in py_getitem] in Hc, Htcs. unfold dict_has in Hc.
      rewrite Htcs in Hc. discriminate Hc.
Qed.

Lemma claude_calls_read_sample :
  let answer :=
    JObj [("content", JNull);
          ("tool_calls",
           JArr [JObj [("id", JStr "c1"); ("type", JStr "function");
                       ("function",
                        JObj [("name", JStr "lookup");
                              ("arguments", JObj [("q", JStr "x")])])];
                 JObj [("id", JStr "c2"); ("type", JStr "retrieval")]])] in
  let block :=
    JObj [("type", JStr "tool_use"); ("id", JStr "c1");
          ("name", JStr "lookup"); ("input", JObj [])] in
  CompareFunctionCalls.extract_claude_function_calls answer
  = Some [call_record (JStr "lookup") (JObj [("q", JStr "x")])] /\
  CompareFunctionCalls.extract_claude_function_calls
    (JObj [("content", JStr "done")]) = Some [] /\
  (exists message,
     ClaudeToOpenAI.tool_call_message (rt := sample_runtime) "" block
     = Some message /\
     CompareFunctionCalls.extract_claude_function_calls message
     = Some [call_record (JStr "lookup") (JStr "{}")]).
Proof.
  intros answer block.
  destruct (claude_calls_read (rt := sample_runtime))
    as (Hread & Hnone & Hback & _).
  split; [|split].
  - reflexivity.
  - apply Hnone. reflexivity.
  - eexists. split; [reflexivity|]. exact (Hback "" block _ eq_refl).
Defined.

(* ================================================================== *)
(** * Tool declarations by way of OpenAI *)
(* ================================================================== *)

Definition declaration (name description parameters : json) : json :=
  JObj [("name", name); ("description", description);
        ("parameters", parameters)].

Section ToolsRoundTrip.
Context {rt : PyRuntime}.

(** The declaration of a Claude tool, with [f] applied to its schema. *)
Definition declared (f : json -> json) (tool : json) : json :=
  declaration (get_or tool "name" (JStr "")) (get_or tool "description" (JStr ""))
    (f (get_or tool "input_schema" (JObj []))).

(** The OpenAI tool made of a Claude tool. *)
Definition openai_tool (tool : json) : json :=
  JObj [("type", JStr "function");
        ("function", declared (fun schema => schema) tool)].

Lemma c2g_tools_declared (tools : list json) :
  forallb is_dict tools = true ->
  mapM ClaudeToGemini.convert_tool tools
  = Some (map (declared (fun schema => schema)) tools).
Proof.
  induction tools as [|tool rest IH]; [reflexivity|].
  cbn [forallb mapM map]. rewrite Bool.andb_true_iff. intros [Hd Hrest].
  rewrite (IH Hrest). destruct tool; try discriminate Hd. reflexivity.
Qed.

Lemma c2o_tools_declared (tools : list json) :
  forallb is_dict tools = true ->
  mapM ClaudeToOpenAI.convert_tool tools = Some (map openai_tool tools).
Proof.
  induction tools as [|tool rest IH]; [reflexivity|].
  cbn [forallb mapM map]. rewrite Bool.andb_true_iff. intros [Hd Hrest].
  rewrite (IH Hrest). destruct tool; try discriminate Hd. reflexivity.
Qed.

Lemma o2g_tools_declared (tools : list json) :
  mapM OpenAIToGemini.convert_tool (map openai_tool tools)
  = Some (map (fun tool => [declared OpenAIToGemini.convert_enum_values tool])
            tools).
Proof.
  induction tools as [|tool rest IH]; [reflexivity|].
  cbn [mapM map]. rewrite IH.
  unfold OpenAIToGemini.convert_tool, openai_tool, declared, declaration.
  cbn [py_get dict_lookup String.eqb Ascii.eqb Bool.eqb eq_str bind].
  reflexivity.
Qed.

End ToolsRoundTrip.

(** X20.  Tool declarations reach Gemini by way of OpenAI.  For a non-empty
    list of Claude tools, each a dict, the Claude to Gemini converter
    makes one declaration per tool: its name, its description and its
    input schema.  Converting the tools to OpenAI and those to Gemini
    gives the same declarations in the same order, inside one
    [functionDeclarations] wrapper, except that each schema has gone
    through [convert_enum_values]. *)
Theorem tools_round_trip {rt : PyRuntime} (tools : list json) :
  tools <> [] ->
  forallb is_dict tools = true ->
  ClaudeToGemini.convert_tools (JArr tools)
  = Some (map (declared (fun schema => schema)) tools) /\
  (openai_tools <- ClaudeToOpenAI.convert_tools (JArr tools) ;;
   OpenAIToGemini.convert_tools (JArr openai_tools))
  = Some [JObj [("functionDeclarations",
                 JArr (map (declared OpenAIToGemini.convert_enum_values)
                         tools))]].
Proof.
  intros Hne Hd.
  assert (Ht : forall A (l : list A), l <> [] ->
                 forall f : A -> json, truthy (JArr (map f l)) = true).
  { intros A l Hl f. destruct l; [contradiction | reflexivity]. }
  pose proof (Ht _ tools Hne (fun x => x)) as Ht1. rewrite map_id in Ht1.
  split.
  - unfold ClaudeToGemini.convert_tools. rewrite Ht1. cbn [negb py_iter bind].
    now apply c2g_tools_declared.
  - unfold ClaudeToOpenAI.convert_tools. rewrite Ht1. cbn [negb py_iter bind].
    rewrite (c2o_tools_declared _ Hd). cbn [bind].
    unfold OpenAIToGemini.convert_tools.
    rewrite (Ht _ tools Hne openai_tool). cbn [negb py_iter bind].
    rewrite o2g_tools_declared. cbn [bind].
    rewrite <- (map_map (declared OpenAIToGemini.convert_enum_values)
                  (fun a => [a])), concat_singletons.
    destruct tools; [contradiction | reflexivity].
Qed.

Lemma tools_round_trip_sample :
  let schema (values : list json) :=
    JObj [("type", JStr "object");
          ("properties", JObj [("level", JObj [("enum", JArr values)])])] in
  let tools :=
    [JObj [("name", JStr "set_level"); ("description", JStr "Sets the level");
           ("input_schema", schema [JInt 1; JInt 2])]] in
  ClaudeToGemini.convert_tools (JArr tools)
  = Some [declaration (JStr "set_level") (JStr "Sets the level")
            (schema [JInt 1; JInt 2])] /\
  (openai_tools <- ClaudeToOpenAI.convert_tools (JArr tools) ;;
   OpenAIToGemini.convert_tools (rt := sample_runtime) (JArr openai_tools))
  = Some [JObj [("functionDeclarations",
                 JArr [declaration (JStr "set_level") (JStr "Sets the level")
                         (schema [JStr "1"; JStr "2"])])]].
Proof.
  intros schema tools.
  apply (tools_round_trip (rt := sample_runtime) tools);
    [discriminate | reflexivity].
Defined.

(* ================================================================== *)
(** * Converted requests and the repair pass of the API caller *)
(* ================================================================== *)

(** X21.  A request made by one of the two Gemini converters needs no repair
    by the API caller: the caller's own [fix_request_issues] returns it
    as it is.  So does the pass of the converter that made it. *)
Theorem converted_request_repaired {rt : PyRuntime} (request out : json) :
  ClaudeToGemini.convert_request request = Some out \/
  OpenAIToGemini.convert_request request = Some out ->
  GeminiAPICaller.fix_request_issues out = Some out /\
  ClaudeToGemini.fix_request_issues out = Some out /\
  OpenAIToGemini.fix_request_issues out = Some out.
Proof.
  intros H.
  assert (Hfix : GeminiRepair.fix_request_issues out = Some out).
  { destruct H as [H|H].
    - unfold ClaudeToGemini.convert_request in H. py_bind H as g Hg.
      eapply fix_request_issues_stable; eauto.
    - unfold OpenAIToGemini.convert_request in H. py_bind H as g Hg.
      eapply fix_request_issues_stable; eauto. }
  repeat split; exact Hfix.
Qed.

Lemma converted_request_repaired_sample :
  let request :=
    JObj [("messages",
           JArr [JObj [("role", JStr "user"); ("content", JStr "edit it")];
                 JObj [("role", JStr "assistant"); ("content", JArr [])]]);
          ("tools",
           JArr [JObj [("name", JStr "gemini_edit");
                       ("description", JStr "Edits images");
                       ("input_schema",
                        JObj [("type", JStr "object");
                              ("required", JArr [JStr "image"])])]])] in
  let out :=
    JObj [("contents",
           JArr [JObj [("role", JStr "user");
                       ("parts", JArr [JObj [("text", JStr "edit it")]])]]);
          ("tools",
           JArr [JObj [("functionDeclarations",
                        JArr [JObj [("name", JStr "gemini_edit");
                                    ("description", JStr "Edits images");
                                    ("parameters",
                                     JObj [("type", JStr "object");
                                           ("required",
                                            JArr [JStr "images"])])]])]])] in
  ClaudeToGemini.convert_request (rt := sample_runtime) request = Some out /\
  GeminiAPICaller.fix_request_issues out = Some out.
Proof.
  intros request out. split; [reflexivity|].
  exact (proj1 (converted_request_repaired (rt := sample_runtime) request out
                  (or_introl eq_refl))).
Defined.

(* ================================================================== *)
(** * The parts of a turn *)
(* ================================================================== *)

(** A part as Gemini takes it: a dict with one field, of one of the
    four kinds the converters make. *)
Definition gemini_part (part : json) : Prop :=
  exists kind value,
    part = JObj [(kind, value)] /\
    In kind ["text"; "inline_data"; "functionCall"; "functionResponse"].

Definition gemini_parts (t : json) : Prop :=
  exists role parts,
    t = JObj [("role", JStr role); ("parts", JArr parts)] /\
    Forall gemini_part parts.

Lemma gemini_part_kind (kind : string) (value : json) :
  In kind ["text"; "inline_data"; "functionCall"; "functionResponse"] ->
  gemini_part (JObj [(kind, value)]).
Proof. intros H. now exists kind, value. Qed.

Ltac part_kind :=
  repeat constructor; apply gemini_part_kind; simpl; tauto.

Section PartKinds.
Context {rt : PyRuntime}.

Lemma c2g_item_parts (item : json) (parts : list json) :
  ClaudeToGemini.convert_item item = Some parts -> Forall gemini_part parts.
Proof.
  unfold ClaudeToGemini.convert_item. intros H.
  destruct item as [| | |s| |kv]; try (inversion H; subst; part_kind).
  py_bind H as ty Hty.
  destruct (eq_str ty "text").
  { py_bind H as text Ht. inversion H. part_kind. }
  destruct (eq_str ty "image").
  { py_bind H as source Hs. py_bind H as mime Hm. py_bind H as data Hd.
    inversion H. part_kind. }
  destruct (eq_str ty "tool_use").
  { py_bind H as name Hn. py_bind H as args Ha. inversion H. part_kind. }
  destruct (eq_str ty "tool_result").
  { py_bind H as content Hc. destruct content; try discriminate H.
    inversion H. part_kind. }
  inversion H. constructor.
Qed.

Lemma c2g_content_parts (content : json) (parts : list json) :
  ClaudeToGemini.content_parts content = Some parts -> Forall gemini_part parts.
Proof.
  unfold ClaudeToGemini.content_parts. intros H.
  destruct content as [| | |s|items|kv]; try (inversion H; subst; part_kind).
  py_bind H as ps Hps. inversion H.
  eapply mapM_concat_Forall; [|exact Hps]. apply c2g_item_parts.
Qed.

Lemma c2g_message_parts (message : json) (turns : list json) :
  ClaudeToGemini.convert_message message = Some turns ->
  Forall gemini_parts turns.
Proof.
  unfold ClaudeToGemini.convert_message. intros H.
  py_bind H as role Hrole. py_bind H as content Hcontent.
  assert (Hturn : forall r ts,
             (parts <- ClaudeToGemini.content_parts content ;;
              Some [ClaudeToGemini.turn r parts]) = Some ts ->
             Forall gemini_parts ts).
  { intros r ts Hts. py_bind Hts as parts Hparts. inversion Hts.
    repeat constructor. exists r, parts. split; [reflexivity|].
    eapply c2g_content_parts; eauto. }
  destruct (eq_str role "user"); [eauto|].
  destruct (eq_str role "assistant"); [eauto|].
  destruct (eq_str role "tool").
  { py_bind H as name Hname. inversion H. repeat constructor.
    eexists _, _. split; [reflexivity|]. part_kind. }
  destruct (eq_str role "system"); [inversion H; constructor | eauto].
Qed.

Lemma c2g_messages_parts (messages turns : list json) :
  ClaudeToGemini.convert_messages messages = Some turns ->
  Forall gemini_parts turns.
Proof.
  unfold ClaudeToGemini.convert_messages. intros H.
  py_bind H as tss Htss. inversion H.
  eapply mapM_concat_Forall; [|exact Htss]. apply c2g_message_parts.
Qed.

Lemma o2g_item_parts (item : json) (parts : list json) :
  OpenAIToGemini.convert_item item = Some parts -> Forall gemini_part parts.
Proof.
  unfold OpenAIToGemini.convert_item. intros H.
  destruct item as [| | |s| |kv]; try (inversion H; subst; part_kind).
  py_bind H as ty Hty.
  destruct (eq_str ty "text").
  { py_bind H as text Ht. inversion H. part_kind. }
  destruct (eq_str ty "image_url"); [|inversion H; constructor].
  py_bind H as image Hi. py_bind H as url Hu.
  destruct url as [| | |u| |]; try discriminate H.
  destruct (String.prefix "data:" u); [|inversion H; part_kind].
  destruct (match_data_url u) as [[mime data]|]; inversion H;
    [part_kind | constructor].
Qed.

Lemma o2g_content_parts (content : json) (parts : list json) :
  OpenAIToGemini.content_parts content = Some parts -> Forall gemini_part parts.
Proof.
  unfold OpenAIToGemini.content_parts. intros H.
  destruct content as [| | |s|items|kv]; try (inversion H; subst; part_kind).
  py_bind H as ps Hps. inversion H.
  eapply mapM_concat_Forall; [|exact Hps]. apply o2g_item_parts.
Qed.

Lemma o2g_call_kind (tool_call part : json) :
  OpenAIToGemini.convert_tool_call tool_call = Some part -> gemini_part part.
Proof.
  unfold OpenAIToGemini.convert_tool_call. intros H.
  py_bind H as function_data Hf. py_bind H as args Ha. py_bind H as name Hn.
  inversion H. apply gemini_part_kind. simpl. tauto.
Qed.

Lemma o2g_message_parts (m : idmap) (message : json) (sys : option json)
    (r : list json * option json) :
  OpenAIToGemini.convert_message m message sys = Some r ->
  Forall gemini_parts (fst r).
Proof.
  unfold OpenAIToGemini.convert_message. intros H.
  py_bind H as role Hrole. py_bind H as content Hcontent.
  destruct (eq_str role "system"); [inversion H; constructor|].
  py_bind H as calls Hcalls.
  destruct (truthy calls).
  - py_bind H as l Hl. py_bind H as parts Hparts. inversion H.
    repeat constructor. eexists _, _. split; [reflexivity|].
    apply mapM_Forall2 in Hparts. clear - Hparts.
    induction Hparts as [|c p cs ps Hcp _ IH]; constructor; [|exact IH].
    eapply o2g_call_kind; eauto.
  - destruct (eq_str role "tool").
    + py_bind H as id Hid. py_bind H as name Hname. py_bind H as name' Hname'.
      inversion H. repeat constructor. eexists _, _.
      split; [reflexivity|]. part_kind.
    + py_bind H as parts Hparts. inversion H. cbn [fst].
      destruct parts as [|p ps]; [constructor|].
      repeat constructor. eexists _, _. split; [reflexivity|].
      eapply o2g_content_parts; eauto.
Qed.

Lemma o2g_loop_parts (m : idmap) (messages acc : list json)
    (sys : option json) (r : list json * option json) :
  Forall gemini_parts acc ->
  OpenAIToGemini.convert_loop m messages acc sys = Some r ->
  Forall gemini_parts (fst r).
Proof.
  revert acc sys. induction messages as [|message rest IH]; intros acc sys Hacc H.
  - simpl in H. now inversion H.
  - cbn [OpenAIToGemini.convert_loop] in H. py_bind H as r1 Hr1.
    eapply IH; [|exact H]. apply Forall_app. split; [exact Hacc|].
    eapply o2g_message_parts; eauto.
Qed.

Lemma o2g_messages_parts (messages : list json) (r : list json * option json) :
  OpenAIToGemini.convert_messages messages = Some r ->
  Forall gemini_parts (fst r).
Proof.
  unfold OpenAIToGemini.convert_messages. intros H. py_bind H as m Hm.
  eapply o2g_loop_parts; [constructor | exact H].
Qed.

End PartKinds.

(** X22.  Every part of every turn of a converted Gemini request is a dict
    with exactly one field, and that field is [text], [inline_data],
    [functionCall] or [functionResponse].  This holds of the turns
    [convert_messages] returns and of the [contents] of the request
    [convert_request] returns, for both Gemini converters. *)
Theorem gemini_part_kinds {rt : PyRuntime} :
  (forall messages turns,
     ClaudeToGemini.convert_messages messages = Some turns ->
     Forall gemini_parts turns) /\
  (forall messages r,
     OpenAIToGemini.convert_messages messages = Some r ->
     Forall gemini_parts (fst r)) /\
  (forall request out,
     ClaudeToGemini.convert_request request = Some out \/
     OpenAIToGemini.convert_request request = Some out ->
     exists turns,
       py_getitem out "contents" = Some (JArr turns) /\
       Forall gemini_parts turns).
Proof.
  split; [|split].
  - apply c2g_messages_parts.
  - apply o2g_messages_parts.
  - intros request out [H|H].
    + unfold ClaudeToGemini.convert_request in H. py_bind H as g Hg.
      destruct (c2g_assembled_system _ _ Hg)
        as (kv & turns & -> & Hturns & Hc & _ & _).
      exists (filter nonempty_parts turns). split.
      * eapply fix_request_issues_contents; eauto.
        eapply c2g_messages_turns; eauto.
      * apply Forall_kept. eapply c2g_messages_parts; eauto.
    + unfold OpenAIToGemini.convert_request in H. py_bind H as g Hg.
      destruct (o2g_assembled_contents _ _ Hg) as (kv & r & -> & Hr & Hc).
      exists (filter nonempty_parts (fst r)). split.
      * eapply fix_request_issues_contents; eauto.
        eapply o2g_messages_turns; eauto.
      * apply Forall_kept. eapply o2g_messages_parts; eauto.
Qed.

Lemma gemini_part_kinds_sample :
  let conversation :=
    [JObj [("role", JStr "user");
           ("content",
            JArr [JStr "look"; JObj [("type", JStr "text"); ("text", JStr "hi")];
                  JObj [("type", JStr "video")]; JInt 3])];
     JObj [("role", JStr "assistant"); ("content", JNull)]] in
  (exists turns,
     ClaudeToGemini.convert_messages (rt := sample_runtime) conversation
     = Some turns /\
     turns = [ClaudeToGemini.turn "user"
                [JObj [("text", JStr "look")]; JObj [("text", JStr "hi")]];
              ClaudeToGemini.turn "model" [JObj [("text", JStr "None")]]] /\
     Forall gemini_parts turns) /\
  (exists r,
     OpenAIToGemini.convert_messages (rt := sample_runtime) conversation
     = Some r /\
     Forall gemini_parts (fst r)).
Proof.
  intros conversation.
  destruct (gemini_part_kinds (rt := sample_runtime)) as (Hc2g & Ho2g & _).
  split.
  - eexists. split; [reflexivity|]. split; [reflexivity|].
    exact (Hc2g conversation _ eq_refl).
  - eexists. split; [reflexivity|]. exact (Ho2g conversation _ eq_refl).
Defined.

(* ================================================================== *)
(** * Messages without tool blocks, Claude to OpenAI *)
(* ================================================================== *)

(** A content part as the Claude to OpenAI converter makes them. *)
Definition openai_part (part : json) : Prop :=
  (exists text, part = JObj [("type", JStr "text"); ("text", text)]) \/
  (exists url,
     part = JObj [("type", JStr "image_url");
                  ("image_url", JObj [("url", url)])]).

Section PlainMessages.
Context {rt : PyRuntime}.

Lemma c2o_item_parts (item : json) (parts : list json) :
  ClaudeToOpenAI.convert_item item = Some parts ->
  Forall openai_part parts /\ (List.length parts <= 1)%nat.
Proof.
  unfold ClaudeToOpenAI.convert_item. intros H.
  assert (Hnone : forall ps, Some (@nil json) = Some ps ->
                    Forall openai_part ps /\ (List.length ps <= 1)%nat).
  { intros ps Hps. inversion Hps. split; [constructor | simpl; lia]. }
  assert (Hone : forall p ps, openai_part p -> Some [p] = Some ps ->
                   Forall openai_part ps /\ (List.length ps <= 1)%nat).
  { intros p ps Hp Hps. inversion Hps.
    split; [constructor; [exact Hp | constructor] | simpl; lia]. }
  destruct item as [| | |s| |kv]; try (now apply Hnone).
  - eapply Hone; [|exact H]. left. eauto.
  - py_bind H as ty Hty.
    destruct (eq_str ty "text").
    { py_bind H as text Ht. eapply Hone; [|exact H]. left. eauto. }
    destruct (eq_str ty "image"); [|now apply Hnone].
    py_bind H as source Hs. py_bind H as source_type Hst.
    destruct (eq_str source_type "base64").
    { py_bind H as media_type Hm. py_bind H as data Hd.
      eapply Hone; [|exact H]. right. eauto. }
    destruct (eq_str source_type "url"); [|now apply Hnone].
    py_bind H as url Hu. eapply Hone; [|exact H]. right. eauto.
Qed.

Lemma c2o_items_parts (items : list json) (parts : list (list json)) :
  mapM ClaudeToOpenAI.convert_item items = Some parts ->
  Forall openai_part (List.concat parts) /\
  (List.length (List.concat parts) <= List.length items)%nat.
Proof.
  revert parts. induction items as [|item rest IH]; intros parts H.
  - inversion H. split; [constructor | simpl; lia].
  - cbn [mapM] in H. py_bind H as ps Hps. py_bind H as pss Hpss.
    inversion H. destruct (c2o_item_parts _ _ Hps) as [F1 L1].
    destruct (IH _ eq_refl) as [F2 L2]. cbn [List.concat].
    split; [apply Forall_app; auto|].
    rewrite length_app. simpl. lia.
Qed.

(** The parts a content item stands for in an OpenAI message: a
    string and a text block give a text part; an image block gives an
    [image_url] part, with a [data:] URL made of the media type and the
    data when its source is of type ["base64"], with the URL of the
    source when it is of type ["url"]; anything else gives nothing. *)
Definition openai_parts_of (item : json) : list json :=
  let text_part (text : json) :=
    JObj [("type", JStr "text"); ("text", text)] in
  let image_part (url : json) :=
    JObj [("type", JStr "image_url"); ("image_url", JObj [("url", url)])] in
  match item with
  | JStr _ => [text_part item]
  | JObj _ =>
      let kind := get_or item "type" JNull in
      let source := get_or item "source" (JObj []) in
      let source_kind := get_or source "type" JNull in
      if eq_str kind "text" then [text_part (get_or item "text" (JStr ""))]
      else if eq_str kind "image" && eq_str source_kind "base64" then
        [image_part
           (JStr ("data:"
                  ++ py_str (get_or source "media_type" (JStr "image/jpeg"))
                  ++ ";base64,"
                  ++ py_str (get_or source "data" (JStr ""))))]
      else if eq_str kind "image" && eq_str source_kind "url" then
        [image_part (get_or source "url" (JStr ""))]
      else []
  | _ => []
  end.

Lemma c2o_item_parts_of (item : json) (parts : list json) :
  ClaudeToOpenAI.convert_item item = Some parts ->
  parts = openai_parts_of item.
Proof.
  unfold ClaudeToOpenAI.convert_item, openai_parts_of. intros H.
  destruct item as [| | |s| |kv]; try (now injection H as <-).
  cbv zeta. unfold get_or. cbn [py_get bind] in H |- *.
  destruct (eq_str _ "text"); [now injection H as <-|].
  destruct (eq_str _ "image"); [|now injection H as <-].
  cbn [andb]. py_bind H as source_type Hst.
  destruct (match dict_lookup "source" kv with
            | Some v => v
            | None => JObj []
            end) as [| | | | |skv]; try discriminate Hst.
  cbn [py_get bind] in Hst, H |- *. injection Hst as <-.
  destruct (eq_str _ "base64"); [now injection H as <-|].
  destruct (eq_str _ "url"); now injection H as <-.
Qed.

Lemma c2o_items_parts_of (items : list json) (parts : list (list json)) :
  mapM ClaudeToOpenAI.convert_item items = Some parts ->
  List.concat parts = flat_map openai_parts_of items.
Proof.
  revert parts. induction items as [|item rest IH]; intros parts H.
  - now injection H as <-.
  - cbn [mapM] in H. py_bind H as ps Hps. py_bind H as pss Hpss.
    injection H as <-. cbn [List.concat flat_map].
    now rewrite (c2o_item_parts_of _ _ Hps), (IH _ eq_refl).
Qed.

End PlainMessages.

(** X23.  A message without tool blocks, in the Claude to OpenAI converter,
    becomes one message with the same role.  A string content is
    passed on as it is.  A list content becomes the list of the parts
    its items give, in order: a string or a text block gives a text
    part, an image block with a base64 or URL source gives an
    [image_url] part, any other item gives nothing; so there is at most
    one part per item.  When no item gives a part, the content becomes
    the printed form of the list, a string.  Any other content is
    printed as a string. *)
Theorem c2o_plain_message {rt : PyRuntime} (m : idmap)
    (kv : list (string * json)) (out : list json) :
  ClaudeToOpenAI.convert_message m (JObj kv) = Some out ->
  let role := get_or (JObj kv) "role" (JStr "") in
  let content := get_or (JObj kv) "content" (JStr "") in
  (is_str content = true ->
   out = [JObj [("role", role); ("content", content)]]) /\
  (forall items,
     content = JArr items ->
     filter (ClaudeToOpenAI.is_block "tool_use") items = []
     \/ eq_str role "assistant" = false ->
     filter (ClaudeToOpenAI.is_block "tool_result") items = [] ->
     let parts := flat_map openai_parts_of items in
     out = [JObj [("role", role);
                  ("content",
                   match parts with
                   | [] => JStr (py_repr content)
                   | _ => JArr parts
                   end)]] /\
     Forall openai_part parts /\
     (List.length parts <= List.length items)%nat) /\
  (is_str content = false -> is_list content = false ->
   out = [JObj [("role", role); ("content", JStr (py_str content))]]).
Proof.
  intros H role content. unfold ClaudeToOpenAI.convert_message in H.
  cbn [py_get bind] in H. fold (get_or (JObj kv) "role" (JStr "")) in H.
  unfold role, content, get_or. cbn [py_get].
  set (r := match dict_lookup "role" kv with
            | Some v => v
            | None => JStr ""
            end) in *.
  set (c := match dict_lookup "content" kv with
            | Some v => v
            | None => JStr ""
            end) in *.
  clearbody r c.
  split; [|split].
  - intros Hs. destruct c; try discriminate Hs.
    cbn [ClaudeToOpenAI.openai_content_of bind] in H. now inversion H.
  - intros items -> Huse Hres.
    cbn [ClaudeToOpenAI.openai_content_of] in H.
    py_bind H as content' Hcontent. py_bind Hcontent as pss Hparts.
    destruct (c2o_items_parts _ _ Hparts) as [Hall Hlen].
    rewrite (c2o_items_parts_of _ _ Hparts) in Hcontent, Hall, Hlen.
    set (parts := flat_map openai_parts_of items) in *.
    assert (Hplain : out = [JObj [("role", r); ("content", content')]]).
    { rewrite Hres in H.
      destruct Huse as [Huse|Huse].
      - rewrite Huse in H. cbn [andb] in H. now inversion H.
      - rewrite Huse, andb_false_r in H. now inversion H. }
    split; [|split; assumption].
    rewrite Hplain. destruct parts; now inversion Hcontent.
  - intros Hs Hl. destruct c; try discriminate Hs; try discriminate Hl;
      cbn [ClaudeToOpenAI.openai_content_of bind] in H; now inversion H.
Qed.

Lemma c2o_plain_message_sample :
  let text := JObj [("type", JStr "text"); ("text", JStr "hi")] in
  let image :=
    JObj [("type", JStr "image");
          ("source", JObj [("type", JStr "url");
                           ("url", JStr "https://example.com/cat.png")])] in
  let message (content : json) := [("role", JStr "user"); ("content", content)] in
  (exists out,
     ClaudeToOpenAI.convert_message (rt := sample_runtime) []
       (JObj (message (JArr [text; JInt 3; image]))) = Some out /\
     out
     = [JObj [("role", JStr "user");
              ("content",
               JArr [text;
                     JObj [("type", JStr "image_url");
                           ("image_url",
                            JObj [("url",
                                   JStr "https://example.com/cat.png")])]])]])
  /\
  (exists out,
     ClaudeToOpenAI.convert_message (rt := sample_runtime) []
       (JObj (message (JArr [JInt 3; JObj [("type", JStr "audio")]])))
     = Some out /\
     out = [JObj [("role", JStr "user"); ("content", JStr "<repr>")]]) /\
  (exists out,
     ClaudeToOpenAI.convert_message (rt := sample_runtime) []
       (JObj (message (JStr "hi"))) = Some out /\
     out = [JObj [("role", JStr "user"); ("content", JStr "hi")]]).
Proof.
  intros text image message.
  split; [|split].
  - eexists. split; [reflexivity|].
    destruct (c2o_plain_message (rt := sample_runtime) []
                (message (JArr [text; JInt 3; image])) _ eq_refl)
      as (_ & Hl & _).
    exact (proj1 (Hl [text; JInt 3; image] eq_refl (or_introl eq_refl) eq_refl)).
  - eexists. split; [reflexivity|].
    destruct (c2o_plain_message (rt := sample_runtime) []
                (message (JArr [JInt 3; JObj [("type", JStr "audio")]])) _
                eq_refl) as (_ & Hl & _).
    exact (proj1 (Hl [JInt 3; JObj [("type", JStr "audio")]] eq_refl
                    (or_introl eq_refl) eq_refl)).
  - eexists. split; [reflexivity|].
    destruct (c2o_plain_message (rt := sample_runtime) [] (message (JStr "hi")) _
                eq_refl) as (Hs & _ & _).
    exact (Hs eq_refl).
Defined.

(* ================================================================== *)
(** * The name of a tool result, Claude to Gemini *)
(* ================================================================== *)

(** The name the design gives a tool result with content [s]: the
    backticked text of the leftmost occurrence of the pattern, or
    ["unknown"] when the pattern does not occur. *)
Definition resolved_from (s name : string) : Prop :=
  (exists n,
     occurs_at s n name /\
     forall m name', (m < n)%nat -> ~ occurs_at s m name') \/
  ((forall n name', ~ occurs_at s n name') /\ name = "unknown").

Lemma search_tool_name_complete (s : string) (n : nat) (name : string) :
  occurs_at s n name -> search_tool_name s <> None.
Proof.
  revert n. induction s as [|a t IH]; intros n Hocc.
  - destruct Hocc as (pre & post & _ & Heq & _).
    destruct pre; discriminate Heq.
  - cbn [search_tool_name].
    destruct (match_tool_at (String a t)) as [x|] eqn:Hm; [discriminate|].
    destruct n as [|n].
    + apply match_tool_at_iff in Hocc. congruence.
    + apply occurs_at_tail in Hocc. exact (IH _ Hocc).
Qed.

Lemma resolved_from_search (s : string) :
  resolved_from s match search_tool_name s with
                  | Some name => name
                  | None => "unknown"
                  end.
Proof.
  destruct (search_tool_name s) as [name|] eqn:Hs.
  - left. now apply search_tool_name_sound.
  - right. split; [|reflexivity]. intros n name' Hocc.
    exact (search_tool_name_complete _ _ _ Hocc Hs).
Qed.

Lemma resolved_from_unique (s name name' : string) :
  resolved_from s name -> resolved_from s name' -> name = name'.
Proof.
  intros [(n & Hn & Hleft) | [Hno ->]] [(n' & Hn' & Hleft') | [Hno' ->]].
  - destruct (Nat.lt_trichotomy n n') as [Hlt | [-> | Hgt]].
    + exfalso. exact (Hleft' _ _ Hlt Hn).
    + eapply occurs_at_functional; eauto.
    + exfalso. exact (Hleft _ _ Hgt Hn').
  - exfalso. exact (Hno' _ _ Hn).
  - exfalso. exact (Hno _ _ Hn').
  - reflexivity.
Qed.

Section ToolResultName.
Context {rt : PyRuntime}.

Lemma c2g_tool_result_part (item : list (string * json)) (s name : string) :
  dict_lookup "type" item = Some (JStr "tool_result") ->
  dict_lookup "content" item = Some (JStr s) ->
  resolved_from s name ->
  ClaudeToGemini.convert_item (JObj item)
  = Some [function_response name (JStr s)].
Proof.
  intros Hty Hc Hname.
  rewrite (resolved_from_unique _ _ _ Hname (resolved_from_search s)).
  unfold ClaudeToGemini.convert_item, py_get. rewrite Hty, Hc. reflexivity.
Qed.

Lemma c2g_block_message (message : list (string * json)) (items : list json) :
  let role := get_or (JObj message) "role" (JStr "") in
  eq_str role "tool" = false -> eq_str role "system" = false ->
  dict_lookup "content" message = Some (JArr items) ->
  ClaudeToGemini.convert_message (JObj message)
  = (ps <- mapM ClaudeToGemini.convert_item items ;;
     Some [JObj [("role",
                  JStr (if eq_str role "assistant" then "model" else "user"));
                 ("parts", JArr (List.concat ps))]]).
Proof.
  intros role Htool Hsys Hc. unfold ClaudeToGemini.convert_message.
  cbn [py_get bind]. rewrite Hc. cbn [ClaudeToGemini.content_parts].
  unfold role, get_or in Htool, Hsys |- *. cbn [py_get] in Htool, Hsys |- *.
  set (r := match dict_lookup "role" message with
            | Some v => v
            | None => JStr ""
            end) in *.
  clearbody r. clear role.
  destruct (eq_str r "user") eqn:Hu.
  - apply eq_str_eq in Hu. subst r.
    destruct (mapM ClaudeToGemini.convert_item items); reflexivity.
  - rewrite Htool, Hsys.
    destruct (eq_str r "assistant");
      destruct (mapM ClaudeToGemini.convert_item items); reflexivity.
Qed.

Lemma c2g_block_turn (message item : list (string * json))
    (items1 items2 : list json) (s name : string) (turns : list json) :
  let role := get_or (JObj message) "role" (JStr "") in
  eq_str role "tool" = false -> eq_str role "system" = false ->
  dict_lookup "type" item = Some (JStr "tool_result") ->
  dict_lookup "content" item = Some (JStr s) ->
  resolved_from s name ->
  dict_lookup "content" message
  = Some (JArr (items1 ++ JObj item :: items2)%list) ->
  ClaudeToGemini.convert_message (JObj message) = Some turns ->
  exists parts1 parts2,
    turns
    = [JObj [("role",
              JStr (if eq_str role "assistant" then "model" else "user"));
             ("parts",
              JArr (parts1 ++ function_response name (JStr s) :: parts2)%list)]].
Proof.
  intros role Htool Hsys Hty Hcontent Hname Hc H.
  rewrite (c2g_block_message message _ Htool Hsys Hc) in H.
  py_bind H as ps Hps. injection H as <-.
  apply mapM_app in Hps. destruct Hps as (o1 & o2 & H1 & H2 & ->).
  cbn [mapM] in H2.
  rewrite (c2g_tool_result_part _ _ _ Hty Hcontent Hname) in H2.
  cbn [bind] in H2. py_bind H2 as o3 H3. injection H2 as <-.
  exists (List.concat o1), (List.concat o3).
  rewrite concat_app. reflexivity.
Qed.

Lemma c2g_block_messages (message item : list (string * json))
    (pre post items1 items2 : list json) (s name : string) (out : list json) :
  let role := get_or (JObj message) "role" (JStr "") in
  eq_str role "tool" = false -> eq_str role "system" = false ->
  dict_lookup "type" item = Some (JStr "tool_result") ->
  dict_lookup "content" item = Some (JStr s) ->
  resolved_from s name ->
  dict_lookup "content" message
  = Some (JArr (items1 ++ JObj item :: items2)%list) ->
  ClaudeToGemini.convert_messages (pre ++ JObj message :: post)%list = Some out ->
  exists out1 out2 parts1 parts2,
    ClaudeToGemini.convert_messages pre = Some out1 /\
    out
    = (out1
       ++ JObj [("role",
                 JStr (if eq_str role "assistant" then "model" else "user"));
                ("parts",
                 JArr (parts1 ++ function_response name (JStr s) :: parts2)%list)]
       :: out2)%list.
Proof.
  intros role Htool Hsys Hty Hcontent Hname Hc H.
  unfold ClaudeToGemini.convert_messages in H. py_bind H as turns Hturns.
  injection H as <-. apply mapM_app in Hturns.
  destruct Hturns as (o1 & o2 & H1 & H2 & ->).
  cbn [mapM] in H2. py_bind H2 as ts Hts. py_bind H2 as o3 H3. injection H2 as <-.
  destruct (c2g_block_turn message item items1 items2 s name ts
              Htool Hsys Hty Hcontent Hname Hc Hts) as (parts1 & parts2 & ->).
  exists (List.concat o1), (List.concat o3), parts1, parts2. split.
  - unfold ClaudeToGemini.convert_messages. now rewrite H1.
  - rewrite concat_app. reflexivity.
Qed.

End ToolResultName.

(** C8.  A [tool_result] block with a string content, in a message
    that is neither a tool message nor a system message, reaches the
    Gemini conversation as one [functionResponse] part of the turn made
    of its message: the part holds the content as its result, and its
    name is the backticked text of the leftmost occurrence of the
    pattern in the content, or ["unknown"] when the pattern does not
    occur.  There is exactly one such name for every content.  The
    turn has role ["model"] for an assistant message and ["user"]
    otherwise; it stands in the turns [convert_messages] returns, after
    those of the earlier messages, and in the [contents] of the request
    [convert_request] returns.  A message that holds the block alone is
    converted, to that one turn with that one part. *)
Theorem tool_result_name_from_pattern {rt : PyRuntime}
    (message item : list (string * json)) (s : string) :
  let role := get_or (JObj message) "role" (JStr "") in
  let turn_role := if eq_str role "assistant" then "model" else "user" in
  let turn (name : string) (parts1 parts2 : list json) :=
    JObj [("role", JStr turn_role);
          ("parts",
           JArr (parts1 ++ function_response name (JStr s) :: parts2)%list)] in
  eq_str role "tool" = false -> eq_str role "system" = false ->
  dict_lookup "type" item = Some (JStr "tool_result") ->
  dict_lookup "content" item = Some (JStr s) ->
  (exists name, resolved_from s name) /\
  (forall name name',
     resolved_from s name -> resolved_from s name' -> name = name') /\
  (forall name pre post items1 items2 out,
     resolved_from s name ->
     dict_lookup "content" message
     = Some (JArr (items1 ++ JObj item :: items2)%list) ->
     ClaudeToGemini.convert_messages (pre ++ JObj message :: post)%list
     = Some out ->
     exists out1 out2 parts1 parts2,
       ClaudeToGemini.convert_messages pre = Some out1 /\
       out = (out1 ++ turn name parts1 parts2 :: out2)%list) /\
  (forall name,
     resolved_from s name ->
     dict_lookup "content" message = Some (JArr [JObj item]) ->
     ClaudeToGemini.convert_messages [JObj message] = Some [turn name [] []] /\
     ClaudeToGemini.convert_request (JObj [("messages", JArr [JObj message])])
     = Some (JObj [("contents", JArr [turn name [] []])])) /\
  (forall name request pre post items1 items2 out,
     resolved_from s name ->
     dict_lookup "content" message
     = Some (JArr (items1 ++ JObj item :: items2)%list) ->
     request_messages request = (pre ++ JObj message :: post)%list ->
     ClaudeToGemini.convert_request request = Some out ->
     exists turns1 turns2 parts1 parts2,
       py_getitem out "contents"
       = Some (JArr (turns1 ++ turn name parts1 parts2 :: turns2)%list)).
Proof.
  intros role turn_role turn Htool Hsys Hty Hcontent.
  split; [eexists; apply resolved_from_search|].
  split; [intros name name'; apply resolved_from_unique|].
  split; [|split].
  - intros name pre post items1 items2 out Hname Hc H.
    exact (c2g_block_messages message item pre post items1 items2 s name out
             Htool Hsys Hty Hcontent Hname Hc H).
  - intros name Hname Hc.
    assert (Hm : ClaudeToGemini.convert_message (JObj message)
                 = Some [turn name [] []]).
    { rewrite (c2g_block_message message _ Htool Hsys Hc). cbn [mapM].
      rewrite (c2g_tool_result_part _ _ _ Hty Hcontent Hname). reflexivity. }
    assert (Hms : ClaudeToGemini.convert_messages [JObj message]
                  = Some [turn name [] []]).
    { unfold ClaudeToGemini.convert_messages. cbn [mapM]. now rewrite Hm. }
    split; [exact Hms|].
    unfold ClaudeToGemini.convert_request, ClaudeToGemini.assemble_request.
    cbn [py_get dict_lookup String.eqb Ascii.eqb Bool.eqb bind py_iter filterM].
    assert (His : ClaudeToGemini.is_system (JObj message) = Some false).
    { unfold ClaudeToGemini.is_system. cbn [py_get bind].
      unfold role, get_or in Hsys. cbn [py_get] in Hsys.
      destruct (dict_lookup "role" message); [now rewrite Hsys | reflexivity]. }
    rewrite His. cbn [bind negb]. rewrite Hms. cbn [bind truthy].
    reflexivity.
  - intros name request pre post items1 items2 out Hname Hc Hreq H.
    unfold ClaudeToGemini.convert_request in H. py_bind H as g Hg.
    destruct (c2g_assembled_system _ _ Hg)
      as (kv & turns & -> & Hturns & Hcontents & _ & _).
    rewrite Hreq, filter_app in Hturns. cbn [filter] in Hturns.
    assert (Hns : system_role (JObj message) = false).
    { rewrite <- system_role_default.
      unfold role, get_or in Hsys. cbn [py_get] in Hsys. exact Hsys. }
    rewrite Hns in Hturns. cbn [negb] in Hturns.
    destruct (c2g_block_messages message item _ _ items1 items2 s name turns
                Htool Hsys Hty Hcontent Hname Hc Hturns)
      as (out1 & out2 & parts1 & parts2 & Hpre & ->).
    unfold ClaudeToGemini.fix_request_issues in H.
    pose proof (fix_request_issues_contents kv _ out Hcontents) as Hout.
    rewrite Hout; [|eapply c2g_messages_turns; eauto | exact H].
    exists (filter nonempty_parts out1), (filter nonempty_parts out2),
      parts1, parts2.
    rewrite filter_app. cbn [filter].
    assert (Hkeep : nonempty_parts (turn name parts1 parts2) = true)
      by (unfold nonempty_parts; cbn; now destruct parts1).
    subst turn turn_role role. cbv beta in Hkeep |- *. now rewrite Hkeep.
Qed.

Lemma tool_result_name_search_hits :
  let block (content : string) :=
    [("type", JStr "tool_result"); ("tool_use_id", JStr "toolu_1");
     ("content", JStr content)] in
  let hits := "Observation of Tool `search`: 3 hits" in
  let text := JObj [("type", JStr "text"); ("text", JStr "Here it is.")] in
  let message (content : list json) :=
    [("role", JStr "user"); ("content", JArr content)] in
  let user := JObj [("role", JStr "user"); ("content", JStr "go")] in
  let user_turn :=
    JObj [("role", JStr "user"); ("parts", JArr [JObj [("text", JStr "go")]])] in
  resolved_from hits "search" /\
  resolved_from "3 hits" "unknown" /\
  ClaudeToGemini.convert_messages (rt := sample_runtime)
    [user; JObj (message [text; JObj (block hits)])]
  = Some [user_turn;
          JObj [("role", JStr "user");
                ("parts",
                 JArr [JObj [("text", JStr "Here it is.")];
                       function_response "search" (JStr hits)])]] /\
  (exists out1 out2 parts1 parts2,
     ClaudeToGemini.convert_messages (rt := sample_runtime) [user] = Some out1 /\
     [user_turn;
      JObj [("role", JStr "user");
            ("parts",
             JArr [JObj [("text", JStr "Here it is.")];
                   function_response "search" (JStr hits)])]]
     = (out1
        ++ JObj [("role", JStr "user");
                 ("parts",
                  JArr (parts1 ++ function_response "search" (JStr hits)
                        :: parts2)%list)]
        :: out2)%list) /\
  ClaudeToGemini.convert_messages (rt := sample_runtime)
    [JObj (message [JObj (block "3 hits")])]
  = Some [JObj [("role", JStr "user");
                ("parts", JArr [function_response "unknown" (JStr "3 hits")])]]
  /\
  ClaudeToGemini.convert_request (rt := sample_runtime)
    (JObj [("messages", JArr [JObj (message [JObj (block "3 hits")])])])
  = Some (JObj [("contents",
                 JArr [JObj [("role", JStr "user");
                             ("parts",
                              JArr [function_response "unknown"
                                      (JStr "3 hits")])]])]).
Proof.
  intros block hits text message user user_turn.
  assert (Hsearch : resolved_from hits "search").
  { left. exists 0%nat. split.
    - exists "", ": 3 hits". repeat split; [discriminate].
    - intros m name' Hlt. lia. }
  assert (Hnone : resolved_from "3 hits" "unknown").
  { right. split; [|reflexivity]. intros n name' Hocc.
    exact (search_tool_name_complete _ _ _ Hocc eq_refl). }
  split; [exact Hsearch|]. split; [exact Hnone|].
  destruct (tool_result_name_from_pattern (rt := sample_runtime)
              (message [text; JObj (block hits)]) (block hits) hits
              eq_refl eq_refl eq_refl eq_refl)
    as (_ & _ & Hconv & _ & _).
  destruct (tool_result_name_from_pattern (rt := sample_runtime)
              (message [JObj (block "3 hits")]) (block "3 hits") "3 hits"
              eq_refl eq_refl eq_refl eq_refl)
    as (_ & _ & _ & Hreturns & _).
  split; [reflexivity|]. split.
  - exact (Hconv "search" [user] [] [text] [] _ Hsearch eq_refl eq_refl).
  - exact (Hreturns "unknown" Hnone eq_refl).
Defined.
